(** * WebGisMapGenerationTool: the layer composer and the tower classifier

    A shallow embedding of [Generators/FCCTower.py] (the map generator
    [create_map_fcc_towers] and its helpers) and of
    [Organization/FCCTowerExtraction.py] (the ownership classifier
    [categorize_entity]), with the properties of the design document
    stated and settled over the embedding.

    Conventions of the embedding.
    - A Python [str] is a [string]; [str.lower], [str.upper] and
      [str.title] are embedded as they act on ASCII strings.  Outside
      ASCII they differ: [str.lower] takes U+212A to the letter k and
      [str.upper] takes U+017F to the letter S.  A property that depends
      on the case mapping of an arbitrary string therefore carries the
      hypothesis [isascii], unless the difference cannot change the result.
    - Python [int] is [Z]; Python [float] is the kernel's binary64 [float].
    - A pandas/GeoPandas frame is the list of its rows, in row order.
    - A file that is optional is an [option]: [None] when the path is empty
      or nothing exists there.
    - A Python [dict] that the code iterates over is an association list in
      insertion order; one that it only looks keys up in is a [gmap].
    - Exceptions are the [Raise] results of [result]. *)

From Stdlib Require Import ZArith String Ascii List Bool Lia PrimFloat Uint63.
From stdpp Require Import gmap strings list pretty.

Set Default Proof Using "Type".
Set Warnings "-inexact-float".
Local Open Scope string_scope.
Local Open Scope list_scope.

(** ** Python string primitives *)
Module PyStr.

(** [c.lower()] for one character. *)
Definition lower_ascii (c : ascii) : ascii :=
  let n := nat_of_ascii c in
  if (65 <=? n)%nat && (n <=? 90)%nat then ascii_of_nat (n + 32) else c.

(** [s.lower()]. *)
Fixpoint lower (s : string) : string :=
  match s with
  | EmptyString => EmptyString
  | String c s' => String (lower_ascii c) (lower s')
  end.

(** [s.startswith(p)]. *)
Fixpoint startswith (p s : string) : bool :=
  match p, s with
  | EmptyString, _ => true
  | String _ _, EmptyString => false
  | String a p', String b s' => Ascii.eqb a b && startswith p' s'
  end.

(** [p in s]: [p] occurs in [s] as a contiguous substring. *)
Fixpoint str_in (p s : string) : bool :=
  startswith p s ||
  match s with
  | EmptyString => false
  | String _ s' => str_in p s'
  end.

(** [c.isspace()] on ASCII. *)
Definition isspace (c : ascii) : bool :=
  let n := nat_of_ascii c in
  ((9 <=? n)%nat && (n <=? 13)%nat) || ((28 <=? n)%nat && (n <=? 32)%nat).

Fixpoint lstrip (s : string) : string :=
  match s with
  | EmptyString => EmptyString
  | String c s' => if isspace c then lstrip s' else s
  end.

Fixpoint rstrip (s : string) : string :=
  match s with
  | EmptyString => EmptyString
  | String c s' =>
      match rstrip s' with
      | EmptyString => if isspace c then EmptyString else String c EmptyString
      | r => String c r
      end
  end.

(** [s.strip()]. *)
Definition strip (s : string) : string := rstrip (lstrip s).

(** [s.endswith(p)]. *)
Definition endswith (p s : string) : bool :=
  let n := String.length s in
  let k := String.length p in
  (k <=? n)%nat && String.eqb (substring (n - k) k s) p.

(** ["{:06x}".format(n)] for [0 <= n]: lower-case hexadecimal, padded
    with zeros to six digits. *)
Definition hex_digit (d : Z) : ascii :=
  if (d <? 10)%Z then ascii_of_nat (48 + Z.to_nat d)
  else ascii_of_nat (87 + Z.to_nat d).

Fixpoint hex_digits (fuel : nat) (n : Z) (acc : string) : string :=
  match fuel with
  | O => acc
  | S fuel' =>
      let acc' := String (hex_digit (n mod 16)) acc in
      if (n / 16 =? 0)%Z then acc' else hex_digits fuel' (n / 16) acc'
  end.

Fixpoint pad_zeros (k : nat) (s : string) : string :=
  match k with
  | O => s
  | S k' => String "0" (pad_zeros k' s)
  end.

Definition zfill (w : nat) (s : string) : string :=
  pad_zeros (w - String.length s) s.

Definition format_06x (n : Z) : string :=
  zfill 6 (hex_digits (S (Z.to_nat (Z.log2 n))) n EmptyString).

(** [c.upper()] and [c.isalpha()] for one ASCII character. *)
Definition upper_ascii (c : ascii) : ascii :=
  let n := nat_of_ascii c in
  if (97 <=? n)%nat && (n <=? 122)%nat then ascii_of_nat (n - 32) else c.

Definition is_cased (c : ascii) : bool :=
  let n := nat_of_ascii c in
  ((65 <=? n)%nat && (n <=? 90)%nat) || ((97 <=? n)%nat && (n <=? 122)%nat).

(** [s.title()]: a cased character is upper-cased when the character
    before it is not cased, and lower-cased otherwise. *)
Fixpoint title_from (previous_is_cased : bool) (s : string) : string :=
  match s with
  | EmptyString => EmptyString
  | String c s' =>
      String (if is_cased c
              then if previous_is_cased then lower_ascii c else upper_ascii c
              else c)
             (title_from (is_cased c) s')
  end.

Definition title (s : string) : string := title_from false s.

(** [os.path.splitext(p)[0]] for a file name without directory part:
    the name up to its last dot, unless only dots come before it. *)
Fixpoint rfind_dot (p : string) : option nat :=
  match p with
  | EmptyString => None
  | String c p' =>
      match rfind_dot p' with
      | Some i => Some (S i)
      | None => if Ascii.eqb c "." then Some O else None
      end
  end.

Fixpoint all_dots (p : string) : bool :=
  match p with
  | EmptyString => true
  | String c p' => Ascii.eqb c "." && all_dots p'
  end.

Definition splitext_root (p : string) : string :=
  match rfind_dot p with
  | None => p
  | Some dotIndex =>
      let root := substring 0 dotIndex p in
      if all_dots root then p else root
  end.

(** [s.upper()], on ASCII. *)
Fixpoint upper (s : string) : string :=
  match s with
  | EmptyString => EmptyString
  | String c s' => String (upper_ascii c) (upper s')
  end.

(** The string holds ASCII characters only ([s.isascii()]). *)
Fixpoint isascii (s : string) : bool :=
  match s with
  | EmptyString => true
  | String c s' => (nat_of_ascii c <? 128)%nat && isascii s'
  end.

End PyStr.

(** ** Organization/FCCTowerExtraction.py *)
Module FCCTowerExtraction.
Import PyStr.

(** [categorize_entity], the function nested in
    [add_tower_ownership_grouping].  The argument is [None] when
    [pd.isna(entity_name)] holds, and [Some] of [str(entity_name)]
    otherwise. *)
Definition categorize_entity (entity_name : option string) : string :=
  match entity_name with
  | None => "Other"
  | Some name =>
      let entity_lower := lower name in
      if existsb (fun pattern => str_in pattern entity_lower)
           ["american tower"; "amt"; "american towers"]
      then "American Towers"
      else if existsb (fun pattern => str_in pattern entity_lower)
           ["sba"; "sba communications"; "sba comm"]
      then "SBA"
      else if existsb (fun pattern => str_in pattern entity_lower)
           ["crown castle"; "crown"; "ccic"]
      then "Crown Castle"
      else "Other"
  end.

(** The design document's reading of the classifier: an ordered table of
    categories, each with its patterns; the first category one of whose
    patterns occurs in the lower-cased name wins, and the catch-all is
    returned when none does. *)
Definition priority_table : list (string * list string) :=
  [ ("American Towers", ["american tower"; "amt"; "american towers"]);
    ("SBA", ["sba"; "sba communications"; "sba comm"]);
    ("Crown Castle", ["crown castle"; "crown"; "ccic"]) ].

Definition matches_category (name : string) (pats : list string) : bool :=
  existsb (fun pattern => str_in pattern (lower name)) pats.

Fixpoint first_match (table : list (string * list string)) (name : string) : string :=
  match table with
  | [] => "Other"
  | (cat, pats) :: rest =>
      if matches_category name pats then cat else first_match rest name
  end.

(** [pat] occurs in [name] in any letter case. *)
Definition contains_ci (pat name : string) : Prop :=
  exists a m b, name = a +:+ m +:+ b /\ lower m = lower pat.

(** The structure type mapping of [FCCTowerExtractor.__init__]. *)
Definition structure_mapping : gmap string string :=
  list_to_map
    [ ("TA", "Tower Antenna"); ("GTA", "Guyed Tower"); ("LTA", "Lattice Tower");
      ("MTA", "Monopole Tower"); ("TOWER", "Tower"); ("GTOWER", "Guyed Tower");
      ("NTOWER", "Non-Guyed Tower"); ("MTOWER", "Monopole Tower");
      ("LTOWER", "Lattice Tower"); ("POLE", "Utility Pole");
      ("BPOLE", "Building-Mounted Pole"); ("3BPOLE", "Building-Mounted Pole");
      ("BPIPE", "Building-Mounted Pipe"); ("BTWR", "Building Tower");
      ("5BTWR", "Building Tower"); ("2BTWR", "Building Tower");
      ("UPOLE", "Utility Pole"); ("PIPE", "Pipe Structure"); ("MAST", "Mast");
      ("BMAST", "Building-Mounted Mast"); ("STACK", "Industrial Stack");
      ("SIGN", "Sign Structure"); ("TREE", "Tree Structure"); ("RIG", "Oil or Gas Rig");
      ("BRIDG", "Bridge Structure"); ("SILO", "Silo"); ("BANT", "Building Antenna");
      ("3BANT", "Building Antenna"); ("NNTANN", "Non-Tower Antenna"); ("TANK", "Tank") ].

(** [re.sub(r'[^A-Z]', '', s)]: the capital letters of [s], in order. *)
Fixpoint keep_capitals (s : string) : string :=
  match s with
  | EmptyString => EmptyString
  | String c s' =>
      let n := nat_of_ascii c in
      if (65 <=? n)%nat && (n <=? 90)%nat then String c (keep_capitals s')
      else keep_capitals s'
  end.

(** [extract_type]; the argument is [str(code)].  Neither [str] nor
    [upper] raises on it, so the [except] branch is never taken.  [upper]
    is the one of ASCII codes: the properties of [extract_type] are stated
    for codes with [isascii]. *)
Definition extract_type (code : string) : string :=
  let key := keep_capitals (upper code) in
  default "Unknown" (structure_mapping !! key).

(** [add_tower_ownership_grouping]: the new column [grouped_entity] of the
    frame [df]; [entity] reads the column of that name from a row, and is
    [None] when the frame has no such column. *)
Definition add_tower_ownership_grouping {R : Type} (entity : option (R -> option string))
    (df : list R) : list string :=
  match entity with
  | Some column => List.map (fun row => categorize_entity (column row)) df
  | None => List.map (fun _ => "Other") df
  end.

End FCCTowerExtraction.

(** ** Generators/FCCTower.py *)
Module FCCTower.
Import PyStr.

(** *** Exceptions *)
Inductive exn :=
| IndexError
| UnboundLocalError (name : string).

Inductive result (A : Type) :=
| Ok (a : A)
| Raise (e : exn).
Arguments Ok {A} a.
Arguments Raise {A} e.

(** *** The [random] module

    The generator's future outputs are an unknown sequence; each call of
    [random.randint] consumes the next one. *)
Record RandomState := { draws : nat -> Z; pos : nat }.

Definition randint (a b : Z) (st : RandomState) : Z * RandomState :=
  ((a + draws st (pos st) mod (b - a + 1))%Z,
   {| draws := draws st; pos := S (pos st) |}).

(** *** Data frames *)
Record Point := { geom_y : float; geom_x : float }.

(** The geometry library: the type of shapes, [geometry.centroid] and
    [shapely.ops.unary_union]. *)
Class Shapely (G : Type) := {
  centroid : G -> Point;
  unary_union : list G -> G
}.

(** The C library behind [math.cos]. *)
Class Math := { cos : float -> float }.

(** A row of the CBRS spreadsheet; [cbrs_county_name] is [None] for an
    empty cell. *)
Record CbrsRecord := {
  cbrs_Channel : string;
  cbrs_county_name : option string;
  cbrs_bidder : string;
  cbrs_state_abbr : string
}.

(** A row of the county outline; [county_row_name] is [None] when the
    frame has no [name] column.  A frame that has the column, with a NULL
    name in some row, is not embedded: the rows of a frame are named, all
    of them or none. *)
Record CountyRow (G : Type) := {
  county_row_name : option string;
  county_geometry : G
}.
Arguments county_row_name {G} _.
Arguments county_geometry {G} _.

Record GridCell (G : Type) := {
  grid_geometry : G;
  point_count : Z
}.
Arguments grid_geometry {G} _.
Arguments point_count {G} _.

(** A row of the antenna file: its point, the owner group written by the
    extractor, and the remaining columns, read only by the popups.  The
    file is one with a [grouped_entity] column, as the extractor writes
    it; without the column the generator raises [KeyError], which is not
    embedded: the properties say what a returned map is like and when
    none is returned, not that one is returned for every such input. *)
Record AntennaRow := {
  antenna_geometry : Point;
  grouped_entity : string;
  antenna_columns : list (string * string)
}.

(** *** The map and what is put on it *)
Record Style := {
  fillColor : string;
  color : string;
  weight : Z;
  fillOpacity : float
}.

Record CircleMarker := {
  cm_location : Point;
  cm_radius : Z;
  cm_color : string;
  cm_fill_color : string;
  cm_fill_opacity : Z;
  cm_weight : Z
}.

Inductive Icon :=
| DivIcon (label : string)
| FaIcon (icon icon_color marker_color : string).

(** A popup is kept as the data its HTML table is printed from. *)
Inductive Popup :=
| CbrsPopup (cbrs_info : list CbrsRecord)
| TowerPopup (idx : nat) (row : AntennaRow).

Inductive Element (G : Type) :=
| GeoJson (data : list G) (style : Style)
| MarkerCluster (markers : list CircleMarker)
| Marker (location : Point) (icon : Icon) (popup : Popup)
| Circle (location : Point) (radius : float) (stroke : string)
         (stroke_weight : option Z) (fill : string) (fill_opacity : float)
         (dash_array : option string).
Arguments GeoJson {G} data style.
Arguments MarkerCluster {G} markers.
Arguments Marker {G} location icon popup.
Arguments Circle {G} location radius stroke stroke_weight fill fill_opacity dash_array.

Record FeatureGroup (G : Type) := {
  fg_name : string;
  fg_show : bool;
  fg_children : list (Element G)
}.
Arguments fg_name {G} _.
Arguments fg_show {G} _.
Arguments fg_children {G} _.

Inductive MapChild (G : Type) :=
| TileLayer (name : string)
| Group (fg : FeatureGroup G)
| LayerControl.
Arguments TileLayer {G} name.
Arguments Group {G} fg.
Arguments LayerControl {G}.

Record Map (G : Type) := {
  map_location : Point;
  zoom_start : Z;
  map_children : list (MapChild G)
}.
Arguments map_location {G} _.
Arguments zoom_start {G} _.
Arguments map_children {G} _.

(** [child.add_to(m)]. *)
Definition add_to {G} (child : MapChild G) (m : Map G) : Map G :=
  {| map_location := map_location m;
     zoom_start := zoom_start m;
     map_children := map_children m ++ [child] |}.

(** [element.add_to(fg)]. *)
Definition add_to_group {G} (e : Element G) (fg : FeatureGroup G) : FeatureGroup G :=
  {| fg_name := fg_name fg;
     fg_show := fg_show fg;
     fg_children := fg_children fg ++ [e] |}.

(** [folium.FeatureGroup(name=..., show=...)]. *)
Definition new_FeatureGroup {G} (name : string) (show : bool) : FeatureGroup G :=
  {| fg_name := name; fg_show := show; fg_children := [] |}.

(** The layers of the artifact: the feature groups attached to the map,
    in the order they were attached. *)
Definition feature_groups {G} (m : Map G) : list (FeatureGroup G) :=
  flat_map (fun c => match c with Group fg => [fg] | _ => [] end) (map_children m).

Definition layer_names {G} (m : Map G) : list string :=
  List.map fg_name (feature_groups m).

(** The number of features behind an element and behind a layer. *)
Definition element_features {G} (e : Element G) : nat :=
  match e with
  | GeoJson data _ => length data
  | MarkerCluster markers => length markers
  | Marker _ _ _ => 1
  | Circle _ _ _ _ _ _ _ => 1
  end.

Definition layer_features {G} (fg : FeatureGroup G) : nat :=
  list_sum (List.map element_features (fg_children fg)).

(** *** CBRS licences *)

(** [df.groupby("county_name").apply(records).to_dict()]: the rows of
    each county name, in row order; rows without a name are left out.
    When no row has a name, pandas returns a frame instead of a series, and
    the dict then has the column names for keys, each with an empty dict:
    looked up with [.get(name, [])], it gives no record either way, and
    the keys of the dict are only spoken of for frames with a named row. *)
Definition groupby_county_name (rows : list CbrsRecord) : gmap string (list CbrsRecord) :=
  foldl (fun (groups : gmap string (list CbrsRecord)) r =>
           match cbrs_county_name r with
           | None => groups
           | Some k => <[k := default [] (groups !! k) ++ [r]]> groups
           end) ∅ rows.

Definition load_cbrs_data_filtered (cbrs_file : option (list CbrsRecord))
    (state_abbr : string) : gmap string (list CbrsRecord) :=
  match cbrs_file with
  | None => ∅
  | Some cbrs_df =>
      let state_filtered_df :=
        List.filter (fun r => String.eqb (cbrs_state_abbr r) state_abbr) cbrs_df in
      match state_filtered_df with
      | [] => ∅
      | _ => groupby_county_name state_filtered_df
      end
  end.

Definition STATE_NAME_TO_ABBR : gmap string string :=
  list_to_map
    [ ("Alabama", "AL"); ("Alaska", "AK"); ("Arizona", "AZ"); ("Arkansas", "AR");
      ("California", "CA"); ("Colorado", "CO"); ("Connecticut", "CT");
      ("Delaware", "DE"); ("Florida", "FL"); ("Georgia", "GA"); ("Hawaii", "HI");
      ("Idaho", "ID"); ("Illinois", "IL"); ("Indiana", "IN"); ("Iowa", "IA");
      ("Kansas", "KS"); ("Kentucky", "KY"); ("Louisiana", "LA"); ("Maine", "ME");
      ("Maryland", "MD"); ("Massachusetts", "MA"); ("Michigan", "MI");
      ("Minnesota", "MN"); ("Mississippi", "MS"); ("Missouri", "MO");
      ("Montana", "MT"); ("Nebraska", "NE"); ("Nevada", "NV");
      ("New Hampshire", "NH"); ("New Jersey", "NJ"); ("New Mexico", "NM");
      ("New York", "NY"); ("North Carolina", "NC"); ("North Dakota", "ND");
      ("Ohio", "OH"); ("Oklahoma", "OK"); ("Oregon", "OR"); ("Pennsylvania", "PA");
      ("Rhode Island", "RI"); ("South Carolina", "SC"); ("South Dakota", "SD");
      ("Tennessee", "TN"); ("Texas", "TX"); ("Utah", "UT"); ("Vermont", "VT");
      ("Virginia", "VA"); ("Washington", "WA"); ("West Virginia", "WV");
      ("Wisconsin", "WI"); ("Wyoming", "WY");
      ("District of Columbia", "DC"); ("Puerto Rico", "PR");
      ("Virgin Islands", "VI"); ("American Samoa", "AS"); ("Guam", "GU");
      ("Northern Mariana Islands", "MP") ].

Definition get_state_abbreviation (state_name : string) : option string :=
  match STATE_NAME_TO_ABBR !! state_name with
  | Some abbr => Some abbr
  | None =>
      let title_case_name := title state_name in
      match STATE_NAME_TO_ABBR !! title_case_name with
      | Some abbr => Some abbr
      | None =>
          let variations : gmap string string :=
            list_to_map [ ("District Of Columbia", "DC");
                          ("Washington DC", "DC");
                          ("Washington D.C.", "DC") ] in
          variations !! state_name
      end
  end.

(** *** WISP overlays *)
Definition wisp_colors : list (string * string) :=
  [ ("AT&T", "#009FDB");
    ("T-Mobile", "#E20074");
    ("Verizon", "#E81123");
    ("Mediacom Bolt", "#0033A0");
    ("Point Broadband", "#F89728");
    ("Cloud 9 Wireless", "#6BACE4");
    ("Dragonfly Internet", "#FF5733");
    ("Rapid Wireless LLC", "#28A745");
    ("Wildstar Networks", "#8E44AD") ].

(** The loop of [get_wisp_color]: the colour of the first key that occurs
    in the name.  [lower] is the one of ASCII names; a name with U+212A in
    it can match the key 'Wildstar Networks' in Python where it does not
    here, so what is said of names without a match is said of ASCII
    names. *)
Fixpoint known_wisp_color (colors : list (string * string)) (wisp_name : string)
    : option string :=
  match colors with
  | [] => None
  | (key, c) :: rest =>
      if str_in (lower key) (strip (lower wisp_name)) then Some c
      else known_wisp_color rest wisp_name
  end.

Definition get_wisp_color (wisp_name : string) (st : RandomState)
    : string * RandomState :=
  match known_wisp_color wisp_colors wisp_name with
  | Some c => (c, st)
  | None =>
      let '(n, st') := randint 0 0xFFFFFF st in
      ("#" +:+ format_06x n, st')
  end.

Definition fill_style (c : string) : Style :=
  {| fillColor := c; color := c; weight := 1; fillOpacity := 0.6 |}.

(** [add_wisp_layers]; [wisp_folder] is [None] when the path is not a
    directory, and otherwise the directory listing: every file name with
    the geometries read from it. *)
Fixpoint add_wisp_files {G} (m : Map G) (files : list (string * list G))
    (st : RandomState) : Map G * RandomState :=
  match files with
  | [] => (m, st)
  | (file, wisp_layer) :: rest =>
      if endswith ".sqlite" file then
        let wisp_name := splitext_root file in
        let '(c, st') := get_wisp_color wisp_name st in
        let wisp_fg := new_FeatureGroup ("WISP - " +:+ wisp_name) false in
        let wisp_fg := add_to_group (GeoJson wisp_layer (fill_style c)) wisp_fg in
        add_wisp_files (add_to (Group wisp_fg) m) rest st'
      else add_wisp_files m rest st
  end.

Definition add_wisp_layers {G} (m : Map G) (wisp_folder : option (list (string * list G)))
    (st : RandomState) : Map G * RandomState :=
  match wisp_folder with
  | None => (m, st)
  | Some files => add_wisp_files m files st
  end.

(** *** BEAD locations *)
Definition bead_marker (color border_color : string) (p : Point) : CircleMarker :=
  {| cm_location := p; cm_radius := 4; cm_color := border_color;
     cm_fill_color := color; cm_fill_opacity := 1; cm_weight := 1 |}.

Definition add_bead_locations_layer {G} (m : Map G) (locations_data : option (list Point))
    (layer_name color border_color : string) (show : bool) : Map G :=
  match locations_data with
  | None => m
  | Some [] => m
  | Some rows =>
      let bead_feature_group := new_FeatureGroup layer_name show in
      let marker_cluster := MarkerCluster (List.map (bead_marker color border_color) rows) in
      add_to (Group (add_to_group marker_cluster bead_feature_group)) m
  end.

(** *** CCI layers (Maine) *)
Definition add_cci_layers {G} (m : Map G) (cci_ds_file cci_fiber_file : option (list G))
    : Map G :=
  let m :=
    match cci_ds_file with
    | Some cci_ds_data =>
        add_to (Group (add_to_group
                         (GeoJson cci_ds_data
                            {| fillColor := "#FF6B35"; color := "#FF6B35";
                               weight := 2; fillOpacity := 0.7 |})
                         (new_FeatureGroup "CCI DSL" false))) m
    | None => m
    end in
  match cci_fiber_file with
  | Some cci_fiber_data =>
      add_to (Group (add_to_group
                       (GeoJson cci_fiber_data
                          {| fillColor := "#4ECDC4"; color := "#4ECDC4";
                             weight := 2; fillOpacity := 0.7 |})
                       (new_FeatureGroup "CCI Fiber" false))) m
  | None => m
  end.

(** *** Grid analysis *)
Definition range_dict : list (string * ((Z * Z) * string)) :=
  [ ("0", ((1, 5), "#e4e4f3"));
    ("1", ((5, 10), "#d1d1ea"));
    ("2", ((10, 20), "#b3b3e0"));
    ("3", ((20, 30), "#8080c5"));
    ("4", ((30, 50), "#6d6dbd"));
    ("5", ((50, 75), "#4949ac"));
    ("6", ((75, 100), "#3737a4"));
    ("7", ((100, 50000), "#121293")) ]%Z.

(** The row filter of the grid loop:
    [point_count >= rng_min) & (point_count < rng_max]. *)
Definition in_range (rng_min rng_max count : Z) : bool :=
  (rng_min <=? count)%Z && (count <? rng_max)%Z.

Definition grid_layer_name (rng_min rng_max : Z) : string :=
  if (rng_min =? 100)%Z
  then "Grid Layer (" +:+ pretty rng_min +:+ "+ Locations)"
  else "Grid Layer (" +:+ pretty rng_min +:+ "-" +:+ pretty rng_max +:+ " Locations)".

(** One turn of the loop over [range_dict.items()]. *)
Definition add_grid_layer {G} `{Shapely G} (grid_analysis_layer : list (GridCell G))
    (m : Map G) (item : string * ((Z * Z) * string)) : Map G :=
  let '(key, ((rng_min, rng_max), c)) := item in
  let subset :=
    List.filter (fun cell => in_range rng_min rng_max (point_count cell))
      grid_analysis_layer in
  match subset with
  | [] => m
  | _ =>
      let dissolved_geo := unary_union (List.map grid_geometry subset) in
      let fg_grid := new_FeatureGroup (grid_layer_name rng_min rng_max) false in
      add_to (Group (add_to_group (GeoJson [dissolved_geo] (fill_style c)) fg_grid)) m
  end.

Definition add_grid_layers {G} `{Shapely G} (m : Map G)
    (grid_analysis_layer : list (GridCell G)) : Map G :=
  foldl (add_grid_layer grid_analysis_layer) m range_dict.

(** The bucket of a count: the positions in [range_dict] of the ranges
    that the filter of the grid loop accepts the count for. *)
Definition matching_buckets (count : Z) : list nat :=
  List.map fst
    (List.filter (fun '(_, (_, ((rng_min, rng_max), _))) => in_range rng_min rng_max count)
       (combine (seq 0 (length range_dict)) range_dict)).

Definition bucketAssign (count : Z) : option nat := head (matching_buckets count).

(** *** Antennas and coverage *)

(** [math.radians]. *)
Definition radians (deg : float) : float :=
  (deg * (0x1.921fb54442d18p+1 / 180))%float.

Definition degrees_per_mile `{Math} (lat miles : float) : float :=
  (miles / (69 * cos (radians lat)))%float.

Definition r2 `{Math} (lat : float) : float := (degrees_per_mile lat 2 * 111000)%float.
Definition r5 `{Math} (lat : float) : float := (degrees_per_mile lat 5 * 111000)%float.

(** [iterrows()] of a frame read from a file: rows with their position. *)
Definition iterrows {A} (df : list A) : list (nat * A) :=
  combine (seq 0 (length df)) df.

(** [antenna_data[antenna_data['grouped_entity'] == group]]: the index
    labels stay those of [antenna_data]. *)
Definition select_group (group : string) (antenna_data : list (nat * AntennaRow))
    : list (nat * AntennaRow) :=
  List.filter (fun ir => String.eqb (grouped_entity (snd ir)) group) antenna_data.

Definition coverage_styles : list (string * string) :=
  [ ("Other", "blue"); ("American Towers", "red");
    ("SBA", "purple"); ("Crown Castle", "orange") ].

Definition coverage_color (group : string) : string :=
  default "" (snd <$> List.find (fun kv => String.eqb (fst kv) group) coverage_styles).

(** [add_coverage_rings]: both groups are returned, filled. *)
Definition add_coverage_rings {G} `{Math} (group_data : list (nat * AntennaRow))
    (group_color : string) (fg_2mi fg_5mi : FeatureGroup G)
    : FeatureGroup G * FeatureGroup G :=
  foldl (fun '(fg_2mi, fg_5mi) ir =>
           let p := antenna_geometry (snd ir) in
           let lat := geom_y p in
           (add_to_group (Circle p (r2 lat) group_color (Some 2%Z) group_color 0.2 None) fg_2mi,
            add_to_group (Circle p (r5 lat) group_color (Some 2%Z) group_color 0.1
                            (Some "10,5")) fg_5mi))
        (fg_2mi, fg_5mi) group_data.

(** The marker loops, one per owner group. *)
Definition add_markers {G} (group_data : list (nat * AntennaRow)) (marker_color : string)
    (fg : FeatureGroup G) : FeatureGroup G :=
  foldl (fun fg ir =>
           add_to_group (Marker (antenna_geometry (snd ir))
                           (FaIcon "wifi" "white" marker_color)
                           (TowerPopup (fst ir) (snd ir))) fg)
        fg group_data.

(** The local variables that the antenna block binds. *)
Record AntennaGroups (G : Type) := {
  fg_antennas : FeatureGroup G;
  fg_antennas_american_towers : FeatureGroup G;
  fg_antennas_sba_towers : FeatureGroup G;
  fg_antennas_crown_castle : FeatureGroup G;
  fg_coverage2 : FeatureGroup G;
  fg_coverage5 : FeatureGroup G;
  fg_coverage2_other : FeatureGroup G;
  fg_coverage5_other : FeatureGroup G;
  fg_coverage2_american : FeatureGroup G;
  fg_coverage5_american : FeatureGroup G;
  fg_coverage2_sba : FeatureGroup G;
  fg_coverage5_sba : FeatureGroup G;
  fg_coverage2_crown : FeatureGroup G;
  fg_coverage5_crown : FeatureGroup G
}.
Arguments fg_antennas {G} _.
Arguments fg_antennas_american_towers {G} _.
Arguments fg_antennas_sba_towers {G} _.
Arguments fg_antennas_crown_castle {G} _.
Arguments fg_coverage2 {G} _.
Arguments fg_coverage5 {G} _.
Arguments fg_coverage2_other {G} _.
Arguments fg_coverage5_other {G} _.
Arguments fg_coverage2_american {G} _.
Arguments fg_coverage5_american {G} _.
Arguments fg_coverage2_sba {G} _.
Arguments fg_coverage5_sba {G} _.
Arguments fg_coverage2_crown {G} _.
Arguments fg_coverage5_crown {G} _.

(** The body of [if antenna_file and os.path.exists(antenna_file)]. *)
Definition antenna_block {G} `{Math} (antenna_file : list AntennaRow) : AntennaGroups G :=
  let antenna_data := iterrows antenna_file in
  let american_tower_data := select_group "American Towers" antenna_data in
  let sba_tower_data := select_group "SBA" antenna_data in
  let crown_castle_tower_data := select_group "Crown Castle" antenna_data in
  let other_tower_data := select_group "Other" antenna_data in
  let fg_antennas := new_FeatureGroup "Antenna Locations - Other" false in
  let fg_antennas_american_towers :=
    new_FeatureGroup "Antenna Locations - American Towers" false in
  let fg_antennas_sba_towers := new_FeatureGroup "Antenna Locations - SBA Towers" false in
  let fg_antennas_crown_castle :=
    new_FeatureGroup "Antenna Locations - Crown Castle Towers" false in
  let fg_coverage2 := new_FeatureGroup "Antenna Coverage (2 Miles)" false in
  let fg_coverage5 := new_FeatureGroup "Antenna Coverage (5 Miles)" false in
  let '(fg_coverage2_other, fg_coverage5_other) :=
    add_coverage_rings other_tower_data (coverage_color "Other")
      (new_FeatureGroup "Other - Coverage 2 Mile" false)
      (new_FeatureGroup "Other - Coverage 5 Mile" false) in
  let '(fg_coverage2_american, fg_coverage5_american) :=
    add_coverage_rings american_tower_data (coverage_color "American Towers")
      (new_FeatureGroup "American Towers - Coverage 2 Mile" false)
      (new_FeatureGroup "American Towers - Coverage 5 Mile" false) in
  let '(fg_coverage2_sba, fg_coverage5_sba) :=
    add_coverage_rings sba_tower_data (coverage_color "SBA")
      (new_FeatureGroup "SBA Towers - Coverage 2 Mile" false)
      (new_FeatureGroup "SBA Towers - Coverage 5 Mile" false) in
  let '(fg_coverage2_crown, fg_coverage5_crown) :=
    add_coverage_rings crown_castle_tower_data (coverage_color "Crown Castle")
      (new_FeatureGroup "Crown Castle - Coverage 2 Mile" false)
      (new_FeatureGroup "Crown Castle - Coverage 5 Mile" false) in
  let '(fg_coverage2, fg_coverage5) :=
    foldl (fun '(fg_coverage2, fg_coverage5) ir =>
             let p := antenna_geometry (snd ir) in
             let lat := geom_y p in
             (add_to_group (Circle p (r2 lat) "green" None "green" 0.2 None) fg_coverage2,
              add_to_group (Circle p (r5 lat) "blue" None "blue" 0.1 None) fg_coverage5))
          (fg_coverage2, fg_coverage5) antenna_data in
  {| fg_antennas := add_markers other_tower_data "blue" fg_antennas;
     fg_antennas_american_towers :=
       add_markers american_tower_data "red" fg_antennas_american_towers;
     fg_antennas_sba_towers := add_markers sba_tower_data "purple" fg_antennas_sba_towers;
     fg_antennas_crown_castle :=
       add_markers crown_castle_tower_data "orange" fg_antennas_crown_castle;
     fg_coverage2 := fg_coverage2;
     fg_coverage5 := fg_coverage5;
     fg_coverage2_other := fg_coverage2_other;
     fg_coverage5_other := fg_coverage5_other;
     fg_coverage2_american := fg_coverage2_american;
     fg_coverage5_american := fg_coverage5_american;
     fg_coverage2_sba := fg_coverage2_sba;
     fg_coverage5_sba := fg_coverage5_sba;
     fg_coverage2_crown := fg_coverage2_crown;
     fg_coverage5_crown := fg_coverage5_crown |}.

(** The statements after the antenna block, which attach twelve groups. *)
Definition attach_antenna_layers {G} (g : AntennaGroups G) (m : Map G) : Map G :=
  let m := add_to (Group (fg_antennas g)) m in
  let m := add_to (Group (fg_coverage2_other g)) m in
  let m := add_to (Group (fg_coverage5_other g)) m in
  let m := add_to (Group (fg_antennas_american_towers g)) m in
  let m := add_to (Group (fg_coverage2_american g)) m in
  let m := add_to (Group (fg_coverage5_american g)) m in
  let m := add_to (Group (fg_antennas_sba_towers g)) m in
  let m := add_to (Group (fg_coverage2_sba g)) m in
  let m := add_to (Group (fg_coverage5_sba g)) m in
  let m := add_to (Group (fg_antennas_crown_castle g)) m in
  let m := add_to (Group (fg_coverage2_crown g)) m in
  add_to (Group (fg_coverage5_crown g)) m.

(** *** The generator *)

(** What [create_map_fcc_towers] reads: its [state_name] argument and the
    contents of the files its path arguments resolve to.  The four
    required files are always read; an optional one is [None] when its
    path is empty or names nothing. *)
Record Inputs (G : Type) := {
  state_name : string;
  state_outline : list G;
  county_outline : list (CountyRow G);
  bead_eligible_locations : list Point;
  grid_analysis_layer : list (GridCell G);
  cbrs_file : option (list CbrsRecord);
  round2_locations_file : option (list Point);
  cai_locations_file : option (list Point);
  cci_ds_file : option (list G);
  cci_fiber_file : option (list G);
  wisp_folder : option (list (string * list G));
  antenna_file : option (list AntennaRow)
}.
Arguments state_name {G} _.
Arguments state_outline {G} _.
Arguments county_outline {G} _.
Arguments bead_eligible_locations {G} _.
Arguments grid_analysis_layer {G} _.
Arguments cbrs_file {G} _.
Arguments round2_locations_file {G} _.
Arguments cai_locations_file {G} _.
Arguments cci_ds_file {G} _.
Arguments cci_fiber_file {G} _.
Arguments wisp_folder {G} _.
Arguments antenna_file {G} _.

Definition outline_style (c : string) (w : Z) : Style :=
  {| fillColor := "none"; color := c; weight := w; fillOpacity := 0 |}.

(** The name a county row is joined and labelled under. *)
Definition county_name_of {G} (row : CountyRow G) : string :=
  default "Unknown County" (county_row_name row).

(** [cbrs_data.get(county_name, [])]. *)
Definition cbrs_info_of (cbrs_data : gmap string (list CbrsRecord)) (county_name : string)
    : list CbrsRecord :=
  default [] (cbrs_data !! county_name).

(** Step 6: the county outline with one label marker per county, whose
    popup lists the licences joined to the county by name. *)
Definition county_layer {G} `{Shapely G} (county_outline : list (CountyRow G))
    (cbrs_data : gmap string (list CbrsRecord)) : FeatureGroup G :=
  let fg_county := new_FeatureGroup "County Outline" true in
  let fg_county :=
    add_to_group (GeoJson (List.map county_geometry county_outline) (outline_style "blue" 1))
      fg_county in
  foldl (fun fg row =>
           let county_name := county_name_of row in
           let cbrs_info := cbrs_info_of cbrs_data county_name in
           add_to_group (Marker (centroid (county_geometry row)) (DivIcon county_name)
                           (CbrsPopup cbrs_info)) fg)
        fg_county county_outline.

(** Step 5: the state outline. *)
Definition state_layer {G} (state_outline : list G) : FeatureGroup G :=
  let fg_state := new_FeatureGroup "State Outline" true in
  add_to_group (GeoJson state_outline (outline_style "red" 2)) fg_state.

(** Step 7: the BEAD layers, round 1 first, then round 2 and the CAIs
    when their files were loaded. *)
Definition bead_layers {G} (inp : Inputs G) (m : Map G) : Map G :=
  let bead_eligible_locations_round_2 := round2_locations_file inp in
  let bead_eligible_cai := cai_locations_file inp in
  let has_round2 := bool_decide (is_Some bead_eligible_locations_round_2) in
  let has_cai := bool_decide (is_Some bead_eligible_cai) in
  let '(round1_name, round1_show) :=
    if has_round2 || has_cai
    then ("BEAD Eligible Locations Round 1", true)
    else ("BEAD Eligible Locations", true) in
  let m := add_bead_locations_layer m (Some (bead_eligible_locations inp))
             round1_name "#01fbff" "white" round1_show in
  let m := if has_round2
           then add_bead_locations_layer m bead_eligible_locations_round_2
                  "BEAD Eligible Locations Round 2" "#01fbff" "black" false
           else m in
  if has_cai
  then add_bead_locations_layer m bead_eligible_cai
         "BEAD Eligible CAIs" "#01fbff" "black" false
  else m.

(** Step 8: the CCI layers, for Maine only. *)
Definition cci_layers {G} (inp : Inputs G) (m : Map G) : Map G :=
  if String.eqb (lower (state_name inp)) "maine"
     && (bool_decide (is_Some (cci_ds_file inp))
         || bool_decide (is_Some (cci_fiber_file inp)))
  then add_cci_layers m (cci_ds_file inp) (cci_fiber_file inp)
  else m.

(** Step 2, the CBRS part: the licences of the state, by county name. *)
Definition cbrs_data_of {G} (inp : Inputs G) : gmap string (list CbrsRecord) :=
  let state_abbr := get_state_abbreviation (state_name inp) in
  match state_abbr, cbrs_file inp with
  | Some abbr, Some _ => load_cbrs_data_filtered (cbrs_file inp) abbr
  | _, _ => ∅
  end.

Definition create_map_fcc_towers {G} `{Shapely G} `{Math} (inp : Inputs G)
    (st : RandomState) : result (Map G) * RandomState :=
  (* 2) load data *)
  let cbrs_data := cbrs_data_of inp in
  (* 3) the map, centred on the centroid of the first outline *)
  match state_outline inp with
  | [] => (Raise IndexError, st)
  | first :: _ =>
      let m := {| map_location := centroid first; zoom_start := 7; map_children := [] |} in
      (* 4) base layers *)
      let m := add_to (TileLayer "White Background") m in
      let m := add_to (TileLayer "Google Maps") m in
      let m := add_to (TileLayer "Google Satellite") m in
      (* 5) state outline *)
      let m := add_to (Group (state_layer (state_outline inp))) m in
      (* 6) county outline and CBRS popups *)
      let m := add_to (Group (county_layer (county_outline inp) cbrs_data)) m in
      (* 7) BEAD eligible locations *)
      let m := bead_layers inp m in
      (* 8) CCI layers *)
      let m := cci_layers inp m in
      (* 9) grid analysis layers *)
      let m := add_grid_layers m (grid_analysis_layer inp) in
      (* 10) WISP layers *)
      let '(m, st) := add_wisp_layers m (wisp_folder inp) st in
      (* 11) antennas: the block binds its names only when the file is there *)
      let locals := antenna_block <$> antenna_file inp in
      (* the groups are attached after the block, whether it ran or not *)
      match locals with
      | None => (Raise (UnboundLocalError "fg_antennas"), st)
      | Some g =>
          let m := attach_antenna_layers g m in
          (* 12) layer control *)
          (Ok (add_to LayerControl m), st)
      end
  end.

(** *** Reading the artifact *)

(** The groups that [attach_antenna_layers] attaches, in its order. *)
Definition antenna_layers {G} (g : AntennaGroups G) : list (FeatureGroup G) :=
  [ fg_antennas g; fg_coverage2_other g; fg_coverage5_other g;
    fg_antennas_american_towers g; fg_coverage2_american g; fg_coverage5_american g;
    fg_antennas_sba_towers g; fg_coverage2_sba g; fg_coverage5_sba g;
    fg_antennas_crown_castle g; fg_coverage2_crown g; fg_coverage5_crown g ].

Definition boundary_layer_names : list string :=
  ["State Outline"; "County Outline"].

Definition bead_layer_names : list string :=
  [ "BEAD Eligible Locations"; "BEAD Eligible Locations Round 1";
    "BEAD Eligible Locations Round 2"; "BEAD Eligible CAIs" ].

Definition cci_layer_names : list string := ["CCI DSL"; "CCI Fiber"].

(** The grid layer names, in the order of [range_dict]. *)
Definition grid_layer_names : list string :=
  List.map (fun '(_, ((rng_min, rng_max), _)) => grid_layer_name rng_min rng_max) range_dict.

Definition antenna_layer_names : list string :=
  [ "Antenna Locations - Other"; "Other - Coverage 2 Mile"; "Other - Coverage 5 Mile";
    "Antenna Locations - American Towers"; "American Towers - Coverage 2 Mile";
    "American Towers - Coverage 5 Mile";
    "Antenna Locations - SBA Towers"; "SBA Towers - Coverage 2 Mile";
    "SBA Towers - Coverage 5 Mile";
    "Antenna Locations - Crown Castle Towers"; "Crown Castle - Coverage 2 Mile";
    "Crown Castle - Coverage 5 Mile" ].

(** The names of the WISP layers of a folder: one per [.sqlite] file, in
    listing order. *)
Definition wisp_layer_names {G} (wisp_folder : option (list (string * list G)))
    : list string :=
  match wisp_folder with
  | None => []
  | Some files =>
      List.map (fun f => "WISP - " +:+ splitext_root (fst f))
        (List.filter (fun f => endswith ".sqlite" (fst f)) files)
  end.

(** Every [.sqlite] file of the folder has a colour in [wisp_colors]. *)
Definition wisp_colors_known {G} (wisp_folder : option (list (string * list G))) : bool :=
  match wisp_folder with
  | None => true
  | Some files =>
      forallb (fun f => negb (endswith ".sqlite" (fst f))
                        || bool_decide (is_Some (known_wisp_color wisp_colors
                                                   (splitext_root (fst f)))))
        files
  end.

(** Name and default visibility of every layer, in order; an exception
    stays what it is. *)
Definition layer_list {G} (r : result (Map G)) : result (list (string * bool)) :=
  match r with
  | Ok m => Ok (List.map (fun fg => (fg_name fg, fg_show fg)) (feature_groups m))
  | Raise e => Raise e
  end.

(** The record lists of the regions: the licence tables of the county
    popups, county by county. *)
Definition region_record_lists {G} (fg_county : FeatureGroup G) : list (list CbrsRecord) :=
  flat_map (fun e => match e with
                     | Marker _ _ (CbrsPopup cbrs_info) => [cbrs_info]
                     | _ => []
                     end) (fg_children fg_county).

(** A licence row is joined when it is of the state and its county name
    is the name of some county row. *)
Definition key_matches {G} (county_outline : list (CountyRow G)) (r : CbrsRecord) : bool :=
  match cbrs_county_name r with
  | Some k => existsb (String.eqb k) (List.map county_name_of county_outline)
  | None => false
  end.

Definition is_joined {G} (county_outline : list (CountyRow G)) (state_abbr : string)
    (r : CbrsRecord) : bool :=
  String.eqb (cbrs_state_abbr r) state_abbr && key_matches county_outline r.

(** The order the design document claims for the layers: boundaries,
    point data sets, density buckets, markers, coverage rings, overlays. *)
Definition claimed_rank (name : string) : nat :=
  if existsb (String.eqb name) boundary_layer_names then 0
  else if startswith "BEAD Eligible" name then 1
  else if startswith "Grid Layer" name then 2
  else if startswith "Antenna Locations" name then 3
  else if str_in "Coverage" name then 4
  else 5.

Fixpoint ascending (ranks : list nat) : bool :=
  match ranks with
  | a :: (b :: _) as rest => (a <=? b)%nat && ascending rest
  | _ => true
  end.

Definition in_claimed_order (names : list string) : bool :=
  ascending (List.map claimed_rank names).

(** The fill colours of the GeoJson layers, layer by layer. *)
Definition layer_fill_colors {G} (r : result (Map G)) : list (string * list string) :=
  match r with
  | Ok m =>
      List.map (fun fg =>
                  (fg_name fg,
                   flat_map (fun e => match e with
                                      | GeoJson _ style => [fillColor style]
                                      | _ => []
                                      end) (fg_children fg)))
        (feature_groups m)
  | Raise _ => []
  end.

(** [s.removeprefix(prefix)], when [s] starts with [prefix]. *)
Fixpoint removeprefix (prefix s : string) : option string :=
  match prefix, s with
  | EmptyString, _ => Some s
  | String a prefix', String b s' =>
      if Ascii.eqb a b then removeprefix prefix' s' else None
  | String _ _, EmptyString => None
  end.

(** The layers whose colour comes from the random generator: the WISP
    layers of a name in which no key of [wisp_colors] occurs. *)
Definition drawn_color {G} (fg : FeatureGroup G) : bool :=
  match removeprefix "WISP - " (fg_name fg) with
  | Some wisp_name => bool_decide (known_wisp_color wisp_colors wisp_name = None)
  | None => false
  end.

Definition without_color {G} (e : Element G) : Element G :=
  match e with
  | GeoJson data style =>
      GeoJson data {| fillColor := ""; color := ""; weight := weight style;
                      fillOpacity := fillOpacity style |}
  | _ => e
  end.

(** A map with the drawn colours taken out, and every other style choice
    left in: what two runs are compared on. *)
Definition without_drawn_colors_of {G} (m : Map G) : Map G :=
  {| map_location := map_location m;
     zoom_start := zoom_start m;
     map_children :=
       List.map (fun c => match c with
                          | Group fg =>
                              if drawn_color fg
                              then Group {| fg_name := fg_name fg; fg_show := fg_show fg;
                                            fg_children :=
                                              List.map without_color (fg_children fg) |}
                              else c
                          | _ => c
                          end) (map_children m) |}.

Definition without_drawn_colors {G} (r : result (Map G)) : result (Map G) :=
  match r with
  | Ok m => Ok (without_drawn_colors_of m)
  | Raise e => Raise e
  end.

(** *** The other CBRS loader *)

(** [load_cbrs_data]: the licences of every state, by county name. *)
Definition load_cbrs_data (cbrs_df : list CbrsRecord) : gmap string (list CbrsRecord) :=
  groupby_county_name cbrs_df.

(** *** The cluster icon script

    [create_cluster_icon_function] returns the text of a JavaScript
    function, which the map runs for every marker cluster.  The function
    is embedded here by what it computes from the cluster's child count:
    the colour of the icon and the colour of the number on it.  An upper
    end of [None] is [Infinity]. *)
Definition cluster_ranges : list ((Z * option Z) * string) :=
  [ ((1, Some 50), "#00ff00");
    ((50, Some 100), "#80ff00");
    ((100, Some 200), "#ffff00");
    ((200, Some 400), "#ffbf00");
    ((400, Some 700), "#ff8000");
    ((700, Some 1000), "#ff4000");
    ((1000, Some 2000), "#ff0000");
    ((2000, None), "#800000") ]%Z.

(** [childCount >= r.range[0] && childCount <= r.range[1]]. *)
Definition in_cluster_range (childCount : Z) (r : (Z * option Z) * string) : bool :=
  (fst (fst r) <=? childCount)%Z &&
  match snd (fst r) with
  | Some hi => (childCount <=? hi)%Z
  | None => true
  end.

(** [ranges.find(...)] and the fallback colour. *)
Definition clusterColor (childCount : Z) : string :=
  match List.find (in_cluster_range childCount) cluster_ranges with
  | Some rangeMatch => snd rangeMatch
  | None => "#333333"
  end.

(** The value of a hexadecimal digit, as a JavaScript number. *)
Definition hex_value (c : ascii) : option float :=
  let n := nat_of_ascii c in
  if (48 <=? n)%nat && (n <=? 57)%nat then Some (PrimFloat.of_uint63 (Uint63.of_nat (n - 48)))
  else if (97 <=? n)%nat && (n <=? 102)%nat
       then Some (PrimFloat.of_uint63 (Uint63.of_nat (n - 87)))
  else if (65 <=? n)%nat && (n <=? 70)%nat
       then Some (PrimFloat.of_uint63 (Uint63.of_nat (n - 55)))
  else None.

(** [parseInt(s, 16)] where [s] is two hexadecimal digits; other strings
    are outside the embedding ([None]): the script only parses the digit
    pairs of its own colour literals. *)
Definition parseInt16 (s : string) : option float :=
  match s with
  | String a (String b EmptyString) =>
      match hex_value a, hex_value b with
      | Some x, Some y => Some (x * 16 + y)%float
      | _, _ => None
      end
  | _ => None
  end.

(** [getTextColor]. *)
Definition getTextColor (hexColor : string) : option string :=
  match parseInt16 (substring 1 2 hexColor),
        parseInt16 (substring 3 2 hexColor),
        parseInt16 (substring 5 2 hexColor) with
  | Some r, Some g, Some b =>
      let brightness := ((r * 299 + g * 587 + b * 114) / 1000)%float in
      Some (if (125 <? brightness)%float then "black" else "white")
  | _, _, _ => None
  end.

(** *** Steps as appenders *)

(** A map without children, to read off what a step attaches. *)
Definition blank_map {G} : Map G :=
  {| map_location := {| geom_y := 0; geom_x := 0 |}; zoom_start := 0; map_children := [] |}.

Definition appended {G} (step : Map G -> Map G) : list (FeatureGroup G) :=
  feature_groups (step blank_map).

(** A map with more groups attached, in the given order. *)
Definition attach {G} (groups : list (FeatureGroup G)) (m : Map G) : Map G :=
  {| map_location := map_location m;
     zoom_start := zoom_start m;
     map_children := map_children m ++ List.map Group groups |}.

(** The base layers of step 4. *)
Definition base_layers {G} : list (MapChild G) :=
  [TileLayer "White Background"; TileLayer "Google Maps"; TileLayer "Google Satellite"].

(** The indices and rows that the tower popups of a marker layer show. *)
Definition popup_rows {G} (fg : FeatureGroup G) : list (nat * AntennaRow) :=
  flat_map (fun e => match e with
                     | Marker _ _ (TowerPopup idx row) => [(idx, row)]
                     | _ => []
                     end) (fg_children fg).

(** A lower-case hexadecimal digit. *)
Definition is_hex_digit (c : ascii) : bool :=
  let n := nat_of_ascii c in
  ((48 <=? n)%nat && (n <=? 57)%nat) || ((97 <=? n)%nat && (n <=? 102)%nat).

Fixpoint all_hex_digits (s : string) : bool :=
  match s with
  | EmptyString => true
  | String c s' => is_hex_digit c && all_hex_digits s'
  end.

End FCCTower.

(** ** Generators/BatchGenerator.py *)
Module BatchGenerator.
Import FCCTower.

(** [generate_map_for_state], from the point where the files of the state
    have been found: the generator is called, and any exception it raises
    is caught and reported as a failure. *)
Definition generate_map_for_state {G} `{Shapely G} `{Math} (inp : Inputs G)
    (st : RandomState) : bool * RandomState :=
  match create_map_fcc_towers inp st with
  | (Ok _, st') => (true, st')
  | (Raise _, st') => (false, st')
  end.

(** The loop of [generate_all_maps] over the states from position [i] on.
    [interrupt_at] is the position of the state during which the user
    interrupts the run ([KeyboardInterrupt]), if any: the loop is left
    there, and that state is counted neither way. *)
Fixpoint run_states {G} `{Shapely G} `{Math} (state_folders : list (Inputs G))
    (interrupt_at : option nat) (i successful failed : nat) (st : RandomState)
    : nat * nat * RandomState :=
  match state_folders with
  | [] => (successful, failed, st)
  | inp :: rest =>
      if bool_decide (interrupt_at = Some i) then (successful, failed, st)
      else
        let '(ok, st') := generate_map_for_state inp st in
        if ok then run_states rest interrupt_at (S i) (S successful) failed st'
        else run_states rest interrupt_at (S i) successful (S failed) st'
  end.

(** What [generate_all_maps] ends with: nothing to do, the two counts of
    its summary, or the exception of the summary's average
    [total_time / (successful + failed)]. *)
Inductive batch_outcome :=
| NoStates
| Summary (successful failed : nat)
| ZeroDivisionError.

Definition generate_all_maps {G} `{Shapely G} `{Math} (state_folders : list (Inputs G))
    (interrupt_at : option nat) (st : RandomState) : batch_outcome :=
  match state_folders with
  | [] => NoStates
  | _ =>
      let '(successful, failed, _) := run_states state_folders interrupt_at 0 0 0 st in
      if (successful + failed =? 0)%nat then ZeroDivisionError
      else Summary successful failed
  end.

End BatchGenerator.

(** ** Concrete regions, used to evaluate the generator *)
Module Sample.
Import FCCTower.

(** Shapes as vertex lists; the union keeps every vertex and the centroid
    is taken at the first one. *)
Definition Shape : Type := list Point.

Definition origin : Point := {| geom_y := 0; geom_x := 0 |}.

#[export] Instance shape_geometry : Shapely Shape := {
  centroid := fun g => List.hd origin g;
  unary_union := fun gs => List.concat gs
}.

(** A cosine good enough near the equator: the Taylor polynomial of
    degree four. *)
#[export] Instance taylor_math : Math := {
  cos := fun t => (1 - t * t / 2 + t * t * t * t / 24)%float
}.

Definition pt (lat lon : float) : Point := {| geom_y := lat; geom_x := lon |}.

Definition square : Shape := [pt 0 0; pt 0 1; pt 1 1; pt 1 0].

Definition cell (n : Z) : GridCell Shape :=
  {| grid_geometry := square; point_count := n |}.

Definition tower (lat lon : float) (group : string) : AntennaRow :=
  {| antenna_geometry := pt lat lon; grouped_entity := group; antenna_columns := [] |}.

Definition licence (county abbr : string) : CbrsRecord :=
  {| cbrs_Channel := "1"; cbrs_county_name := Some county;
     cbrs_bidder := "Bidder"; cbrs_state_abbr := abbr |}.

Definition county (name : string) : CountyRow Shape :=
  {| county_row_name := Some name; county_geometry := square |}.

(** A region with the four required data sets only. *)
Definition required_only : Inputs Shape :=
  {| state_name := "Vermont";
     state_outline := [square];
     county_outline := [county "Addison"];
     bead_eligible_locations := [pt 0 0];
     grid_analysis_layer := [cell 3; cell 120];
     cbrs_file := None;
     round2_locations_file := None;
     cai_locations_file := None;
     cci_ds_file := None;
     cci_fiber_file := None;
     wisp_folder := None;
     antenna_file := None |}.

(** The same region with an empty round 2 file, an antenna file holding
    one tower of the group 'Other', and a WISP folder; [with_towers] has
    one provider that [wisp_colors] does not know. *)
Definition towers_region (files : list (string * list Shape)) : Inputs Shape :=
  {| state_name := "Vermont";
     state_outline := [square];
     county_outline := [county "Addison"];
     bead_eligible_locations := [pt 0 0];
     grid_analysis_layer := [cell 3; cell 120];
     cbrs_file := None;
     round2_locations_file := Some [];
     cai_locations_file := None;
     cci_ds_file := None;
     cci_fiber_file := None;
     wisp_folder := Some files;
     antenna_file := Some [tower 0 0 "Other"] |}.

Definition with_towers : Inputs Shape :=
  towers_region [("Acme Wireless.sqlite", [square])].

(** The same, with a provider that [wisp_colors] knows. *)
Definition with_known_wisp : Inputs Shape :=
  towers_region [("Verizon Fixed.sqlite", [square]); ("notes.txt", [])].

(** A region with a licence table and an antenna file without rows. *)
Definition licensed_region (recs : list CbrsRecord) : Inputs Shape :=
  {| state_name := "Vermont";
     state_outline := [square];
     county_outline := [county "Addison"];
     bead_eligible_locations := [pt 0 0];
     grid_analysis_layer := [cell 3];
     cbrs_file := Some recs;
     round2_locations_file := None;
     cai_locations_file := None;
     cci_ds_file := None;
     cci_fiber_file := None;
     wisp_folder := None;
     antenna_file := Some [] |}.

(** A region whose antenna path is empty or names no file. *)
Definition without_antenna_file {G} (inp : Inputs G) : Inputs G :=
  {| state_name := state_name inp;
     state_outline := state_outline inp;
     county_outline := county_outline inp;
     bead_eligible_locations := bead_eligible_locations inp;
     grid_analysis_layer := grid_analysis_layer inp;
     cbrs_file := cbrs_file inp;
     round2_locations_file := round2_locations_file inp;
     cai_locations_file := cai_locations_file inp;
     cci_ds_file := cci_ds_file inp;
     cci_fiber_file := cci_fiber_file inp;
     wisp_folder := wisp_folder inp;
     antenna_file := None |}.

Definition rng (n : Z) : RandomState := {| draws := fun _ => n; pos := 0 |}.

End Sample.

Example format_06x_ex : PyStr.format_06x 255 = "0000ff" /\ PyStr.format_06x 0 = "000000"
  /\ PyStr.format_06x 16777215 = "ffffff" /\ PyStr.strip "  a b
" = "a b".
Proof. repeat split; reflexivity. Qed.

Example categorize_ex :
  FCCTowerExtraction.categorize_entity (Some "Crown Castle GT Company LLC") = "Crown Castle"
  /\ FCCTowerExtraction.categorize_entity (Some "SBA Towers III") = "SBA"
  /\ FCCTowerExtraction.categorize_entity (Some "Dreamtime Media") = "American Towers"
  /\ FCCTowerExtraction.categorize_entity (Some "City of Foo") = "Other".
Proof. repeat split; reflexivity. Qed.

Example splitext_ex :
  PyStr.splitext_root "Acme Wireless.sqlite" = "Acme Wireless"
  /\ PyStr.splitext_root ".sqlite" = ".sqlite"
  /\ PyStr.splitext_root "a.b.sqlite" = "a.b"
  /\ PyStr.title "new hampshire" = "New Hampshire"
  /\ PyStr.endswith ".sqlite" "x.sqlite" = true
  /\ PyStr.endswith ".sqlite" "sqlite" = false.
Proof. repeat split; reflexivity. Qed.

(** * Properties *)

(** ** Strings *)
Section StringFacts.
Import PyStr.

Lemma startswith_spec (p s : string) :
  startswith p s = true <-> exists b, s = p +:+ b.
Proof.
  revert s. induction p as [|a p IH]; intros s; simpl.
  - split; [intros _; by exists s | done].
  - destruct s as [|c s]; simpl.
    + split; [done | intros [b Hb]; discriminate].
    + rewrite andb_true_iff, Ascii.eqb_eq, IH. split.
      * intros [-> [b ->]]. by exists b.
      * intros [b Hb]. injection Hb as -> ->. eauto.
Qed.

Lemma str_in_spec (p s : string) :
  str_in p s = true <-> exists a b, s = a +:+ p +:+ b.
Proof.
  induction s as [|c s IH]; simpl.
  - rewrite orb_false_r, startswith_spec. split.
    + intros [b Hb]. by exists EmptyString, b.
    + intros [a [b Hab]]. destruct a; simpl in Hab; [eauto | discriminate].
  - rewrite orb_true_iff, startswith_spec, IH. split.
    + intros [[b Hb] | [a [b Hab]]].
      * by exists EmptyString, b.
      * exists (String c a), b. simpl. by rewrite Hab.
    + intros [a [b Hab]]. destruct a as [|c' a]; simpl in Hab.
      * left. eauto.
      * right. injection Hab as -> ->. eauto.
Qed.

Lemma lower_ascii_idem (c : ascii) : lower_ascii (lower_ascii c) = lower_ascii c.
Proof. destruct c as [[] [] [] [] [] [] [] []]; reflexivity. Qed.

Lemma lower_idem (s : string) : lower (lower s) = lower s.
Proof. induction s as [|c s IH]; simpl; [done | by rewrite lower_ascii_idem, IH]. Qed.

Lemma lower_app (a b : string) : lower (a +:+ b) = lower a +:+ lower b.
Proof. induction a as [|c a IH]; simpl; [done | by rewrite IH]. Qed.

(** A split of the lower-cased string comes from a split of the string. *)
Lemma lower_split (s a' b' : string) :
  lower s = a' +:+ b' ->
  exists a b, s = a +:+ b /\ lower a = a' /\ lower b = b'.
Proof.
  revert s. induction a' as [|c a' IH]; intros s Hs; simpl in Hs.
  - by exists EmptyString, s.
  - destruct s as [|d s]; simpl in Hs; [discriminate|].
    injection Hs as Hc Hs. destruct (IH s Hs) as (a & b & -> & Ha & Hb).
    exists (String d a), b. simpl. by rewrite Hc, Ha.
Qed.

(** Python's test [pat in name.lower()], for a lower-case [pat], is
    containment of [pat] in [name] up to letter case. *)
Lemma str_in_lower_spec (pat name : string) :
  str_in (lower pat) (lower name) = true <->
  exists a m b, name = a +:+ m +:+ b /\ lower m = lower pat.
Proof.
  rewrite str_in_spec. split.
  - intros (a' & b' & Hn).
    destruct (lower_split _ _ _ Hn) as (a & mb & -> & _ & Hmb).
    destruct (lower_split _ _ _ Hmb) as (m & b & -> & Hm & _).
    by exists a, m, b.
  - intros (a & m & b & -> & Hm).
    exists (lower a), (lower b). by rewrite !lower_app, Hm.
Qed.

End StringFacts.

(** ** The entity classifier *)
Section Classifier.
Import PyStr FCCTowerExtraction.

Lemma categorize_entity_first_match (name : string) :
  categorize_entity (Some name) = first_match priority_table name.
Proof. reflexivity. Qed.

(** In a table, the first category with a matching pattern wins. *)
Lemma first_match_wins (pre post : list (string * list string))
    (cat : string) (pats : list string) (name : string) :
  Forall (fun cp => matches_category name (snd cp) = false) pre ->
  matches_category name pats = true ->
  first_match (pre ++ (cat, pats) :: post) name = cat.
Proof.
  intros Hpre Hcat. induction Hpre as [|[c ps] pre Hc _ IH]; simpl.
  - by rewrite Hcat.
  - simpl in Hc. by rewrite Hc.
Qed.

Lemma first_match_none (table : list (string * list string)) (name : string) :
  Forall (fun cp => matches_category name (snd cp) = false) table ->
  first_match table name = "Other".
Proof.
  induction 1 as [|[c ps] table Hc _ IH]; simpl; [done|].
  simpl in Hc. by rewrite Hc.
Qed.

Lemma first_match_range (table : list (string * list string)) (name : string) :
  In (first_match table name) ("Other" :: List.map fst table).
Proof.
  induction table as [|[c ps] table IH]; simpl; [by left|].
  destruct (matches_category name ps); [right; by left|].
  destruct IH as [IH|IH]; [by left | right; by right].
Qed.

(** The patterns of the table are lower-case, so matching one of them is
    containing it in any letter case. *)
Lemma matches_category_ci (cat : string) (pats : list string) (name : string) :
  In (cat, pats) priority_table ->
  matches_category name pats = true <->
  exists pattern, In pattern pats /\ contains_ci pattern name.
Proof.
  intros Hin. unfold matches_category, contains_ci. rewrite existsb_exists.
  assert (Hlow : Forall (fun p => lower p = p) pats).
  { simpl in Hin. destruct Hin as [H|[H|[H|[]]]]; injection H as _ <-;
      repeat constructor. }
  rewrite Forall_forall in Hlow.
  split; intros (p & Hp & H); exists p; (split; [done|]).
  - apply str_in_lower_spec. rewrite Hlow by (by apply list_elem_of_In). done.
  - apply str_in_lower_spec in H. rewrite Hlow in H by (by apply list_elem_of_In). done.
Qed.

(** C7. The classifier is a total function of the record's name: a
    missing name and the empty name give 'Other'; for every name the
    result is one of the four categories and is the category of the first
    entry of the priority table (American Towers, SBA, Crown Castle) one
    of whose patterns occurs in the name in any letter case; a name that
    matches no entry gives 'Other'; a name that contains 'Crown Castle' in
    any case and no American Towers or SBA pattern gives 'Crown Castle';
    and a name that matches several entries gives the first of them. *)
Theorem categorize_entity_priority :
  categorize_entity None = "Other" /\
  categorize_entity (Some "") = "Other" /\
  forall name : string,
    categorize_entity (Some name) = first_match priority_table name /\
    In (categorize_entity (Some name)) ["Other"; "American Towers"; "SBA"; "Crown Castle"] /\
    (forall cat pats, In (cat, pats) priority_table ->
       (matches_category name pats = true <->
        exists pattern, In pattern pats /\ contains_ci pattern name)) /\
    (Forall (fun cp => matches_category name (snd cp) = false) priority_table ->
     categorize_entity (Some name) = "Other") /\
    (contains_ci "Crown Castle" name ->
     matches_category name ["american tower"; "amt"; "american towers"] = false ->
     matches_category name ["sba"; "sba communications"; "sba comm"] = false ->
     categorize_entity (Some name) = "Crown Castle") /\
    (forall pre cat pats post,
       priority_table = pre ++ (cat, pats) :: post ->
       Forall (fun cp => matches_category name (snd cp) = false) pre ->
       matches_category name pats = true ->
       categorize_entity (Some name) = cat).
Proof.
  split; [reflexivity|]. split; [reflexivity|]. intros name.
  split; [reflexivity|]. split; [apply (first_match_range priority_table)|].
  split; [intros cat pats; apply matches_category_ci|].
  split; [apply first_match_none|]. split.
  - intros Hcc Hat Hsba.
    change (first_match ([("American Towers", ["american tower"; "amt"; "american towers"]);
                          ("SBA", ["sba"; "sba communications"; "sba comm"])]
                         ++ ("Crown Castle", ["crown castle"; "crown"; "ccic"]) :: []) name
            = "Crown Castle").
    apply first_match_wins; [by repeat constructor|].
    apply (matches_category_ci "Crown Castle"); [simpl; tauto|].
    exists "crown castle". split; [by left|].
    destruct Hcc as (a & m & b & Hn & Hm). by exists a, m, b.
  - intros pre cat pats post Htab Hpre Hcat.
    rewrite categorize_entity_first_match, Htab. by apply first_match_wins.
Qed.

(** A name in mixed case that holds 'Crown Castle' and, further on, the
    lower-priority pattern 'ccic'. *)
Lemma categorize_entity_priority_witness :
  categorize_entity (Some "CROWN Castle Towers (CCIC)") = "Crown Castle".
Proof.
  apply (proj2 (proj2 categorize_entity_priority)).
  - exists "", "CROWN Castle", " Towers (CCIC)". split; reflexivity.
  - reflexivity.
  - reflexivity.
Defined.

(** C10. Every name that contains 'amt' in any letter case is classified
    as 'American Towers', whatever else it contains. *)
Theorem categorize_entity_amt (name : string) :
  contains_ci "amt" name ->
  categorize_entity (Some name) = "American Towers".
Proof.
  intros (a & m & b & Hn & Hm).
  assert (H : str_in "amt" (lower name) = true).
  { apply (str_in_lower_spec "amt"). by exists a, m, b. }
  unfold categorize_entity. simpl existsb. rewrite H.
  by rewrite orb_true_r.
Qed.

(** 'Dreamtime' holds 'amt'; the name also holds SBA and Crown Castle
    patterns. *)
Lemma categorize_entity_amt_witness :
  categorize_entity (Some "DreAMTime SBA Crown Castle") = "American Towers".
Proof.
  apply categorize_entity_amt.
  exists "Dre", "AMT", "ime SBA Crown Castle". split; reflexivity.
Defined.

End Classifier.

(** ** Density buckets *)
Section Buckets.
Import FCCTower.
Local Open Scope Z_scope.

(** Settle the comparison of [c] with the bound [n] from the context. *)
Local Ltac settle c n :=
  first
    [ rewrite (proj2 (Z.ltb_lt c n)) by lia
    | rewrite (proj2 (Z.ltb_ge c n)) by lia ].

Local Ltac settle_all c :=
  unfold matching_buckets, in_range; simpl; rewrite !Z.leb_antisym;
  settle c 1; settle c 5; settle c 10; settle c 20; settle c 30;
  settle c 50; settle c 75; settle c 100; settle c 50000; simpl.

Lemma matching_buckets_unique (c : Z) :
  1 <= c < 50000 -> exists i, matching_buckets c = [i].
Proof.
  intros Hc.
  assert (Hcases : c < 5 \/ 5 <= c < 10 \/ 10 <= c < 20 \/ 20 <= c < 30 \/
                   30 <= c < 50 \/ 50 <= c < 75 \/ 75 <= c < 100 \/ 100 <= c) by lia.
  destruct Hcases as [?|[?|[?|[?|[?|[?|[?|?]]]]]]]; settle_all c; eauto.
Qed.

Lemma matching_buckets_above (c : Z) :
  50000 <= c -> matching_buckets c = [].
Proof. intros Hc. settle_all c. reflexivity. Qed.

(** C1. The buckets of [range_dict] at the counts the design document
    lists: 1, 4, 5, 99 and 100 fall in buckets 0, 0, 1, 6 and 7.  The last
    range is [(100, 50000)] with its upper end excluded, so exactly one
    bucket matches a count from 1 to 49999, and none matches a count of
    50000 or more: 10_000_000 has no bucket, and a grid whose only cell
    has that count gets no layer, although the last layer is named
    'Grid Layer (100+ Locations)'. *)
Theorem bucketAssign_last_range_capped :
  bucketAssign 1 = Some 0%nat /\ bucketAssign 4 = Some 0%nat /\
  bucketAssign 5 = Some 1%nat /\ bucketAssign 99 = Some 6%nat /\
  bucketAssign 100 = Some 7%nat /\
  grid_layer_name 100 50000 = "Grid Layer (100+ Locations)" /\
  bucketAssign 10000000 = None /\
  bucketAssign 50000 = None /\
  (forall c, 1 <= c < 50000 -> exists i, matching_buckets c = [i]) /\
  (forall c, 50000 <= c -> matching_buckets c = []) /\
  (forall (G : Type) (S : Shapely G) (m : Map G) (g : G),
     add_grid_layers m [{| grid_geometry := g; point_count := 10000000 |}] = m).
Proof.
  repeat (split; [reflexivity|]).
  split; [apply matching_buckets_unique|].
  split; [apply matching_buckets_above|].
  intros G S m g. reflexivity.
Qed.

End Buckets.

(** ** The antenna block and what follows it *)
Section NoAntennaFile.
Import FCCTower.
Context {G : Type} `{Shapely G} `{Math}.

(** C2. Without an antenna file the generator does not return a map: the
    block that binds the antenna groups is skipped, and the statement
    after it that attaches [fg_antennas] raises.  (With an empty state
    outline the centroid lookup raises first.) *)
Theorem create_map_without_antenna_file (inp : Inputs G) (st : RandomState) :
  fst (create_map_fcc_towers (Sample.without_antenna_file inp) st) =
    match state_outline inp with
    | [] => Raise IndexError
    | _ :: _ => Raise (UnboundLocalError "fg_antennas")
    end
  /\ fst (@create_map_fcc_towers _ Sample.shape_geometry Sample.taylor_math
            Sample.required_only (Sample.rng 0)) =
       Raise (UnboundLocalError "fg_antennas").
Proof.
  split; [|reflexivity].
  unfold create_map_fcc_towers. simpl.
  destruct (state_outline inp) as [|first rest]; [reflexivity|].
  destruct (add_wisp_layers _ _ _) as [m st']. reflexivity.
Qed.

End NoAntennaFile.

(** ** The layer list, step by step *)
Section Layout.
Import PyStr FCCTower.
Context {G : Type} `{Shapely G} `{Math}.

Local Ltac greedy_sublist :=
  repeat first [apply sublist_nil | apply sublist_skip | apply sublist_cons].

Local Ltac appended :=
  lazymatch goal with
  | |- exists B, ?l = ?l ++ B /\ _ => exists []; split; [by rewrite app_nil_r|]
  | |- exists B, ?l ++ ?L = ?l ++ B /\ _ => exists L; split; [reflexivity|]
  end.

Lemma feature_groups_add_group (fg : FeatureGroup G) (m : Map G) :
  feature_groups (add_to (Group fg) m) = feature_groups m ++ [fg].
Proof. unfold feature_groups, add_to. simpl. by rewrite flat_map_app. Qed.

Lemma feature_groups_add_tile (name : string) (m : Map G) :
  feature_groups (add_to (TileLayer name) m) = feature_groups m.
Proof.
  unfold feature_groups, add_to. simpl. rewrite flat_map_app. simpl.
  by rewrite app_nil_r.
Qed.

Lemma feature_groups_add_control (m : Map G) :
  feature_groups (add_to LayerControl m) = feature_groups m.
Proof.
  unfold feature_groups, add_to. simpl. rewrite flat_map_app. simpl.
  by rewrite app_nil_r.
Qed.

(** Step 7 appends at most three layers, every one with markers in it,
    and none for round 2 when the round 2 file has no rows. *)
Lemma bead_layers_layout (inp : Inputs G) (m : Map G) :
  exists B,
    feature_groups (bead_layers inp m) = feature_groups m ++ B /\
    List.map fg_name B `sublist_of` bead_layer_names /\
    Forall (fun fg => 0 < layer_features fg)%nat B /\
    (round2_locations_file inp = Some [] ->
     ~ In "BEAD Eligible Locations Round 2" (List.map fg_name B)).
Proof.
  unfold bead_layers, add_bead_locations_layer.
  destruct (bead_eligible_locations inp) as [|p ps],
           (round2_locations_file inp) as [[|q qs]|],
           (cai_locations_file inp) as [[|c cs]|];
    simpl; rewrite ?feature_groups_add_group, <- ?app_assoc; simpl; appended;
    (split; [greedy_sublist|]);
    (split; [repeat first [apply List.Forall_nil | apply List.Forall_cons];
             unfold layer_features; simpl; lia|]);
    try discriminate; intros _; simpl; intuition discriminate.
Qed.

(** Step 8 appends the CCI layers that were read, DSL before fiber. *)
Lemma cci_layers_layout (inp : Inputs G) (m : Map G) :
  exists C,
    feature_groups (cci_layers inp m) = feature_groups m ++ C /\
    List.map fg_name C `sublist_of` cci_layer_names.
Proof.
  unfold cci_layers, add_cci_layers.
  destruct (String.eqb _ _), (cci_ds_file inp) as [ds|], (cci_fiber_file inp) as [fb|];
    simpl; rewrite ?feature_groups_add_group, <- ?app_assoc; simpl; appended;
    greedy_sublist.
Qed.

(** One turn of the grid loop appends nothing, or one layer holding the
    dissolved shape of the cells in the range. *)
Lemma add_grid_layer_layout (grid : list (GridCell G)) (m : Map G)
    (item : string * ((Z * Z) * string)) :
  exists L,
    feature_groups (add_grid_layer grid m item) = feature_groups m ++ L /\
    List.map fg_name L `sublist_of`
      [grid_layer_name (fst (fst (snd item))) (snd (fst (snd item)))] /\
    Forall (fun fg => layer_features fg = 1%nat /\ fg_show fg = false) L.
Proof.
  destruct item as [key [[lo hi] c]]. unfold add_grid_layer. simpl.
  destruct (List.filter _ grid) as [|cell subset].
  - appended. split; [greedy_sublist | constructor].
  - rewrite feature_groups_add_group. appended.
    split; [greedy_sublist | by repeat constructor].
Qed.

Lemma add_grid_layers_fold (grid : list (GridCell G))
    (items : list (string * ((Z * Z) * string))) (m : Map G) :
  exists L,
    feature_groups (foldl (add_grid_layer grid) m items) = feature_groups m ++ L /\
    List.map fg_name L `sublist_of`
      List.map (fun '(_, ((rng_min, rng_max), _)) => grid_layer_name rng_min rng_max) items /\
    Forall (fun fg => layer_features fg = 1%nat /\ fg_show fg = false) L.
Proof.
  revert m. induction items as [|item items IH]; intros m; simpl.
  - appended. split; [greedy_sublist | constructor].
  - destruct (add_grid_layer_layout grid m item) as (L1 & E1 & S1 & F1).
    destruct (IH (add_grid_layer grid m item)) as (L2 & E2 & S2 & F2).
    exists (L1 ++ L2). rewrite E2, E1, <- app_assoc. split; [reflexivity|].
    split; [|by apply Forall_app].
    rewrite List.map_app. destruct item as [key [[lo hi] c]]. simpl in S1 |- *.
    apply (sublist_app _ [grid_layer_name lo hi]); [exact S1 | exact S2].
Qed.

(** Step 9 appends the layers of the ranges that hold a cell, in the
    order of [range_dict]. *)
Lemma add_grid_layers_layout (grid : list (GridCell G)) (m : Map G) :
  exists L,
    feature_groups (add_grid_layers m grid) = feature_groups m ++ L /\
    List.map fg_name L `sublist_of` grid_layer_names /\
    Forall (fun fg => layer_features fg = 1%nat /\ fg_show fg = false) L.
Proof. apply add_grid_layers_fold. Qed.

(** A grid layer is the layer of one range of [items]: it has the name of
    the range, some cell of the grid has its count in the range, and the
    layer holds the dissolved shape of the cells of the range, in the
    colour of the range. *)
Local Abbreviation grid_layer_of grid items fg :=
  (exists key rng_min rng_max c,
     In (key, ((rng_min, rng_max), c)) items /\
     fg_name fg = grid_layer_name rng_min rng_max /\
     (exists cell, In cell grid /\ in_range rng_min rng_max (point_count cell) = true) /\
     fg_children fg =
       [GeoJson [unary_union
                   (List.map grid_geometry
                      (List.filter (fun cell => in_range rng_min rng_max (point_count cell))
                         grid))]
          (fill_style c)]).

Lemma add_grid_layers_fold_backed (grid : list (GridCell G))
    (items : list (string * ((Z * Z) * string))) (m : Map G) :
  exists L,
    feature_groups (foldl (add_grid_layer grid) m items) = feature_groups m ++ L /\
    List.map fg_name L `sublist_of`
      List.map (fun '(_, ((rng_min, rng_max), _)) => grid_layer_name rng_min rng_max) items /\
    Forall (fun fg => layer_features fg = 1%nat /\ fg_show fg = false) L /\
    Forall (fun fg => grid_layer_of grid items fg) L.
Proof.
  revert m. induction items as [|item items IH]; intros m.
  - exists []. cbn [foldl]. rewrite app_nil_r. split; [reflexivity|].
    split; [reflexivity|]. split; constructor.
  - destruct (IH (add_grid_layer grid m item)) as (L2 & E2 & S2 & F2 & B2).
    assert (B2' : Forall (fun fg => grid_layer_of grid (item :: items) fg) L2).
    { eapply Forall_impl; [exact B2|].
      intros fg (key & lo & hi & c & Hin & Hrest).
      exists key, lo, hi, c. split; [by right | exact Hrest]. }
    cbn [foldl]. rewrite E2. clear E2 B2 IH.
    destruct item as [key [[lo hi] c]]. unfold add_grid_layer.
    cbn [List.map].
    destruct (List.filter (fun cell => in_range lo hi (point_count cell)) grid)
      as [|cell subset] eqn:Esub.
    + exists L2. split; [reflexivity|].
      split; [by apply sublist_cons|]. split; [exact F2 | exact B2'].
    + rewrite feature_groups_add_group, <- app_assoc.
      eexists (_ :: L2). split; [reflexivity|].
      split; [by apply sublist_skip|].
      split; [apply List.Forall_cons; [by split | exact F2]|].
      apply List.Forall_cons; [|exact B2'].
      exists key, lo, hi, c. split; [by left|]. split; [reflexivity|]. split.
      * exists cell.
        assert (Hin : In cell (List.filter (fun cell => in_range lo hi (point_count cell))
                                 grid)) by (rewrite Esub; by left).
        apply filter_In in Hin. exact Hin.
      * rewrite Esub. reflexivity.
Qed.

(** Step 10 appends one hidden layer per [.sqlite] file, in listing
    order, whatever the random generator returns. *)
Lemma add_wisp_files_layout (files : list (string * list G)) (m : Map G)
    (st : RandomState) :
  exists W,
    feature_groups (fst (add_wisp_files m files st)) = feature_groups m ++ W /\
    List.map fg_name W = wisp_layer_names (Some files) /\
    Forall (fun fg => fg_show fg = false) W.
Proof.
  revert m st. induction files as [|[file data] files IH]; intros m st; simpl.
  - appended. by split.
  - destruct (endswith ".sqlite" file) eqn:E; simpl; [|apply IH].
    destruct (get_wisp_color (splitext_root file) st) as [c st'].
    destruct (IH (add_to (Group (add_to_group (GeoJson data (fill_style c))
                                   (new_FeatureGroup ("WISP - " +:+ splitext_root file) false))) m)
                st') as (W & E1 & N1 & F1).
    rewrite E1, feature_groups_add_group, <- app_assoc. simpl. appended.
    simpl. split; [by f_equal | by constructor].
Qed.

Lemma add_wisp_layers_layout (folder : option (list (string * list G))) (m : Map G)
    (st : RandomState) :
  exists W,
    feature_groups (fst (add_wisp_layers m folder st)) = feature_groups m ++ W /\
    List.map fg_name W = wisp_layer_names folder /\
    Forall (fun fg => fg_show fg = false) W.
Proof.
  destruct folder as [files|]; simpl; [apply add_wisp_files_layout|].
  appended. by split.
Qed.

(** The statements after the antenna block append its twelve groups. *)
Lemma attach_antenna_layers_layout (g : AntennaGroups G) (m : Map G) :
  feature_groups (attach_antenna_layers g m) = feature_groups m ++ antenna_layers g.
Proof.
  unfold attach_antenna_layers.
  rewrite !feature_groups_add_group, <- !app_assoc. reflexivity.
Qed.

(** A loop that adds one element per row to a group, or to two groups. *)
Lemma foldl_add_to_group {A} (f : A -> Element G) (l : list A) (fg : FeatureGroup G) :
  foldl (fun fg a => add_to_group (f a) fg) fg l =
    {| fg_name := fg_name fg; fg_show := fg_show fg;
       fg_children := fg_children fg ++ List.map f l |}.
Proof.
  revert fg. induction l as [|a l IH]; intros fg; simpl.
  - rewrite app_nil_r. by destruct fg.
  - rewrite IH. simpl. by rewrite <- app_assoc.
Qed.

Lemma foldl_add_to_groups {A} (f g : A -> Element G) (l : list A)
    (fg1 fg2 : FeatureGroup G) :
  foldl (fun '(x, y) a => (add_to_group (f a) x, add_to_group (g a) y)) (fg1, fg2) l =
    ({| fg_name := fg_name fg1; fg_show := fg_show fg1;
        fg_children := fg_children fg1 ++ List.map f l |},
     {| fg_name := fg_name fg2; fg_show := fg_show fg2;
        fg_children := fg_children fg2 ++ List.map g l |}).
Proof.
  revert fg1 fg2. induction l as [|a l IH]; intros fg1 fg2; simpl.
  - rewrite !app_nil_r. by destruct fg1, fg2.
  - rewrite IH. simpl. by rewrite <- !app_assoc.
Qed.

Lemma add_coverage_rings_eq (group_data : list (nat * AntennaRow)) (group_color : string)
    (fg_2mi fg_5mi : FeatureGroup G) :
  add_coverage_rings group_data group_color fg_2mi fg_5mi =
    ({| fg_name := fg_name fg_2mi; fg_show := fg_show fg_2mi;
        fg_children := fg_children fg_2mi ++
          List.map (fun ir => Circle (antenna_geometry (snd ir))
                                (r2 (geom_y (antenna_geometry (snd ir))))
                                group_color (Some 2%Z) group_color 0.2%float None)
            group_data |},
     {| fg_name := fg_name fg_5mi; fg_show := fg_show fg_5mi;
        fg_children := fg_children fg_5mi ++
          List.map (fun ir => Circle (antenna_geometry (snd ir))
                                (r5 (geom_y (antenna_geometry (snd ir))))
                                group_color (Some 2%Z) group_color 0.1%float (Some "10,5"))
            group_data |}).
Proof. unfold add_coverage_rings. apply foldl_add_to_groups. Qed.

(** What the antenna block leaves in its local variables: the names and
    flags of the twelve groups that get attached, and the two aggregate
    coverage groups, each with one circle per antenna row. *)
Lemma antenna_block_groups (rows : list AntennaRow) :
  let g : AntennaGroups G := antenna_block rows in
  List.map fg_name (antenna_layers g) = antenna_layer_names /\
  Forall (fun fg => fg_show fg = false) (antenna_layers g) /\
  fg_name (fg_coverage2 g) = "Antenna Coverage (2 Miles)" /\
  fg_name (fg_coverage5 g) = "Antenna Coverage (5 Miles)" /\
  fg_children (fg_coverage2 g) =
    List.map (fun row => Circle (antenna_geometry row) (r2 (geom_y (antenna_geometry row)))
                           "green" None "green" 0.2%float None) rows /\
  fg_children (fg_coverage5 g) =
    List.map (fun row => Circle (antenna_geometry row) (r5 (geom_y (antenna_geometry row)))
                           "blue" None "blue" 0.1%float None) rows.
Proof.
  unfold antenna_block, add_markers. rewrite !add_coverage_rings_eq.
  rewrite (foldl_add_to_groups
             (fun ir => Circle (antenna_geometry (snd ir))
                          (r2 (geom_y (antenna_geometry (snd ir))))
                          "green" None "green" 0.2%float None)
             (fun ir => Circle (antenna_geometry (snd ir))
                          (r5 (geom_y (antenna_geometry (snd ir))))
                          "blue" None "blue" 0.1%float None)).
  rewrite !foldl_add_to_group. simpl.
  assert (Hrows : forall (f : AntennaRow -> Element G),
             List.map (fun ir => f (snd ir)) (iterrows rows) = List.map f rows).
  { intros f. unfold iterrows. generalize 0%nat.
    induction rows as [|r rows IH]; intros n; simpl; [done | by rewrite IH]. }
  split; [reflexivity|]. split; [by repeat constructor|].
  split; [reflexivity|]. split; [reflexivity|].
  split.
  - apply (Hrows (fun row => Circle (antenna_geometry row)
                               (r2 (geom_y (antenna_geometry row)))
                               "green" None "green" 0.2%float None)).
  - apply (Hrows (fun row => Circle (antenna_geometry row)
                               (r5 (geom_y (antenna_geometry row)))
                               "blue" None "blue" 0.1%float None)).
Qed.

Lemma list_sum_ones {A} (l : list A) : list_sum (List.map (fun _ => 1%nat) l) = length l.
Proof. induction l as [|a l IH]; simpl; [done | by rewrite IH]. Qed.

(** The marker layer and the two ring layers of an owner group hold one
    feature per row of the group. *)
Lemma antenna_layers_features (rows : list AntennaRow) :
  List.map layer_features (antenna_layers (antenna_block rows : AntennaGroups G)) =
  flat_map (fun group =>
              let n := length (select_group group (iterrows rows)) in [n; n; n])
    ["Other"; "American Towers"; "SBA"; "Crown Castle"].
Proof.
  unfold antenna_block, add_markers. rewrite !add_coverage_rings_eq.
  rewrite (foldl_add_to_groups
             (fun ir => Circle (antenna_geometry (snd ir))
                          (r2 (geom_y (antenna_geometry (snd ir))))
                          "green" None "green" 0.2%float None)
             (fun ir => Circle (antenna_geometry (snd ir))
                          (r5 (geom_y (antenna_geometry (snd ir))))
                          "blue" None "blue" 0.1%float None)).
  rewrite !foldl_add_to_group. unfold layer_features. simpl.
  rewrite !List.map_map. simpl. by rewrite !list_sum_ones.
Qed.

(** The layers of a returned map: the two outlines, then what steps 7 to
    10 append, then the twelve antenna groups. *)
Lemma create_map_layout (inp : Inputs G) (st : RandomState) (m : Map G) :
  fst (create_map_fcc_towers inp st) = Ok m ->
  exists B C L W rows,
    antenna_file inp = Some rows /\
    feature_groups m =
      [state_layer (state_outline inp);
       county_layer (county_outline inp) (cbrs_data_of inp)]
      ++ B ++ C ++ L ++ W ++ antenna_layers (antenna_block rows) /\
    (List.map fg_name B `sublist_of` bead_layer_names /\
     Forall (fun fg => 0 < layer_features fg)%nat B /\
     (round2_locations_file inp = Some [] ->
      ~ In "BEAD Eligible Locations Round 2" (List.map fg_name B))) /\
    List.map fg_name C `sublist_of` cci_layer_names /\
    (List.map fg_name L `sublist_of` grid_layer_names /\
     Forall (fun fg => layer_features fg = 1%nat /\ fg_show fg = false) L) /\
    (List.map fg_name W = wisp_layer_names (wisp_folder inp) /\
     Forall (fun fg => fg_show fg = false) W).
Proof.
  unfold create_map_fcc_towers.
  destruct (state_outline inp) as [|first rest] eqn:Hso; [discriminate|].
  set (m5 := add_to (Group (county_layer _ _)) _).
  destruct (bead_layers_layout inp m5) as (B & EB & PB).
  destruct (cci_layers_layout inp (bead_layers inp m5)) as (C & EC & PC).
  destruct (add_grid_layers_layout (grid_analysis_layer inp)
              (cci_layers inp (bead_layers inp m5))) as (L & EL & PL).
  destruct (add_wisp_layers_layout (wisp_folder inp)
              (add_grid_layers (cci_layers inp (bead_layers inp m5))
                 (grid_analysis_layer inp)) st) as (W & EW & PW).
  destruct (add_wisp_layers _ _ st) as [m10 st'].
  destruct (antenna_file inp) as [rows|]; simpl; [|discriminate].
  intros [= <-]. exists B, C, L, W, rows. split; [reflexivity|].
  split; [|by repeat split; tauto].
  rewrite feature_groups_add_control, attach_antenna_layers_layout.
  simpl in EW. rewrite EW, EL, EC, EB. unfold m5.
  rewrite !feature_groups_add_group, !feature_groups_add_tile.
  rewrite <- !app_assoc. reflexivity.
Qed.

(** The layers of a returned map, as in [create_map_layout], with
    what stands behind each grid layer. *)
Lemma create_map_layout_backed (inp : Inputs G) (st : RandomState) (m : Map G) :
  fst (create_map_fcc_towers inp st) = Ok m ->
  exists B C L W rows,
    antenna_file inp = Some rows /\
    feature_groups m =
      [state_layer (state_outline inp);
       county_layer (county_outline inp) (cbrs_data_of inp)]
      ++ B ++ C ++ L ++ W ++ antenna_layers (antenna_block rows) /\
    List.map fg_name B `sublist_of` bead_layer_names /\
    List.map fg_name C `sublist_of` cci_layer_names /\
    Forall (fun fg => grid_layer_of (grid_analysis_layer inp) range_dict fg) L /\
    List.map fg_name W = wisp_layer_names (wisp_folder inp).
Proof.
  unfold create_map_fcc_towers.
  destruct (state_outline inp) as [|first rest] eqn:Hso; [discriminate|].
  set (m5 := add_to (Group (county_layer _ _)) _).
  destruct (bead_layers_layout inp m5) as (B & EB & PB & _).
  destruct (cci_layers_layout inp (bead_layers inp m5)) as (C & EC & PC).
  destruct (add_grid_layers_fold_backed (grid_analysis_layer inp) range_dict
              (cci_layers inp (bead_layers inp m5))) as (L & EL & _ & _ & PL).
  fold (add_grid_layers (cci_layers inp (bead_layers inp m5)) (grid_analysis_layer inp))
    in EL.
  destruct (add_wisp_layers_layout (wisp_folder inp)
              (add_grid_layers (cci_layers inp (bead_layers inp m5))
                 (grid_analysis_layer inp)) st) as (W & EW & PW & _).
  destruct (add_wisp_layers _ _ st) as [m10 st'].
  destruct (antenna_file inp) as [rows|]; simpl; [|discriminate].
  intros [= <-]. exists B, C, L, W, rows. split; [reflexivity|].
  split; [|by repeat split].
  rewrite feature_groups_add_control, attach_antenna_layers_layout.
  simpl in EW. rewrite EW, EL, EC, EB. unfold m5.
  rewrite !feature_groups_add_group, !feature_groups_add_tile.
  rewrite <- !app_assoc. reflexivity.
Qed.

End Layout.

(** ** Coverage radii *)
Section Coverage.
Import FCCTower.
Local Open Scope float_scope.

(** C6. The ring radii are the functions
    [miles / (69.0 * cos(radians(lat))) * 111000] of the latitude, for 2
    and for 5 miles, whatever the cosine of the C library is, and they are
    the radii of the circles that [add_coverage_rings] draws at a row's
    point; equal latitudes give equal radii; and where that cosine is 1 at
    0, the radii at latitude 0 are the doubles [2/69*111000], about 3217.4,
    and [5/69*111000], about 8043.5. *)
Theorem ring_radii_formula (M : Math) :
  cos 0 = 1 ->
  (forall lat, r2 lat = 2 / (69 * cos (lat * (0x1.921fb54442d18p+1 / 180))) * 111000) /\
  (forall lat, r5 lat = 5 / (69 * cos (lat * (0x1.921fb54442d18p+1 / 180))) * 111000) /\
  (forall (G : Type) (group_data : list (nat * AntennaRow)) (group_color : string)
          (fg_2mi fg_5mi : FeatureGroup G),
     fg_children (fst (add_coverage_rings group_data group_color fg_2mi fg_5mi)) =
       fg_children fg_2mi ++
       List.map (fun ir => Circle (antenna_geometry (snd ir))
                             (r2 (geom_y (antenna_geometry (snd ir))))
                             group_color (Some 2%Z) group_color 0.2 None) group_data /\
     fg_children (snd (add_coverage_rings group_data group_color fg_2mi fg_5mi)) =
       fg_children fg_5mi ++
       List.map (fun ir => Circle (antenna_geometry (snd ir))
                             (r5 (geom_y (antenna_geometry (snd ir))))
                             group_color (Some 2%Z) group_color 0.1 (Some "10,5"))
         group_data) /\
  (forall lat lat', lat = lat' -> r2 lat = r2 lat' /\ r5 lat = r5 lat') /\
  r2 0 = 2 / 69 * 111000 /\
  r5 0 = 5 / 69 * 111000 /\
  (3217.3 <? r2 0) = true /\ (r2 0 <? 3217.5) = true /\
  (8043.4 <? r5 0) = true /\ (r5 0 <? 8043.6) = true.
Proof.
  intros Hcos.
  assert (H2 : r2 0 = 2 / 69 * 111000).
  { unfold r2, degrees_per_mile, radians.
    change (0 * (0x1.921fb54442d18p+1 / 180)) with 0. rewrite Hcos. reflexivity. }
  assert (H5 : r5 0 = 5 / 69 * 111000).
  { unfold r5, degrees_per_mile, radians.
    change (0 * (0x1.921fb54442d18p+1 / 180)) with 0. rewrite Hcos. reflexivity. }
  split; [reflexivity|]. split; [reflexivity|].
  split; [intros G group_data group_color fg_2mi fg_5mi;
          by rewrite add_coverage_rings_eq|].
  split; [by intros lat lat' ->|].
  rewrite H2, H5. repeat split; reflexivity.
Qed.

(** The radii at the equator, with the Taylor cosine of the samples. *)
Lemma ring_radii_formula_witness :
  @r2 Sample.taylor_math 0 = 2 / 69 * 111000 /\
  @r5 Sample.taylor_math 0 = 5 / 69 * 111000.
Proof.
  pose proof (ring_radii_formula Sample.taylor_math eq_refl) as H.
  split; [apply H | apply H].
Defined.

End Coverage.

(** ** The composed layer list *)
Section Composition.
Import PyStr FCCTower.
Context {G : Type} `{Shapely G} `{Math}.

Lemma grid_layer_names_eq :
  grid_layer_names =
    [ "Grid Layer (1-5 Locations)"; "Grid Layer (5-10 Locations)";
      "Grid Layer (10-20 Locations)"; "Grid Layer (20-30 Locations)";
      "Grid Layer (30-50 Locations)"; "Grid Layer (50-75 Locations)";
      "Grid Layer (75-100 Locations)"; "Grid Layer (100+ Locations)" ].
Proof. reflexivity. Qed.

Lemma In_sublist (l k : list string) (n : string) :
  l `sublist_of` k -> In n l -> In n k.
Proof.
  intros Hs Hn. apply list_elem_of_In. apply list_elem_of_In in Hn.
  by eapply elem_of_sublist.
Qed.

Lemma In_wisp_layer_names (folder : option (list (string * list G))) (n : string) :
  In n (wisp_layer_names folder) -> exists x, n = "WISP - " +:+ x.
Proof.
  destruct folder as [files|]; simpl; [|done].
  rewrite in_map_iff. intros (f & <- & _). eauto.
Qed.

(** The names of the layers of a returned map, section by section. *)
Lemma layer_names_layout (inp : Inputs G) (st : RandomState) (m : Map G) :
  fst (create_map_fcc_towers inp st) = Ok m ->
  exists bead cci grid,
    layer_names m =
      boundary_layer_names ++ bead ++ cci ++ grid
      ++ wisp_layer_names (wisp_folder inp) ++ antenna_layer_names /\
    bead `sublist_of` bead_layer_names /\
    cci `sublist_of` cci_layer_names /\
    grid `sublist_of` grid_layer_names /\
    (round2_locations_file inp = Some [] ->
     ~ In "BEAD Eligible Locations Round 2" bead).
Proof.
  intros Hm.
  destruct (create_map_layout inp st m Hm)
    as (B & C & L & W & rows & Hrows & Hfg & (HB & _ & HB2) & HC & (HL & _) & (HW & _)).
  exists (List.map fg_name B), (List.map fg_name C), (List.map fg_name L).
  split; [|tauto].
  unfold layer_names. rewrite Hfg, !List.map_app, HW.
  destruct (antenna_block_groups (G:=G) rows) as (Hnames & _).
  cbv zeta in Hnames. rewrite Hnames.
  unfold county_layer. rewrite foldl_add_to_group. reflexivity.
Qed.

(** A layer's name is one of the fixed names or a WISP name. *)
Lemma layer_name_cases (inp : Inputs G) (st : RandomState) (m : Map G) (n : string) :
  fst (create_map_fcc_towers inp st) = Ok m ->
  In n (layer_names m) ->
  In n (boundary_layer_names ++ bead_layer_names ++ cci_layer_names
        ++ grid_layer_names ++ antenna_layer_names)
  \/ exists x, n = "WISP - " +:+ x.
Proof.
  intros Hm Hn.
  destruct (layer_names_layout inp st m Hm) as (bead & cci & grid & E & Sb & Sc & Sg & _).
  rewrite E in Hn. rewrite !in_app_iff in Hn. rewrite !in_app_iff.
  destruct Hn as [Hn|[Hn|[Hn|[Hn|[Hn|Hn]]]]]; eauto 10 using In_sublist, In_wisp_layer_names.
Qed.

(** C5. The layers of a returned map come in this order: the state and
    county outlines; the BEAD point layers (round 1, round 2, CAIs); the
    CCI layers; the grid layers in the order of the count ranges; the WISP
    layers in listing order; and then, for each owner group in the order
    Other, American Towers, SBA, Crown Castle, the marker layer, the
    2-mile ring layer and the 5-mile ring layer. *)
Theorem layer_order (inp : Inputs G) (st : RandomState) (m : Map G) :
  fst (create_map_fcc_towers inp st) = Ok m ->
  (exists bead cci grid,
     layer_names m =
       ["State Outline"; "County Outline"] ++ bead ++ cci ++ grid
       ++ wisp_layer_names (wisp_folder inp)
       ++ [ "Antenna Locations - Other"; "Other - Coverage 2 Mile";
            "Other - Coverage 5 Mile";
            "Antenna Locations - American Towers"; "American Towers - Coverage 2 Mile";
            "American Towers - Coverage 5 Mile";
            "Antenna Locations - SBA Towers"; "SBA Towers - Coverage 2 Mile";
            "SBA Towers - Coverage 5 Mile";
            "Antenna Locations - Crown Castle Towers"; "Crown Castle - Coverage 2 Mile";
            "Crown Castle - Coverage 5 Mile" ] /\
     bead `sublist_of`
       [ "BEAD Eligible Locations"; "BEAD Eligible Locations Round 1";
         "BEAD Eligible Locations Round 2"; "BEAD Eligible CAIs" ] /\
     cci `sublist_of` ["CCI DSL"; "CCI Fiber"] /\
     grid `sublist_of`
       [ "Grid Layer (1-5 Locations)"; "Grid Layer (5-10 Locations)";
         "Grid Layer (10-20 Locations)"; "Grid Layer (20-30 Locations)";
         "Grid Layer (30-50 Locations)"; "Grid Layer (50-75 Locations)";
         "Grid Layer (75-100 Locations)"; "Grid Layer (100+ Locations)" ]).
Proof.
  intros Hm.
  destruct (layer_names_layout inp st m Hm) as (bead & cci & grid & E & Sb & Sc & Sg & _).
  exists bead, cci, grid. rewrite <- grid_layer_names_eq. by repeat split.
Qed.

(** C4. In a returned map, a BEAD point layer or a grid layer has at
    least one feature behind it; a grid layer is the layer of one count
    range, some cell of the grid file has its count in that range, and the
    layer holds the dissolved shape of the cells of the range; and a round
    2 file without rows gives no round 2 layer.  The four marker layers and
    the eight ring layers are in the map whatever the antenna file holds,
    each with as many features as the file has rows of its owner group,
    which can be none. *)
Theorem point_and_grid_layers_nonempty (inp : Inputs G) (st : RandomState) (m : Map G) :
  fst (create_map_fcc_towers inp st) = Ok m ->
  (forall fg, In fg (feature_groups m) ->
     In (fg_name fg) (bead_layer_names ++ grid_layer_names) ->
     (0 < layer_features fg)%nat) /\
  (forall fg, In fg (feature_groups m) ->
     In (fg_name fg) grid_layer_names ->
     exists key rng_min rng_max c,
       In (key, ((rng_min, rng_max), c)) range_dict /\
       fg_name fg = grid_layer_name rng_min rng_max /\
       (exists cell, In cell (grid_analysis_layer inp) /\
                     in_range rng_min rng_max (point_count cell) = true) /\
       fg_children fg =
         [GeoJson [unary_union
                     (List.map grid_geometry
                        (List.filter
                           (fun cell => in_range rng_min rng_max (point_count cell))
                           (grid_analysis_layer inp)))]
            (fill_style c)]) /\
  (round2_locations_file inp = Some [] ->
   ~ In "BEAD Eligible Locations Round 2" (layer_names m)) /\
  (exists rows,
     antenna_file inp = Some rows /\
     let layers : list (FeatureGroup G) := antenna_layers (antenna_block rows) in
     Forall (fun fg => In fg (feature_groups m)) layers /\
     List.map fg_name layers = antenna_layer_names /\
     List.map layer_features layers =
       flat_map (fun group =>
                   let n := length (select_group group (iterrows rows)) in [n; n; n])
         ["Other"; "American Towers"; "SBA"; "Crown Castle"]).
Proof.
  intros Hm. split; [|split; [|split]].
  - destruct (create_map_layout inp st m Hm)
      as (B & C & L & W & rows & _ & Hfg & (_ & HB & _) & HC & (_ & HL) & (HW & _)).
    intros fg Hin Hname. rewrite Hfg in Hin.
    rewrite grid_layer_names_eq in Hname.
    rewrite !in_app_iff in Hin.
    destruct Hin as [Hin|[Hin|[Hin|[Hin|[Hin|Hin]]]]].
    + exfalso. destruct Hin as [<-|[<-|[]]].
      * simpl in Hname. intuition discriminate.
      * unfold county_layer in Hname. rewrite foldl_add_to_group in Hname.
        simpl in Hname. intuition discriminate.
    + rewrite Forall_forall in HB. apply HB. by apply list_elem_of_In.
    + exfalso. apply (in_map fg_name) in Hin.
      apply (In_sublist _ _ _ HC) in Hin.
      destruct Hin as [E|[E|[]]]; rewrite <- E in Hname;
        simpl in Hname; intuition discriminate.
    + rewrite Forall_forall in HL.
      destruct (HL fg) as [-> _]; [by apply list_elem_of_In | lia].
    + exfalso. apply (in_map fg_name) in Hin. rewrite HW in Hin.
      apply In_wisp_layer_names in Hin. destruct Hin as [x E]. rewrite E in Hname.
      simpl in Hname. intuition discriminate.
    + exfalso. apply (in_map fg_name) in Hin.
      destruct (antenna_block_groups (G:=G) rows) as (Hnames & _).
      cbv zeta in Hnames. rewrite Hnames in Hin.
      repeat (destruct Hin as [E|Hin];
              [rewrite <- E in Hname; simpl in Hname; intuition discriminate|]).
      destruct Hin.
  - destruct (create_map_layout_backed inp st m Hm)
      as (B & C & L & W & rows & _ & Hfg & HB & HC & HL & HW).
    intros fg Hin Hname. rewrite Hfg in Hin.
    rewrite grid_layer_names_eq in Hname.
    rewrite !in_app_iff in Hin.
    destruct Hin as [Hin|[Hin|[Hin|[Hin|[Hin|Hin]]]]].
    + exfalso. destruct Hin as [<-|[<-|[]]].
      * simpl in Hname. intuition discriminate.
      * unfold county_layer in Hname. rewrite foldl_add_to_group in Hname.
        simpl in Hname. intuition discriminate.
    + exfalso. apply (in_map fg_name) in Hin.
      apply (In_sublist _ _ _ HB) in Hin.
      repeat (destruct Hin as [E|Hin];
              [rewrite <- E in Hname; simpl in Hname; intuition discriminate|]).
      destruct Hin.
    + exfalso. apply (in_map fg_name) in Hin.
      apply (In_sublist _ _ _ HC) in Hin.
      destruct Hin as [E|[E|[]]]; rewrite <- E in Hname;
        simpl in Hname; intuition discriminate.
    + rewrite Forall_forall in HL. apply HL. by apply list_elem_of_In.
    + exfalso. apply (in_map fg_name) in Hin. rewrite HW in Hin.
      apply In_wisp_layer_names in Hin. destruct Hin as [x E]. rewrite E in Hname.
      simpl in Hname. intuition discriminate.
    + exfalso. apply (in_map fg_name) in Hin.
      destruct (antenna_block_groups (G:=G) rows) as (Hnames & _).
      cbv zeta in Hnames. rewrite Hnames in Hin.
      repeat (destruct Hin as [E|Hin];
              [rewrite <- E in Hname; simpl in Hname; intuition discriminate|]).
      destruct Hin.
  - intros Hr2 Hn.
    destruct (layer_names_layout inp st m Hm)
      as (bead & cci & grid & E & Sb & Sc & Sg & Hb2).
    rewrite E, !in_app_iff in Hn.
    destruct Hn as [Hn|[Hn|[Hn|[Hn|[Hn|Hn]]]]].
    + simpl in Hn. intuition discriminate.
    + by apply Hb2.
    + apply (In_sublist _ _ _ Sc) in Hn. simpl in Hn. intuition discriminate.
    + apply (In_sublist _ _ _ Sg) in Hn. rewrite grid_layer_names_eq in Hn.
      simpl in Hn. intuition discriminate.
    + apply In_wisp_layer_names in Hn. destruct Hn as [x Hx]. discriminate.
    + simpl in Hn. intuition discriminate.
  - destruct (create_map_layout inp st m Hm) as (B & C & L & W & rows & Hrows & Hfg & _).
    exists rows. split; [exact Hrows|]. cbv zeta. split; [|split].
    + apply Forall_forall. intros fg Hin%list_elem_of_In.
      rewrite Hfg, !in_app_iff. tauto.
    + by destruct (antenna_block_groups (G:=G) rows) as (Hnames & _).
    + apply antenna_layers_features.
Qed.

(** C9. When a map is returned, the antenna block has run on the rows of
    the antenna file: it has made the groups 'Antenna Coverage (2 Miles)'
    and 'Antenna Coverage (5 Miles)' and put one circle per row in each;
    neither name is the name of a layer of the map, while each of the
    eight coverage layers of the owner groups is. *)
Theorem aggregate_coverage_not_attached (inp : Inputs G) (st : RandomState) (m : Map G) :
  fst (create_map_fcc_towers inp st) = Ok m ->
  exists rows,
    antenna_file inp = Some rows /\
    let g : AntennaGroups G := antenna_block rows in
    fg_name (fg_coverage2 g) = "Antenna Coverage (2 Miles)" /\
    fg_name (fg_coverage5 g) = "Antenna Coverage (5 Miles)" /\
    length (fg_children (fg_coverage2 g)) = length rows /\
    length (fg_children (fg_coverage5 g)) = length rows /\
    Forall (fun e => exists p r, e = Circle p r "green" None "green" 0.2%float None)
      (fg_children (fg_coverage2 g)) /\
    Forall (fun e => exists p r, e = Circle p r "blue" None "blue" 0.1%float None)
      (fg_children (fg_coverage5 g)) /\
    ~ In "Antenna Coverage (2 Miles)" (layer_names m) /\
    ~ In "Antenna Coverage (5 Miles)" (layer_names m) /\
    Forall (fun n => In n (layer_names m))
      [ "Other - Coverage 2 Mile"; "Other - Coverage 5 Mile";
        "American Towers - Coverage 2 Mile"; "American Towers - Coverage 5 Mile";
        "SBA Towers - Coverage 2 Mile"; "SBA Towers - Coverage 5 Mile";
        "Crown Castle - Coverage 2 Mile"; "Crown Castle - Coverage 5 Mile" ].
Proof.
  intros Hm.
  destruct (create_map_layout inp st m Hm) as (_ & _ & _ & _ & rows & Hrows & _).
  exists rows. split; [exact Hrows|]. cbv zeta.
  destruct (antenna_block_groups (G:=G) rows) as (_ & _ & N2 & N5 & C2 & C5).
  cbv zeta in N2, N5, C2, C5. rewrite N2, N5, C2, C5, !length_map.
  repeat (split; [reflexivity|]).
  split; [apply Forall_forall; intros e [row [<- _]]%list_elem_of_In%in_map_iff; eauto|].
  split; [apply Forall_forall; intros e [row [<- _]]%list_elem_of_In%in_map_iff; eauto|].
  assert (Hout : forall n, In n (layer_names m) ->
            In n (boundary_layer_names ++ bead_layer_names ++ cci_layer_names
                  ++ grid_layer_names ++ antenna_layer_names)
            \/ exists x, n = "WISP - " +:+ x) by (intros n; by apply (layer_name_cases inp st)).
  rewrite grid_layer_names_eq in Hout.
  split; [|split].
  - intros Hn. destruct (Hout _ Hn) as [Hc|[x Hx]]; [|discriminate].
    simpl in Hc. intuition discriminate.
  - intros Hn. destruct (Hout _ Hn) as [Hc|[x Hx]]; [|discriminate].
    simpl in Hc. intuition discriminate.
  - destruct (layer_names_layout inp st m Hm) as (bead & cci & grid & E & _).
    rewrite E. apply Forall_forall. intros n Hn%list_elem_of_In.
    rewrite !in_app_iff. do 5 right.
    simpl in Hn |- *. intuition (subst; tauto).
Qed.

Lemma hidden_layer_list (W : list (FeatureGroup G)) :
  Forall (fun fg => fg_show fg = false) W ->
  List.map (fun fg => (fg_name fg, fg_show fg)) W =
  List.map (fun n => (n, false)) (List.map fg_name W).
Proof. induction 1 as [|fg W Hfg _ IH]; simpl; [done | by rewrite Hfg, IH]. Qed.

(** With every provider in [wisp_colors], step 10 draws no random
    number. *)
Lemma add_wisp_files_known (files : list (string * list G)) (m : Map G)
    (st1 st2 : RandomState) :
  wisp_colors_known (Some files) = true ->
  fst (add_wisp_files m files st1) = fst (add_wisp_files m files st2).
Proof.
  revert m st1 st2. induction files as [|[file data] files IH]; intros m st1 st2 Hk.
  - done.
  - cbn [wisp_colors_known forallb fst] in Hk. apply andb_true_iff in Hk.
    destruct Hk as [Hf Hfs]. cbn [add_wisp_files].
    destruct (endswith ".sqlite" file); [|by apply IH].
    unfold get_wisp_color.
    destruct (known_wisp_color wisp_colors (splitext_root file)) as [c|].
    + by apply IH.
    + exfalso. cbn [negb orb] in Hf. apply bool_decide_eq_true in Hf.
      by destruct Hf.
Qed.

Lemma removeprefix_app (prefix s : string) :
  removeprefix prefix (prefix +:+ s) = Some s.
Proof.
  induction prefix as [|a prefix IH]; [reflexivity|].
  change (String a prefix +:+ s) with (String a (prefix +:+ s)).
  cbn [removeprefix]. by rewrite Ascii.eqb_refl.
Qed.

Lemma without_drawn_colors_add_to (c : MapChild G) (m : Map G) :
  without_drawn_colors_of (add_to c m) =
  add_to (match c with
          | Group fg =>
              if drawn_color fg
              then Group {| fg_name := fg_name fg; fg_show := fg_show fg;
                            fg_children := List.map without_color (fg_children fg) |}
              else c
          | _ => c
          end) (without_drawn_colors_of m).
Proof.
  unfold without_drawn_colors_of, add_to.
  cbn [map_location zoom_start map_children]. by rewrite List.map_app.
Qed.

(** Step 10 leaves two maps alike that were alike, but for the colours it
    draws. *)
Lemma add_wisp_files_without_drawn_colors (files : list (string * list G))
    (m1 m2 : Map G) (st1 st2 : RandomState) :
  without_drawn_colors_of m1 = without_drawn_colors_of m2 ->
  without_drawn_colors_of (fst (add_wisp_files m1 files st1)) =
  without_drawn_colors_of (fst (add_wisp_files m2 files st2)).
Proof.
  revert m1 m2 st1 st2.
  induction files as [|[file data] files IH]; intros m1 m2 st1 st2 Hm; [exact Hm|].
  cbn [add_wisp_files]. destruct (endswith ".sqlite" file); [|by apply IH].
  unfold get_wisp_color.
  destruct (known_wisp_color wisp_colors (splitext_root file)) as [c|] eqn:Ek.
  - apply IH. rewrite !without_drawn_colors_add_to. by rewrite Hm.
  - destruct (randint 0 16777215 st1) as [n1 st1'], (randint 0 16777215 st2) as [n2 st2'].
    apply IH. rewrite !without_drawn_colors_add_to, Hm. f_equal.
    unfold drawn_color, add_to_group, new_FeatureGroup.
    cbn [fg_name fg_show fg_children app].
    rewrite removeprefix_app, Ek, bool_decide_true by done. reflexivity.
Qed.

(** C3. Two runs on the same inputs end alike, with the same exception
    or with maps that have the same layers: the same names, in the same
    order, with the same visibility flags, whatever the random generator
    returns.  The two maps are the same in every other respect too, styles
    included, once the colour is taken out of the WISP layers whose name
    holds no key of [wisp_colors]; and they are equal as they are when
    every WISP file of the folder is of a provider that [wisp_colors]
    knows. *)
Theorem composition_deterministic_up_to_wisp_colors (inp : Inputs G)
    (st1 st2 : RandomState) :
  layer_list (fst (create_map_fcc_towers inp st1)) =
  layer_list (fst (create_map_fcc_towers inp st2)) /\
  without_drawn_colors (fst (create_map_fcc_towers inp st1)) =
  without_drawn_colors (fst (create_map_fcc_towers inp st2)) /\
  (wisp_colors_known (wisp_folder inp) = true ->
   fst (create_map_fcc_towers inp st1) = fst (create_map_fcc_towers inp st2)).
Proof.
  unfold create_map_fcc_towers.
  destruct (state_outline inp) as [|first rest]; [done|].
  set (m9 := add_grid_layers _ _).
  destruct (add_wisp_layers_layout (wisp_folder inp) m9 st1) as (W1 & E1 & N1 & F1).
  destruct (add_wisp_layers_layout (wisp_folder inp) m9 st2) as (W2 & E2 & N2 & F2).
  assert (Hknown : wisp_colors_known (wisp_folder inp) = true ->
            fst (add_wisp_layers m9 (wisp_folder inp) st1) =
            fst (add_wisp_layers m9 (wisp_folder inp) st2)).
  { destruct (wisp_folder inp) as [files|]; simpl; [apply add_wisp_files_known | done]. }
  assert (Hdrawn : without_drawn_colors_of (fst (add_wisp_layers m9 (wisp_folder inp) st1)) =
                   without_drawn_colors_of (fst (add_wisp_layers m9 (wisp_folder inp) st2))).
  { destruct (wisp_folder inp) as [files|]; cbn [add_wisp_layers fst]; [|reflexivity].
    by apply add_wisp_files_without_drawn_colors. }
  destruct (add_wisp_layers m9 (wisp_folder inp) st1) as [m1 s1].
  destruct (add_wisp_layers m9 (wisp_folder inp) st2) as [m2 s2].
  simpl in E1, E2, Hknown. cbn [fst] in Hdrawn.
  destruct (antenna_file inp) as [rows|]; simpl;
    [|by repeat split]. split; [|split].
  - f_equal. rewrite !feature_groups_add_control, !attach_antenna_layers_layout.
    rewrite E1, E2, !List.map_app.
    rewrite (hidden_layer_list W1 F1), (hidden_layer_list W2 F2), N1, N2. reflexivity.
  - f_equal. unfold attach_antenna_layers.
    rewrite !without_drawn_colors_add_to, Hdrawn. reflexivity.
  - intros Hk. by rewrite (Hknown Hk).
Qed.

End Composition.

(** ** The join of licences to counties *)
Section Join.
Import FCCTower.
Context {G : Type} `{Shapely G}.

(** The group of a county name holds the rows of that name, in order. *)
Lemma groupby_county_name_lookup (rows : list CbrsRecord) (k : string) :
  default [] (groupby_county_name rows !! k) =
  List.filter (fun r => bool_decide (cbrs_county_name r = Some k)) rows.
Proof.
  unfold groupby_county_name.
  match goal with
  | |- context [foldl ?f ∅ rows] =>
      enough (Hgen : forall acc : gmap string (list CbrsRecord),
                 default [] (foldl f acc rows !! k) =
                 default [] (acc !! k) ++
                 List.filter (fun r => bool_decide (cbrs_county_name r = Some k)) rows)
  end.
  { by rewrite Hgen, lookup_empty. }
  induction rows as [|r rows IH]; intros acc; simpl.
  - by rewrite app_nil_r.
  - rewrite IH. destruct (cbrs_county_name r) as [k'|] eqn:Ek.
    + destruct (decide (k' = k)) as [->|Hne].
      * rewrite lookup_insert_eq, bool_decide_true by done. simpl.
        by rewrite <- app_assoc.
      * rewrite lookup_insert_ne, bool_decide_false by congruence. done.
    + by rewrite bool_decide_false.
Qed.

Lemma cbrs_info_of_load (recs : list CbrsRecord) (abbr k : string) :
  cbrs_info_of (load_cbrs_data_filtered (Some recs) abbr) k =
  List.filter (fun r => bool_decide (cbrs_county_name r = Some k))
    (List.filter (fun r => String.eqb (cbrs_state_abbr r) abbr) recs).
Proof.
  unfold cbrs_info_of, load_cbrs_data_filtered.
  destruct (List.filter _ recs) as [|r rs]; [by rewrite lookup_empty|].
  apply groupby_county_name_lookup.
Qed.

(** The popups of the county layer carry the looked-up lists, county by
    county. *)
Lemma region_record_lists_county_layer (counties : list (CountyRow G))
    (data : gmap string (list CbrsRecord)) :
  region_record_lists (county_layer counties data) =
  List.map (fun k => cbrs_info_of data k) (List.map county_name_of counties).
Proof.
  unfold county_layer, region_record_lists. rewrite foldl_add_to_group. simpl.
  induction counties as [|row counties IH]; simpl; [done | by rewrite IH].
Qed.

Lemma filter_partition_length {A} (f : A -> bool) (l : list A) :
  (length (List.filter (fun x => negb (f x)) l) + length (List.filter f l))%nat = length l.
Proof. induction l as [|x l IH]; simpl; [done|]. destruct (f x); simpl; lia. Qed.

Lemma filter_filter_andb {A} (f g : A -> bool) (l : list A) :
  List.filter g (List.filter f l) = List.filter (fun x => f x && g x) l.
Proof.
  induction l as [|x l IH]; simpl; [done|].
  destruct (f x); simpl; [destruct (g x)|]; by rewrite IH.
Qed.

(** Over names without repetition, the groups of the names partition the
    rows whose name is among them. *)
Lemma groups_partition (names : list string) (rows : list CbrsRecord) :
  NoDup names ->
  list_sum (List.map (fun k => length (List.filter
                                         (fun r => bool_decide (cbrs_county_name r = Some k))
                                         rows)) names) =
  length (List.filter (fun r => match cbrs_county_name r with
                                | Some k => existsb (String.eqb k) names
                                | None => false
                                end) rows).
Proof.
  induction 1 as [|k ks Hk Hks IH]; simpl.
  - induction rows as [|r rows IHr]; simpl; [done|]. by destruct (cbrs_county_name r).
  - rewrite IH. clear IH. induction rows as [|r rows IHr]; simpl; [done|].
    destruct (cbrs_county_name r) as [k'|] eqn:Ek.
    + destruct (String.eqb_spec k' k) as [->|Hne].
      * rewrite bool_decide_true by done. simpl.
        assert (Hno : existsb (String.eqb k) ks = false).
        { apply not_true_is_false. rewrite existsb_exists.
          intros (x & Hx & ->%String.eqb_eq). by apply Hk, list_elem_of_In. }
        rewrite Hno. simpl. lia.
      * rewrite bool_decide_false by congruence. simpl.
        destruct (existsb (String.eqb k') ks); simpl; lia.
    + rewrite bool_decide_false by done. simpl. lia.
Qed.

(** C8. The record lists of the regions hold only rows of the state whose
    county name is the name of a county polygon, so a row whose key matches
    no polygon is in none of them; and when no two polygons have the same
    name, the rows that are in no list (those of another state, without a
    county name, or with an unmatched one) and the rows of the lists
    together are as many as the rows of the table.  The rows left out are
    not counted anywhere by the code. *)
Theorem join_drops_unmatched_records (counties : list (CountyRow G))
    (recs : list CbrsRecord) (state_abbr : string) :
  let lists :=
    region_record_lists
      (county_layer counties (load_cbrs_data_filtered (Some recs) state_abbr)) in
  (forall r l, In l lists -> In r l ->
     In r recs /\ is_joined counties state_abbr r = true) /\
  (forall r, key_matches counties r = false -> forall l, In l lists -> ~ In r l) /\
  (NoDup (List.map county_name_of counties) ->
   (length (List.filter (fun r => negb (is_joined counties state_abbr r)) recs)
    + list_sum (List.map (@length CbrsRecord) lists))%nat = length recs).
Proof.
  cbv zeta. rewrite region_record_lists_county_layer.
  assert (Hin : forall r l,
             In l (List.map (fun k => cbrs_info_of
                                        (load_cbrs_data_filtered (Some recs) state_abbr) k)
                     (List.map county_name_of counties)) ->
             In r l -> In r recs /\ is_joined counties state_abbr r = true).
  { intros r l (k & <- & Hk)%in_map_iff. rewrite cbrs_info_of_load.
    intros [[Hr Hst]%filter_In Hkey%bool_decide_eq_true]%filter_In.
    split; [done|]. unfold is_joined, key_matches. rewrite Hst, Hkey. simpl.
    apply existsb_exists. exists k. split; [done | apply String.eqb_refl]. }
  split; [exact Hin|]. split.
  - intros r Hr l Hl Hrl. destruct (Hin r l Hl Hrl) as [_ Hj].
    unfold is_joined in Hj. rewrite Hr, andb_false_r in Hj. discriminate.
  - intros Hnd. rewrite List.map_map.
    rewrite (map_ext _ (fun k => length (List.filter
               (fun r => bool_decide (cbrs_county_name r = Some k))
               (List.filter (fun r => String.eqb (cbrs_state_abbr r) state_abbr) recs))))
      by (intros k; by rewrite cbrs_info_of_load).
    rewrite (groups_partition _ _ Hnd), filter_filter_andb.
    apply (filter_partition_length (is_joined counties state_abbr)).
Qed.

End Join.

(** ** The generator on the sample regions *)
Section Samples.
Import FCCTower Sample.

(** C3, as claimed, fails: the provider 'Acme Wireless' is not in
    [wisp_colors], so its layer takes the colour the random generator
    gives, and two runs on the same region differ in it. *)
Lemma wisp_color_differs_between_runs :
  fst (get_wisp_color "Acme Wireless" (rng 255)) = "#0000ff" /\
  fst (get_wisp_color "Acme Wireless" (rng 256)) = "#000100" /\
  layer_fill_colors (fst (create_map_fcc_towers with_towers (rng 255))) <>
  layer_fill_colors (fst (create_map_fcc_towers with_towers (rng 256))) /\
  fst (create_map_fcc_towers with_towers (rng 255)) <>
  fst (create_map_fcc_towers with_towers (rng 256)).
Proof.
  split; [reflexivity|]. split; [reflexivity|].
  assert (Hc : layer_fill_colors (fst (create_map_fcc_towers with_towers (rng 255))) <>
               layer_fill_colors (fst (create_map_fcc_towers with_towers (rng 256)))).
  { vm_compute. intros Heq. discriminate Heq. }
  split; [exact Hc|]. intros Heq. apply Hc. by rewrite Heq.
Qed.

(** A folder with a known provider: the two runs give the same map. *)
Lemma composition_deterministic_up_to_wisp_colors_witness :
  fst (create_map_fcc_towers with_known_wisp (rng 255)) =
  fst (create_map_fcc_towers with_known_wisp (rng 256)).
Proof.
  apply (proj2 (proj2 (composition_deterministic_up_to_wisp_colors
                         with_known_wisp (rng 255) (rng 256)))).
  reflexivity.
Defined.

(** What the comparison of two runs leaves out: in the region with the
    unknown provider, the colour of its WISP layer and nothing else; in
    the region with the known provider, nothing. *)
Example without_drawn_colors_ex :
  layer_fill_colors (without_drawn_colors (fst (create_map_fcc_towers with_towers (rng 255))))
  = List.map (fun nc => if String.eqb (fst nc) "WISP - Acme Wireless"
                        then (fst nc, [""]) else nc)
      (layer_fill_colors (fst (create_map_fcc_towers with_towers (rng 255)))) /\
  layer_list (without_drawn_colors (fst (create_map_fcc_towers with_towers (rng 255))))
  = layer_list (fst (create_map_fcc_towers with_towers (rng 255))) /\
  without_drawn_colors (fst (create_map_fcc_towers with_known_wisp (rng 255)))
  = fst (create_map_fcc_towers with_known_wisp (rng 255)).
Proof. split; [|split]; vm_compute; reflexivity. Qed.

(** C4, as claimed, fails: the antenna file of the region has one tower,
    of the group 'Other', and the map has the SBA marker layer all the
    same, with no feature behind it. *)
Lemma empty_marker_layer_emitted :
  exists m fg,
    fst (create_map_fcc_towers with_towers (rng 255)) = Ok m /\
    In fg (feature_groups m) /\
    fg_name fg = "Antenna Locations - SBA Towers" /\
    layer_features fg = 0%nat.
Proof.
  eexists. exists (new_FeatureGroup "Antenna Locations - SBA Towers" false).
  split; [reflexivity|]. split; [|by split].
  vm_compute. do 12 right. by left.
Qed.

Lemma point_and_grid_layers_nonempty_witness :
  exists m,
    fst (create_map_fcc_towers with_towers (rng 255)) = Ok m /\
    ~ In "BEAD Eligible Locations Round 2" (layer_names m).
Proof.
  eexists. split; [reflexivity|].
  apply (proj1 (proj2 (proj2
                         (point_and_grid_layers_nonempty with_towers (rng 255) _ eq_refl)))).
  reflexivity.
Defined.

(** C5, as claimed, fails: the WISP layer comes before the marker layers,
    and the ring layers of one owner group before the marker layer of the
    next. *)
Lemma wisp_layer_before_markers :
  exists m,
    fst (create_map_fcc_towers with_towers (rng 255)) = Ok m /\
    layer_names m =
      [ "State Outline"; "County Outline"; "BEAD Eligible Locations Round 1";
        "Grid Layer (1-5 Locations)"; "Grid Layer (100+ Locations)";
        "WISP - Acme Wireless";
        "Antenna Locations - Other"; "Other - Coverage 2 Mile"; "Other - Coverage 5 Mile";
        "Antenna Locations - American Towers"; "American Towers - Coverage 2 Mile";
        "American Towers - Coverage 5 Mile";
        "Antenna Locations - SBA Towers"; "SBA Towers - Coverage 2 Mile";
        "SBA Towers - Coverage 5 Mile";
        "Antenna Locations - Crown Castle Towers"; "Crown Castle - Coverage 2 Mile";
        "Crown Castle - Coverage 5 Mile" ] /\
    in_claimed_order (layer_names m) = false.
Proof.
  eexists. split; [reflexivity|]. split; vm_compute; reflexivity.
Qed.

Lemma layer_order_witness :
  exists m bead cci grid,
    fst (create_map_fcc_towers with_towers (rng 255)) = Ok m /\
    layer_names m =
      ["State Outline"; "County Outline"] ++ bead ++ cci ++ grid
      ++ ["WISP - Acme Wireless"] ++ antenna_layer_names.
Proof.
  eexists.
  destruct (layer_order with_towers (rng 255) _ eq_refl) as (bead & cci & grid & E & _).
  exists bead, cci, grid. split; [reflexivity | exact E].
Defined.

Lemma aggregate_coverage_not_attached_witness :
  exists m,
    fst (create_map_fcc_towers with_towers (rng 255)) = Ok m /\
    ~ In "Antenna Coverage (2 Miles)" (layer_names m).
Proof.
  eexists. split; [reflexivity|].
  destruct (aggregate_coverage_not_attached with_towers (rng 255) _ eq_refl)
    as (rows & _ & Hg).
  apply Hg.
Defined.

(** C8, as claimed, fails.  No count of the rows left out can be read off
    the returned map: a table with one more row of an unknown county gives
    the very same map.  And the rows of the lists can be more than the
    rows of the table: a row is listed under every polygon of its name. *)
Lemma no_omission_counter :
  (~ exists omitted : result (Map Shape) -> nat,
       forall (inp : Inputs Shape) (st : RandomState),
         omitted (fst (create_map_fcc_towers inp st)) =
         length (List.filter (fun r => negb (key_matches (county_outline inp) r))
                   (default [] (cbrs_file inp)))) /\
  (forall dropped : nat,
     (dropped +
      list_sum (List.map (@length CbrsRecord)
                  (region_record_lists
                     (county_layer [county "Addison"; county "Addison"]
                        (load_cbrs_data_filtered (Some [licence "Addison" "VT"]) "VT")))))%nat
     <> length [licence "Addison" "VT"]).
Proof.
  split.
  - intros [omitted Hom].
    pose proof (Hom (licensed_region [licence "Addison" "VT"]) (rng 0)) as HA.
    pose proof (Hom (licensed_region [licence "Addison" "VT"; licence "Nowhere" "VT"])
                  (rng 0)) as HB.
    assert (Hsame :
              fst (create_map_fcc_towers (licensed_region [licence "Addison" "VT"]) (rng 0)) =
              fst (create_map_fcc_towers
                     (licensed_region [licence "Addison" "VT"; licence "Nowhere" "VT"])
                     (rng 0))) by (vm_compute; reflexivity).
    rewrite Hsame in HA. rewrite HA in HB. vm_compute in HB. discriminate HB.
  - intros dropped. change (dropped + 2 <> 1)%nat. lia.
Qed.

Lemma join_drops_unmatched_records_witness :
  let counties := [county "Addison"; county "Bennington"] in
  let recs := [licence "Addison" "VT"; licence "Nowhere" "VT"; licence "Addison" "NH"] in
  (length (List.filter (fun r => negb (is_joined counties "VT" r)) recs)
   + list_sum (List.map (@length CbrsRecord)
                 (region_record_lists
                    (county_layer counties (load_cbrs_data_filtered (Some recs) "VT")))))%nat
  = 3%nat.
Proof.
  cbv zeta.
  apply (proj2 (proj2 (join_drops_unmatched_records
                         [county "Addison"; county "Bennington"]
                         [licence "Addison" "VT"; licence "Nowhere" "VT";
                          licence "Addison" "NH"] "VT"))).
  simpl. apply NoDup_cons_2; [|apply NoDup_singleton].
  intros Hin%list_elem_of_In. simpl in Hin. intuition discriminate.
Defined.

End Samples.

(** * Further properties of the code *)

(** ** Letter case *)
Section LetterCase.
Import PyStr.

Lemma is_cased_lower (c : ascii) : is_cased (lower_ascii c) = is_cased c.
Proof. destruct c as [[] [] [] [] [] [] [] []]; reflexivity. Qed.

Lemma upper_lower_ascii (c : ascii) : upper_ascii (lower_ascii c) = upper_ascii c.
Proof. destruct c as [[] [] [] [] [] [] [] []]; reflexivity. Qed.

Lemma lower_ascii_uncased (c : ascii) : is_cased c = false -> lower_ascii c = c.
Proof. destruct c as [[] [] [] [] [] [] [] []]; (reflexivity || discriminate). Qed.

Lemma title_from_lower (b : bool) (s : string) :
  title_from b (lower s) = title_from b s.
Proof.
  revert b. induction s as [|c s IH]; intros b; simpl; [done|].
  rewrite is_cased_lower, lower_ascii_idem, upper_lower_ascii, IH.
  destruct (is_cased c) eqn:Hc; [done | by rewrite lower_ascii_uncased].
Qed.

Lemma title_lower (s : string) : title (lower s) = title s.
Proof. apply title_from_lower. Qed.

Lemma upper_lower (s : string) : upper (lower s) = upper s.
Proof. induction s as [|c s IH]; simpl; [done | by rewrite upper_lower_ascii, IH]. Qed.

Lemma upper_app (a b : string) : upper (a +:+ b) = upper a +:+ upper b.
Proof. induction a as [|c a IH]; simpl; [done | by rewrite IH]. Qed.

End LetterCase.

(** ** State abbreviations *)
Section StateAbbreviations.
Import PyStr FCCTower.

(** Every name of the table but one is its own title-case form. *)
Lemma state_names_title_case (k a : string) :
  STATE_NAME_TO_ABBR !! k = Some a ->
  k = "District of Columbia" \/ title (lower k) = k.
Proof.
  unfold STATE_NAME_TO_ABBR. intros Hk%elem_of_list_to_map_2%list_elem_of_In.
  match type of Hk with
  | In _ ?L =>
      assert (Hall : forallb (fun ka => String.eqb (fst ka) "District of Columbia"
                                        || String.eqb (title (lower (fst ka))) (fst ka)) L
                     = true) by (vm_compute; reflexivity)
  end.
  rewrite forallb_forall in Hall. apply Hall in Hk. simpl in Hk.
  apply orb_true_iff in Hk. destruct Hk as [Hk|Hk]; apply String.eqb_eq in Hk; auto.
Qed.

(** X1. A state name of the table, other than 'District of Columbia', is
    resolved to its abbreviation in any letter case. *)
Theorem get_state_abbreviation_any_case (s k a : string) :
  STATE_NAME_TO_ABBR !! k = Some a ->
  k <> "District of Columbia" ->
  lower s = lower k ->
  get_state_abbreviation s = Some a.
Proof.
  intros Hk Hdc Hs.
  assert (Hkt : title (lower k) = k) by (destruct (state_names_title_case k a Hk); done).
  assert (Hst : title s = k) by (by rewrite <- title_lower, Hs).
  unfold get_state_abbreviation.
  destruct (STATE_NAME_TO_ABBR !! s) as [a'|] eqn:Hs'.
  - destruct (state_names_title_case s a' Hs') as [->|Hss].
    + exfalso. rewrite <- Hst in Hk. vm_compute in Hk. discriminate Hk.
    + rewrite title_lower, Hst in Hss. subst s. congruence.
  - by rewrite Hst, Hk.
Qed.

Lemma get_state_abbreviation_any_case_witness :
  get_state_abbreviation "nEW hAMPSHIRE" = Some "NH".
Proof.
  apply (get_state_abbreviation_any_case "nEW hAMPSHIRE" "New Hampshire" "NH").
  - reflexivity.
  - discriminate.
  - reflexivity.
Defined.

(** X2. An abbreviation that is returned is an abbreviation of the table:
    the fallbacks only lead to 'DC', which the table has.  The lower-case
    spelling of 'District of Columbia' is not resolved: its title case has
    a capital 'Of', and the variations are looked up as they were typed. *)
Theorem get_state_abbreviation_range :
  (forall s a, get_state_abbreviation s = Some a ->
     exists k, STATE_NAME_TO_ABBR !! k = Some a) /\
  get_state_abbreviation "District of Columbia" = Some "DC" /\
  get_state_abbreviation "District Of Columbia" = Some "DC" /\
  get_state_abbreviation "district of columbia" = None.
Proof.
  split; [|by repeat split].
  intros s a. unfold get_state_abbreviation.
  destruct (STATE_NAME_TO_ABBR !! s) as [a1|] eqn:H1; [intros [= <-]; eauto|].
  destruct (STATE_NAME_TO_ABBR !! title s) as [a2|] eqn:H2; [intros [= <-]; eauto|].
  intros Hv%elem_of_list_to_map_2%list_elem_of_In.
  exists "District of Columbia".
  simpl in Hv. destruct Hv as [Hv|[Hv|[Hv|[]]]]; injection Hv as _ <-; reflexivity.
Qed.

End StateAbbreviations.

(** ** Structure types *)
Section StructureTypes.
Import PyStr FCCTowerExtraction.

Lemma keep_capitals_app (a b : string) :
  keep_capitals (a +:+ b) = keep_capitals a +:+ keep_capitals b.
Proof.
  induction a as [|c a IH]; simpl; [done|].
  destruct (_ && _); simpl; by rewrite IH.
Qed.

Lemma keep_capitals_uncased (c : ascii) :
  is_cased c = false -> keep_capitals (upper (String c EmptyString)) = EmptyString.
Proof. destruct c as [[] [] [] [] [] [] [] []]; (reflexivity || discriminate). Qed.

(** X3. The structure type of a code depends on its letters only, whatever
    their case: a character that is not a letter can be dropped from the
    code, and the code can be put in lower case. *)
Theorem extract_type_letters_only (a b : string) (c : ascii) :
  isascii (a +:+ String c b) = true ->
  is_cased c = false ->
  extract_type (a +:+ String c b) = extract_type (a +:+ b) /\
  extract_type (lower (a +:+ String c b)) = extract_type (a +:+ b).
Proof.
  intros _ Hc. unfold extract_type. rewrite upper_lower.
  change (String c b) with (String c EmptyString +:+ b).
  rewrite !upper_app, !keep_capitals_app, (keep_capitals_uncased c Hc). by split.
Qed.

Lemma extract_type_letters_only_witness :
  extract_type "B-TWR" = extract_type "BTWR" /\
  extract_type "b-twr" = extract_type "BTWR".
Proof.
  apply (extract_type_letters_only "B" "TWR" "-"); reflexivity.
Defined.

Lemma keep_capitals_head (s r : string) (c : ascii) :
  keep_capitals s = String c r -> is_cased c = true.
Proof.
  induction s as [|d s IH]; [discriminate|]. cbn [keep_capitals]. cbv zeta.
  destruct ((65 <=? nat_of_ascii d)%nat && (nat_of_ascii d <=? 90)%nat) eqn:Hd; [|exact IH].
  intros [= <- _]. unfold is_cased. by rewrite Hd.
Qed.

(** X4. For an ASCII code, the key that is looked up holds capital
    letters only, so the four entries of the mapping whose key starts with
    a digit are never found: the function is the same without them, and a
    code such as '3BPOLE' gets its type from the entry 'BPOLE'.  The empty
    code gives 'Unknown'. *)
Theorem extract_type_digit_keys_unused (code : string) :
  isascii code = true ->
  extract_type code =
    default "Unknown"
      (delete "3BPOLE" (delete "5BTWR" (delete "2BTWR" (delete "3BANT" structure_mapping)))
       !! keep_capitals (upper code)) /\
  extract_type "3BPOLE" = default "Unknown" (structure_mapping !! "BPOLE") /\
  extract_type "" = "Unknown".
Proof.
  intros _. split; [|split; reflexivity].
  unfold extract_type.
  assert (Hne : forall k r, is_cased k = false -> String k r <> keep_capitals (upper code)).
  { intros k r Hk E. symmetry in E. apply keep_capitals_head in E. congruence. }
  by rewrite !lookup_delete_ne by (by apply Hne).
Qed.

Lemma extract_type_digit_keys_unused_witness :
  extract_type "3bant" =
    default "Unknown"
      (delete "3BPOLE" (delete "5BTWR" (delete "2BTWR" (delete "3BANT" structure_mapping)))
       !! "BANT") /\
  extract_type "3bant" = "Building Antenna".
Proof.
  split; [|reflexivity].
  exact (proj1 (extract_type_digit_keys_unused "3bant" eq_refl)).
Defined.

End StructureTypes.

(** ** Stripping, file names and hexadecimal colours *)
Section StringsAgain.
Import PyStr FCCTower.
Local Arguments String.append _ _ : simpl nomatch.

Lemma append_nil_r (s : string) : s +:+ "" = s.
Proof. induction s as [|c s IH]; simpl; [done | by rewrite IH]. Qed.

Lemma append_assoc (a b c : string) : (a +:+ b) +:+ c = a +:+ (b +:+ c).
Proof. induction a as [|x a IH]; simpl; [done | by rewrite IH]. Qed.

Lemma length_append (a b : string) :
  String.length (a +:+ b) = (String.length a + String.length b)%nat.
Proof. induction a as [|x a IH]; simpl; [done | by rewrite IH]. Qed.

Lemma lstrip_suffix (s : string) : exists ws, s = ws +:+ lstrip s.
Proof.
  induction s as [|c s [ws IH]]; simpl; [by exists ""|].
  destruct (isspace c); [|by exists ""].
  exists (String c ws). simpl. by rewrite <- IH.
Qed.

Lemma rstrip_prefix (s : string) : exists ws, s = rstrip s +:+ ws.
Proof.
  induction s as [|c s [ws IH]]; simpl; [by exists ""|].
  destruct (rstrip s) as [|d r] eqn:E.
  - destruct (isspace c); [by exists (String c s)|].
    exists s. done.
  - exists ws. simpl in IH |- *. by rewrite <- IH.
Qed.

Lemma length_lstrip (s : string) : (String.length (lstrip s) <= String.length s)%nat.
Proof. induction s as [|c s IH]; simpl; [done|]. destruct (isspace c); simpl; lia. Qed.

(** A string that stripping leaves alone stays whole at the left end of a
    longer one... *)
Lemma lstrip_keeps_left (p b : string) :
  p <> "" -> lstrip p = p -> lstrip (p +:+ b) = p +:+ b.
Proof.
  destruct p as [|c p]; [done|]. intros _. simpl.
  destruct (isspace c); [|done].
  intros E. pose proof (length_lstrip p) as Hl. rewrite E in Hl. simpl in Hl. lia.
Qed.

(** ... and at its right end. *)
Lemma rstrip_keeps_right (p b : string) :
  p <> "" -> rstrip p = p -> rstrip (p +:+ b) = p +:+ rstrip b.
Proof.
  induction p as [|c p IH]; [done|]. intros _. simpl.
  destruct (rstrip p) as [|d r] eqn:Ep.
  - destruct (isspace c); [discriminate|]. intros [= <-]. simpl.
    by destruct (rstrip b).
  - intros [= Hp]. rewrite IH by (by rewrite <- ?Hp).
    rewrite <- Hp. done.
Qed.

Lemma rstrip_app_nonempty (x t : string) :
  rstrip t <> "" -> rstrip (x +:+ t) = x +:+ rstrip t.
Proof.
  intros Ht. induction x as [|c x IH]; simpl; [done|]. rewrite IH.
  destruct (x +:+ rstrip t) as [|d r] eqn:E; [|done].
  destruct x; simpl in E; [done | discriminate].
Qed.

Lemma lstrip_keeps_occurrence (a p b : string) :
  p <> "" -> lstrip p = p -> exists a', lstrip (a +:+ p +:+ b) = a' +:+ p +:+ b.
Proof.
  intros Hp Hl. induction a as [|c a [a' IH]]; simpl.
  - exists "". simpl. by apply lstrip_keeps_left.
  - destruct (isspace c); [by exists a' | by exists (String c a)].
Qed.

(** Stripping a string neither loses nor creates an occurrence of a
    pattern that has no white space at its ends. *)
Lemma str_in_strip (p x : string) :
  p <> "" -> lstrip p = p -> rstrip p = p ->
  str_in p (strip x) = str_in p x.
Proof.
  intros Hp Hl Hr. apply eq_true_iff_eq. rewrite !str_in_spec. unfold strip. split.
  - intros (a & b & E).
    destruct (lstrip_suffix x) as [ws1 E1]. destruct (rstrip_prefix (lstrip x)) as [ws2 E2].
    exists (ws1 +:+ a), (b +:+ ws2).
    rewrite E1 at 1. rewrite E2 at 1. rewrite E.
    by rewrite !append_assoc.
  - intros (a & b & ->).
    destruct (lstrip_keeps_occurrence a p b Hp Hl) as [a' ->].
    exists a', (rstrip b).
    rewrite rstrip_app_nonempty; rewrite rstrip_keeps_right by done; [done|].
    destruct p; [done | discriminate].
Qed.

Lemma rfind_dot_app (a t : string) (i : nat) :
  rfind_dot t = Some i -> rfind_dot (a +:+ t) = Some (String.length a + i)%nat.
Proof. intros Ht. induction a as [|c a IH]; simpl; [done | by rewrite IH]. Qed.

Lemma substring_prefix (a t : string) : substring 0 (String.length a) (a +:+ t) = a.
Proof. induction a as [|c a IH]; simpl; [by destruct t | by rewrite IH]. Qed.

Lemma substring_skip (a t : string) (k : nat) :
  substring (String.length a) k (a +:+ t) = substring 0 k t.
Proof. induction a as [|c a IH]; simpl; [done | exact IH]. Qed.

Lemma all_hex_digits_app (a b : string) :
  all_hex_digits a = true -> all_hex_digits b = true -> all_hex_digits (a +:+ b) = true.
Proof.
  intros Ha Hb. induction a as [|c a IH]; simpl in *; [done|].
  apply andb_true_iff in Ha as [Hc Ha]. by rewrite Hc, IH.
Qed.

Lemma hex_digit_is_hex (d : Z) : (0 <= d < 16)%Z -> is_hex_digit (hex_digit d) = true.
Proof.
  intros Hd.
  assert (H : (d = 0 \/ d = 1 \/ d = 2 \/ d = 3 \/ d = 4 \/ d = 5 \/ d = 6 \/ d = 7 \/
               d = 8 \/ d = 9 \/ d = 10 \/ d = 11 \/ d = 12 \/ d = 13 \/ d = 14 \/ d = 15)%Z)
    by lia.
  repeat (destruct H as [->|H]; [reflexivity|]). by subst.
Qed.

Lemma hex_digits_S (f : nat) (n : Z) (acc : string) :
  hex_digits (S f) n acc =
  if (n / 16 =? 0)%Z then String (hex_digit (n mod 16)) acc
  else hex_digits f (n / 16) (String (hex_digit (n mod 16)) acc).
Proof. reflexivity. Qed.

(** The digits of a number below [16^(k+1)]: between one and [k+1] of them. *)
Lemma hex_digits_shape (f k : nat) (n : Z) (acc : string) :
  (0 <= n < 16 ^ Z.of_nat (S k))%Z ->
  exists d, hex_digits (S f) n acc = d +:+ acc /\
            (1 <= String.length d <= S k)%nat /\ all_hex_digits d = true.
Proof.
  revert k n acc. induction f as [|f IH]; intros k n acc Hn;
    rewrite (hex_digits_S _ n acc).
  - exists (String (hex_digit (n mod 16)) "").
    split; [by destruct (n / 16 =? 0)%Z|]. simpl. split; [lia|].
    rewrite hex_digit_is_hex by (apply Z.mod_pos_bound; lia). done.
  - destruct (Z.eqb_spec (n / 16) 0) as [Hz|Hnz].
    + exists (String (hex_digit (n mod 16)) ""). simpl. split; [done|]. split; [lia|].
      rewrite hex_digit_is_hex by (apply Z.mod_pos_bound; lia). done.
    + destruct k as [|k].
      { exfalso. apply Hnz. apply Z.div_small. simpl in Hn. lia. }
      destruct (IH k (n / 16)%Z (String (hex_digit (n mod 16)) acc)) as (d & E & Hl & Hh).
      { split; [apply Z.div_pos; lia|]. apply Z.div_lt_upper_bound; [lia|].
        replace (Z.of_nat (S (S k))) with (Z.succ (Z.of_nat (S k))) in Hn by lia.
        rewrite Z.pow_succ_r in Hn by lia. lia. }
      exists (d +:+ String (hex_digit (n mod 16)) "").
      rewrite E, append_assoc, length_append. simpl. split; [done|]. split; [lia|].
      apply all_hex_digits_app; [done|]. simpl.
      rewrite hex_digit_is_hex by (apply Z.mod_pos_bound; lia). done.
Qed.

Lemma pad_zeros_shape (k : nat) (s : string) :
  all_hex_digits s = true ->
  String.length (pad_zeros k s) = (k + String.length s)%nat /\
  all_hex_digits (pad_zeros k s) = true.
Proof.
  intros Hs. induction k as [|k [IH1 IH2]]; simpl; [done|]. by rewrite IH1, IH2.
Qed.

(** A number below [16^6] is printed as six hexadecimal digits. *)
Lemma format_06x_shape (n : Z) :
  (0 <= n < 16777216)%Z ->
  String.length (format_06x n) = 6%nat /\ all_hex_digits (format_06x n) = true.
Proof.
  intros Hn. unfold format_06x, zfill.
  destruct (hex_digits_shape (Z.to_nat (Z.log2 n)) 5 n "" ltac:(simpl; lia))
    as (d & E & Hl & Hh).
  rewrite E, append_nil_r.
  destruct (pad_zeros_shape (6 - String.length d) d Hh) as [H1 H2].
  rewrite H1, H2. split; [lia | done].
Qed.

End StringsAgain.

(** ** WISP colours and layers *)
Section WispLayers.
Import PyStr FCCTowerExtraction FCCTower.
Local Arguments String.append _ _ : simpl nomatch.

(** The test of the colour loop, for a key of the table: the key occurs in
    the name in some letter case. *)
Lemma wisp_key_occurs (key c name : string) :
  In (key, c) wisp_colors ->
  str_in (lower key) (strip (lower name)) = true <-> contains_ci key name.
Proof.
  intros Hin.
  assert (Hall : forallb (fun kc => negb (String.eqb (lower (fst kc)) "")
                                    && String.eqb (lstrip (lower (fst kc))) (lower (fst kc))
                                    && String.eqb (rstrip (lower (fst kc))) (lower (fst kc)))
                   wisp_colors = true) by reflexivity.
  rewrite forallb_forall in Hall. apply Hall in Hin. simpl fst in Hin.
  apply andb_true_iff in Hin as [[Hne Hl]%andb_true_iff Hr].
  apply String.eqb_eq in Hl, Hr. apply negb_true_iff, String.eqb_neq in Hne.
  rewrite str_in_strip by done. apply str_in_lower_spec.
Qed.

Lemma known_wisp_color_first (pre post : list (string * string)) (key c name : string) :
  Forall (fun kc => str_in (lower (fst kc)) (strip (lower name)) = false) pre ->
  str_in (lower key) (strip (lower name)) = true ->
  known_wisp_color (pre ++ (key, c) :: post) name = Some c.
Proof.
  intros Hpre Hkey. induction Hpre as [|[k' c'] pre Hk' _ IH]; simpl.
  - by rewrite Hkey.
  - simpl in Hk'. by rewrite Hk'.
Qed.

Lemma known_wisp_color_none (colors : list (string * string)) (name : string) :
  Forall (fun kc => str_in (lower (fst kc)) (strip (lower name)) = false) colors ->
  known_wisp_color colors name = None.
Proof.
  induction 1 as [|[k' c'] colors Hk' _ IH]; simpl; [done|].
  simpl in Hk'. by rewrite Hk'.
Qed.

Lemma wisp_keys_absent (keys : list (string * string)) (name : string) :
  (forall kc, In kc keys -> In kc wisp_colors) ->
  Forall (fun kc => ~ contains_ci (fst kc) name) keys ->
  Forall (fun kc => str_in (lower (fst kc)) (strip (lower name)) = false) keys.
Proof.
  intros Hsub Hno. apply Forall_forall. intros [k c] Hin%list_elem_of_In.
  rewrite Forall_forall in Hno. simpl. apply not_true_is_false. intros Hk.
  apply (Hno (k, c)); [by apply list_elem_of_In|].
  simpl. by apply (wisp_key_occurs k c name); [apply Hsub|].
Qed.

(** X5. A WISP name gets the colour of the first provider of the table
    whose name occurs in it, in any letter case and whatever white space
    surrounds the name, and no random number is drawn for it. *)
Theorem get_wisp_color_first_known (pre post : list (string * string))
    (key c name : string) (st : RandomState) :
  wisp_colors = pre ++ (key, c) :: post ->
  Forall (fun kc => ~ contains_ci (fst kc) name) pre ->
  contains_ci key name ->
  get_wisp_color name st = (c, st).
Proof.
  intros Htab Hpre Hkey. unfold get_wisp_color. rewrite Htab.
  rewrite (known_wisp_color_first pre post key c name); [done|..].
  - apply wisp_keys_absent; [|done]. intros kc Hin. rewrite Htab.
    apply in_or_app. by left.
  - apply (wisp_key_occurs key c name); [|done]. rewrite Htab.
    apply in_or_app. right. by left.
Qed.

Lemma get_wisp_color_first_known_witness :
  get_wisp_color "  VERIZON Wireless (t-mobile roaming) " (Sample.rng 7) =
  ("#E20074", Sample.rng 7).
Proof.
  apply (get_wisp_color_first_known [("AT&T", "#009FDB")]
           [("Verizon", "#E81123"); ("Mediacom Bolt", "#0033A0");
            ("Point Broadband", "#F89728"); ("Cloud 9 Wireless", "#6BACE4");
            ("Dragonfly Internet", "#FF5733"); ("Rapid Wireless LLC", "#28A745");
            ("Wildstar Networks", "#8E44AD")] "T-Mobile").
  - reflexivity.
  - constructor; [|constructor]. simpl. intros H%str_in_lower_spec.
    vm_compute in H. discriminate H.
  - exists "  VERIZON Wireless (", "t-mobile", " roaming) ". by split.
Defined.

(** X6. An ASCII WISP name in which no provider of the table occurs
    gets a colour of the form ['#'] and six lower-case hexadecimal digits,
    made from the next number of the random generator, which is
    consumed. *)
Theorem get_wisp_color_unknown (name : string) (st : RandomState) :
  isascii name = true ->
  Forall (fun kc => ~ contains_ci (fst kc) name) wisp_colors ->
  exists digits,
    get_wisp_color name st =
      ("#" +:+ digits, {| draws := draws st; pos := S (pos st) |}) /\
    digits = format_06x (draws st (pos st) mod 16777216) /\
    String.length digits = 6%nat /\
    all_hex_digits digits = true.
Proof.
  intros _ Hno. unfold get_wisp_color.
  rewrite known_wisp_color_none by (by apply wisp_keys_absent).
  unfold randint. simpl.
  exists (format_06x (draws st (pos st) mod 16777216)).
  split; [done|]. split; [done|].
  apply format_06x_shape. apply Z.mod_pos_bound. lia.
Qed.

Lemma get_wisp_color_unknown_witness :
  exists digits,
    get_wisp_color "Acme Wireless" (Sample.rng 255) =
      ("#" +:+ digits, {| draws := draws (Sample.rng 255); pos := 1 |}) /\
    String.length digits = 6%nat.
Proof.
  destruct (get_wisp_color_unknown "Acme Wireless" (Sample.rng 255))
    as (digits & E & _ & Hl & _).
  - reflexivity.
  - repeat (constructor; [simpl; intros H%str_in_lower_spec; vm_compute in H;
                          discriminate H|]).
    constructor.
  - exists digits. by split.
Defined.

(** X7. A file named [stem.sqlite] is taken for a WISP file, and its layer
    is named after the stem, unless the stem is made of dots only (the empty
    stem among them): then the whole file name is used. *)
Theorem wisp_layer_name_of_file (G : Type) (stem : string) (data : list G) :
  endswith ".sqlite" (stem +:+ ".sqlite") = true /\
  wisp_layer_names (Some [(stem +:+ ".sqlite", data)]) =
    ["WISP - " +:+ (if all_dots stem then stem +:+ ".sqlite" else stem)].
Proof.
  assert (He : endswith ".sqlite" (stem +:+ ".sqlite") = true).
  { unfold endswith. rewrite length_append.
    change (String.length ".sqlite") with 7%nat. apply andb_true_iff. split.
    - apply Nat.leb_le. lia.
    - replace (String.length stem + 7 - 7)%nat with (String.length stem) by lia.
      rewrite substring_skip. reflexivity. }
  split; [exact He|]. unfold wisp_layer_names. simpl. rewrite He. simpl.
  unfold splitext_root.
  rewrite (rfind_dot_app stem ".sqlite" 0) by reflexivity.
  by rewrite Nat.add_0_r, substring_prefix.
Qed.

(** What [add_wisp_layers] appends and what it draws. *)
Lemma add_wisp_layers_appends (G : Type) (m : Map G)
    (wisp_folder : option (list (string * list G))) (st : RandomState) :
  let sqlite_files :=
    List.filter (fun f => endswith ".sqlite" (fst f)) (default [] wisp_folder) in
  add_wisp_layers m None st = (m, st) /\
  exists W,
    fst (add_wisp_layers m wisp_folder st) =
      {| map_location := map_location m; zoom_start := zoom_start m;
         map_children := map_children m ++ List.map Group W |} /\
    Forall2 (fun f fg =>
               fg_name fg = "WISP - " +:+ splitext_root (fst f) /\
               fg_show fg = false /\
               exists c, fg_children fg = [GeoJson (snd f) (fill_style c)] /\
                         forall c', known_wisp_color wisp_colors (splitext_root (fst f))
                                    = Some c' -> c = c')
            sqlite_files W /\
    draws (snd (add_wisp_layers m wisp_folder st)) = draws st /\
    pos (snd (add_wisp_layers m wisp_folder st)) =
      (pos st +
       length (List.filter
                 (fun f => bool_decide (known_wisp_color wisp_colors (splitext_root (fst f))
                                        = None))
                 sqlite_files))%nat.
Proof.
  cbv zeta. split; [reflexivity|].
  destruct wisp_folder as [files|]; cbn [add_wisp_layers default from_option id].
  2:{ exists []. simpl. rewrite app_nil_r. destruct m.
      repeat split; [constructor | simpl; lia]. }
  revert m st. induction files as [|[file data] files IH]; intros m st.
  { exists []. simpl. rewrite app_nil_r. destruct m.
    repeat split; [constructor | simpl; lia]. }
  cbn [add_wisp_files List.filter fst snd].
  destruct (endswith ".sqlite" file) eqn:E; [|apply IH].
  unfold get_wisp_color.
  destruct (known_wisp_color wisp_colors (splitext_root file)) as [c|] eqn:Ek.
  - edestruct IH as (W & E1 & F & Hd & Hp). rewrite E1, Hd, Hp. clear E1 Hd Hp.
    eexists (_ :: W). cbn [List.map add_to map_location zoom_start map_children length].
    rewrite <- app_assoc. split; [reflexivity|]. split; [|split; [done|]].
    + constructor; [|exact F]. split; [reflexivity|]. split; [reflexivity|].
      exists c. split; [reflexivity|]. intros c' Hc'.
      change (known_wisp_color wisp_colors (splitext_root file) = Some c') in Hc'.
      congruence.
    + cbn [List.filter fst]. rewrite Ek, bool_decide_false by done. done.
  - unfold randint. cbn [Z.sub Z.add].
    edestruct IH as (W & E1 & F & Hd & Hp). rewrite E1, Hd, Hp. clear E1 Hd Hp.
    eexists (_ :: W). cbn [List.map add_to map_location zoom_start map_children length
                           draws pos].
    rewrite <- app_assoc. split; [reflexivity|]. split; [|split; [done|]].
    + constructor; [|exact F]. split; [reflexivity|]. split; [reflexivity|].
      eexists. split; [reflexivity|]. intros c' Hc'.
      change (known_wisp_color wisp_colors (splitext_root file) = Some c') in Hc'.
      congruence.
    + cbn [List.filter fst]. rewrite Ek, bool_decide_true by done. cbn [length]. lia.
Qed.

(** X8. For a folder of ASCII file names: [add_wisp_layers] leaves the
    map as it is when the folder is not there; otherwise it keeps what the
    map has and appends, for every [.sqlite] file of the listing and in its
    order, one hidden layer with the geometries of the file in a single
    style whose fill and stroke colour are the same, the table's colour
    when the provider is known.  Other files add nothing.  The random
    generator is asked once for every [.sqlite] file of an unknown
    provider. *)
Theorem add_wisp_layers_spec (G : Type) (m : Map G)
    (wisp_folder : option (list (string * list G))) (st : RandomState) :
  Forall (fun f => isascii (fst f) = true) (default [] wisp_folder) ->
  let sqlite_files :=
    List.filter (fun f => endswith ".sqlite" (fst f)) (default [] wisp_folder) in
  add_wisp_layers m None st = (m, st) /\
  exists W,
    fst (add_wisp_layers m wisp_folder st) =
      {| map_location := map_location m; zoom_start := zoom_start m;
         map_children := map_children m ++ List.map Group W |} /\
    Forall2 (fun f fg =>
               fg_name fg = "WISP - " +:+ splitext_root (fst f) /\
               fg_show fg = false /\
               exists c, fg_children fg = [GeoJson (snd f) (fill_style c)] /\
                         forall c', known_wisp_color wisp_colors (splitext_root (fst f))
                                    = Some c' -> c = c')
            sqlite_files W /\
    draws (snd (add_wisp_layers m wisp_folder st)) = draws st /\
    pos (snd (add_wisp_layers m wisp_folder st)) =
      (pos st +
       length (List.filter
                 (fun f => bool_decide (known_wisp_color wisp_colors (splitext_root (fst f))
                                        = None))
                 sqlite_files))%nat.
Proof. intros _. apply add_wisp_layers_appends. Qed.

End WispLayers.

(** ** The steps of the generator as appenders *)
Section Appenders.
Import PyStr FCCTower.
Context {G : Type} `{Shapely G} `{Math}.

Lemma attach_nil (m : Map G) : attach [] m = m.
Proof. unfold attach. simpl. rewrite app_nil_r. by destruct m. Qed.

Lemma attach_attach (l k : list (FeatureGroup G)) (m : Map G) :
  attach k (attach l m) = attach (l ++ k) m.
Proof. unfold attach. simpl. by rewrite List.map_app, app_assoc. Qed.

Lemma add_to_group_attach (fg : FeatureGroup G) (m : Map G) :
  add_to (Group fg) m = attach [fg] m.
Proof. reflexivity. Qed.

Lemma feature_groups_map_group (l : list (FeatureGroup G)) :
  flat_map (fun c : MapChild G => match c with Group fg => [fg] | _ => [] end)
    (List.map Group l) = l.
Proof. induction l as [|fg l IH]; simpl; [done | by rewrite IH]. Qed.

Lemma feature_groups_attach (l : list (FeatureGroup G)) (m : Map G) :
  feature_groups (attach l m) = feature_groups m ++ l.
Proof.
  unfold feature_groups, attach. simpl.
  by rewrite flat_map_app, feature_groups_map_group.
Qed.

Lemma appended_attach (l : list (FeatureGroup G)) : appended (attach l) = l.
Proof. unfold appended. by rewrite feature_groups_attach. Qed.

(** Step 7 only appends. *)
Lemma bead_layers_attach (inp : Inputs G) (m : Map G) :
  bead_layers inp m = attach (appended (bead_layers inp)) m.
Proof.
  unfold appended, bead_layers, add_bead_locations_layer.
  destruct (bead_eligible_locations inp) as [|p ps],
           (round2_locations_file inp) as [[|q qs]|],
           (cai_locations_file inp) as [[|c cs]|];
    simpl; rewrite ?add_to_group_attach, ?attach_attach, ?attach_nil; try reflexivity;
    by rewrite attach_nil.
Qed.

(** Step 8 only appends. *)
Lemma cci_layers_attach (inp : Inputs G) (m : Map G) :
  cci_layers inp m = attach (appended (cci_layers inp)) m.
Proof.
  unfold appended, cci_layers, add_cci_layers.
  destruct (String.eqb _ _), (cci_ds_file inp) as [ds|], (cci_fiber_file inp) as [fb|];
    simpl; rewrite ?add_to_group_attach, ?attach_attach, ?attach_nil; try reflexivity;
    by rewrite attach_nil.
Qed.

Lemma add_grid_layer_attach (grid : list (GridCell G)) (m : Map G)
    (item : string * ((Z * Z) * string)) :
  add_grid_layer grid m item = attach (appended (fun m => add_grid_layer grid m item)) m.
Proof.
  destruct item as [key [[lo hi] c]]. unfold appended, add_grid_layer.
  destruct (List.filter _ grid) as [|cell subset]; [by rewrite attach_nil|].
  reflexivity.
Qed.

Lemma foldl_add_grid_layer_attach (grid : list (GridCell G))
    (items : list (string * ((Z * Z) * string))) (m : Map G) :
  foldl (add_grid_layer grid) m items =
  attach (appended (fun m => foldl (add_grid_layer grid) m items)) m.
Proof.
  revert m. induction items as [|item items IH]; intros m; simpl.
  - by rewrite attach_nil.
  - unfold appended. simpl.
    rewrite (IH (add_grid_layer grid m item)), (IH (add_grid_layer grid blank_map item)).
    rewrite (add_grid_layer_attach grid m item), (add_grid_layer_attach grid blank_map item).
    rewrite !attach_attach, feature_groups_attach. reflexivity.
Qed.

(** Step 9 only appends. *)
Lemma add_grid_layers_attach (grid : list (GridCell G)) (m : Map G) :
  add_grid_layers m grid = attach (appended (fun m => add_grid_layers m grid)) m.
Proof. apply foldl_add_grid_layer_attach. Qed.

Lemma attach_antenna_layers_attach (g : AntennaGroups G) (m : Map G) :
  attach_antenna_layers g m = attach (antenna_layers g) m.
Proof.
  unfold attach_antenna_layers. rewrite !add_to_group_attach, !attach_attach. reflexivity.
Qed.

(** The outcome of the generator, and the map it returns: the base layers,
    then the groups of the steps in their order, then the layer control.
    [W] are the WISP layers. *)
Lemma create_map_sections (inp : Inputs G) (st : RandomState) :
  match state_outline inp, antenna_file inp with
  | [], _ => create_map_fcc_towers inp st = (Raise IndexError, st)
  | _ :: _, None =>
      fst (create_map_fcc_towers inp st) = Raise (UnboundLocalError "fg_antennas")
  | first :: _, Some rows =>
      exists W,
        fst (create_map_fcc_towers inp st) =
          Ok {| map_location := centroid first;
                zoom_start := 7;
                map_children :=
                  base_layers
                  ++ List.map Group
                       ([state_layer (state_outline inp);
                         county_layer (county_outline inp) (cbrs_data_of inp)]
                        ++ appended (bead_layers inp)
                        ++ appended (cci_layers inp)
                        ++ appended (fun m => add_grid_layers m (grid_analysis_layer inp))
                        ++ W
                        ++ antenna_layers (antenna_block rows))
                  ++ [LayerControl] |} /\
        List.map fg_name W = wisp_layer_names (wisp_folder inp) /\
        Forall (fun fg => fg_show fg = false) W
  end.
Proof.
  unfold create_map_fcc_towers.
  destruct (state_outline inp) as [|first rest] eqn:Hso; [done|].
  rewrite bead_layers_attach, cci_layers_attach, add_grid_layers_attach.
  set (m9 := attach _ (attach _ (attach _ _))).
  destruct (add_wisp_layers_appends G m9 (wisp_folder inp) st) as (_ & W & E & F & _).
  destruct (add_wisp_layers m9 (wisp_folder inp) st) as [m10 st'].
  simpl in E. subst m10.
  destruct (antenna_file inp) as [rows|]; cbn [fmap option_fmap option_map fst]; [|done].
  exists W. split; [|split].
  - rewrite attach_antenna_layers_attach.
    unfold attach, add_to, base_layers.
    cbn [map_location zoom_start map_children]. f_equal. f_equal.
    rewrite !List.map_app. cbn [app List.map]. rewrite <- !app_assoc. reflexivity.
  - unfold wisp_layer_names. destruct (wisp_folder inp) as [files|]; simpl in F |- *.
    + induction F as [|f fg fs W [Hn _] _ IH]; simpl; [done | by rewrite Hn, IH].
    + by inversion F.
  - induction F as [|f fg fs W (_ & Hs & _) _ IH]; by constructor.
Qed.

Lemma feature_groups_sections (p : Point) (z : Z) (l : list (FeatureGroup G)) :
  feature_groups {| map_location := p; zoom_start := z;
                    map_children := base_layers ++ List.map Group l ++ [LayerControl] |} = l.
Proof.
  unfold feature_groups. simpl. rewrite flat_map_app, feature_groups_map_group. simpl.
  by rewrite app_nil_r.
Qed.

End Appenders.

(** ** The returned map *)
Section ReturnedMap.
Import PyStr FCCTower.
Context {G : Type} `{Shapely G} `{Math}.



End ReturnedMap.

(** ** Names and visibility of the layers *)
Section LayerFacts.
Import PyStr FCCTower.
Context {G : Type} `{Shapely G} `{Math}.

Lemma In_by_check (n : string) (l : list string) :
  existsb (String.eqb n) l = true <-> In n l.
Proof.
  rewrite existsb_exists. split.
  - by intros (x & Hx & ->%String.eqb_eq).
  - intros Hn. exists n. split; [done | apply String.eqb_refl].
Qed.

Lemma disjoint_by_check (names vis : list string) :
  forallb (fun n => negb (existsb (String.eqb n) vis)) names = true ->
  Forall (fun n => ~ In n vis) names.
Proof.
  rewrite forallb_forall. intros Hall. apply Forall_forall. intros n Hn%list_elem_of_In.
  intros Hv%In_by_check. apply Hall in Hn. rewrite Hv in Hn. discriminate.
Qed.

Lemma shown_by_check (fg : FeatureGroup G) (names vis : list string) :
  existsb (String.eqb (fg_name fg)) names = true ->
  Bool.eqb (fg_show fg) (existsb (String.eqb (fg_name fg)) vis) = true ->
  In (fg_name fg) names /\ (fg_show fg = true <-> In (fg_name fg) vis).
Proof.
  intros Hn%In_by_check Hs%eqb_prop. split; [done|].
  by rewrite Hs, In_by_check.
Qed.

(** X11. What step 7 attaches: the round 1 layer, named with its round
    only when a round 2 or a CAI file was read (with or without rows) and
    always shown; then the round 2 layer and the CAI layer, hidden.  A data
    set without rows gets no layer; a layer holds one marker per row. *)
Theorem bead_layers_spec (inp : Inputs G) (m : Map G) :
  exists B,
    bead_layers inp m = attach B m /\
    List.map (fun fg => (fg_name fg, fg_show fg, layer_features fg)) B =
      match bead_eligible_locations inp with
      | [] => []
      | rows =>
          [(if bool_decide (is_Some (round2_locations_file inp))
               || bool_decide (is_Some (cai_locations_file inp))
            then "BEAD Eligible Locations Round 1" else "BEAD Eligible Locations",
            true, length rows)]
      end
      ++ match round2_locations_file inp with
         | Some (p :: ps) => [("BEAD Eligible Locations Round 2", false, length (p :: ps))]
         | _ => []
         end
      ++ match cai_locations_file inp with
         | Some (p :: ps) => [("BEAD Eligible CAIs", false, length (p :: ps))]
         | _ => []
         end.
Proof.
  exists (appended (bead_layers inp)). split; [apply bead_layers_attach|].
  unfold appended, bead_layers, add_bead_locations_layer.
  destruct (bead_eligible_locations inp) as [|p ps],
           (round2_locations_file inp) as [[|q qs]|],
           (cai_locations_file inp) as [[|c cs]|];
    simpl; unfold layer_features; simpl; rewrite ?length_map, ?Nat.add_0_r; reflexivity.
Qed.

(** X12. The CCI layers are attached for Maine only, in any letter case
    of the state name: DSL first, then fiber, each when its file was read,
    both hidden.  For any other state the map is left as it is. *)
Theorem cci_layers_maine_only (inp : Inputs G) (m : Map G) :
  (lower (state_name inp) <> "maine" -> cci_layers inp m = m) /\
  (lower (state_name inp) = "maine" ->
   exists C,
     cci_layers inp m = attach C m /\
     List.map (fun fg => (fg_name fg, fg_show fg, layer_features fg)) C =
       match cci_ds_file inp with
       | Some data => [("CCI DSL", false, length data)]
       | None => []
       end
       ++ match cci_fiber_file inp with
          | Some data => [("CCI Fiber", false, length data)]
          | None => []
          end).
Proof.
  split.
  - intros Hne%String.eqb_neq. unfold cci_layers. by rewrite Hne.
  - intros He%String.eqb_eq. exists (appended (cci_layers inp)).
    split; [apply cci_layers_attach|].
    unfold appended, cci_layers, add_cci_layers. rewrite He.
    destruct (cci_ds_file inp) as [ds|], (cci_fiber_file inp) as [fb|];
      simpl; unfold layer_features; simpl; rewrite ?Nat.add_0_r; reflexivity.
Qed.

Lemma appended_bead_shows (inp : Inputs G) :
  Forall (fun fg => In (fg_name fg) bead_layer_names /\
                    (fg_show fg = true <->
                     In (fg_name fg) ["BEAD Eligible Locations";
                                      "BEAD Eligible Locations Round 1"]))
    (appended (bead_layers inp)).
Proof.
  assert (Hall : forallb (fun fg : FeatureGroup G =>
                            existsb (String.eqb (fg_name fg)) bead_layer_names
                            && Bool.eqb (fg_show fg)
                                 (existsb (String.eqb (fg_name fg))
                                    ["BEAD Eligible Locations";
                                     "BEAD Eligible Locations Round 1"]))
                   (appended (bead_layers inp)) = true).
  { unfold appended, bead_layers, add_bead_locations_layer.
    destruct (bead_eligible_locations inp) as [|p ps],
             (round2_locations_file inp) as [[|q qs]|],
             (cai_locations_file inp) as [[|c cs]|]; reflexivity. }
  rewrite forallb_forall in Hall. apply Forall_forall. intros fg Hin%list_elem_of_In.
  apply Hall in Hin. apply andb_true_iff in Hin as [Hn Hs]. by apply shown_by_check.
Qed.

Lemma appended_cci_hidden (inp : Inputs G) :
  Forall (fun fg => In (fg_name fg) cci_layer_names /\ fg_show fg = false)
    (appended (cci_layers inp)).
Proof.
  assert (Hall : forallb (fun fg : FeatureGroup G =>
                            existsb (String.eqb (fg_name fg)) cci_layer_names
                            && negb (fg_show fg))
                   (appended (cci_layers inp)) = true).
  { unfold appended, cci_layers, add_cci_layers.
    destruct (String.eqb _ _), (cci_ds_file inp) as [ds|], (cci_fiber_file inp) as [fb|];
      reflexivity. }
  rewrite forallb_forall in Hall. apply Forall_forall. intros fg Hin%list_elem_of_In.
  apply Hall in Hin. apply andb_true_iff in Hin as [Hn Hs].
  split; [by apply In_by_check | by apply negb_true_iff].
Qed.

Lemma appended_grid_hidden (grid : list (GridCell G)) :
  Forall (fun fg => In (fg_name fg) grid_layer_names /\ fg_show fg = false)
    (appended (fun m => add_grid_layers m grid)).
Proof.
  destruct (add_grid_layers_layout grid blank_map) as (L & E & Hsub & HF).
  unfold appended. rewrite E. change (feature_groups blank_map ++ L) with L.
  apply Forall_forall. intros fg Hin.
  rewrite Forall_forall in HF. split; [|by apply HF].
  apply list_elem_of_In. eapply elem_of_sublist; [|exact Hsub].
  apply list_elem_of_In, in_map, list_elem_of_In, Hin.
Qed.

(** X13. In a returned map the two outlines and the round 1 layer are
    shown by default, and every other layer is hidden. *)
Theorem default_visibility (inp : Inputs G) (st : RandomState) (m : Map G) :
  fst (create_map_fcc_towers inp st) = Ok m ->
  forall fg, In fg (feature_groups m) ->
    (fg_show fg = true <->
     In (fg_name fg) ["State Outline"; "County Outline"; "BEAD Eligible Locations";
                      "BEAD Eligible Locations Round 1"]).
Proof.
  intros Hm fg Hin. pose proof (create_map_sections inp st) as Hs.
  destruct (state_outline inp) as [|first rest]; [rewrite Hs in Hm; discriminate|].
  destruct (antenna_file inp) as [rows|]; [|rewrite Hs in Hm; discriminate].
  destruct Hs as (W & E & HWn & HWs). rewrite E in Hm. injection Hm as <-.
  match type of E with context [List.map Group ?l] => set (L := l) in E end.
  assert (HinL : In fg L).
  { pose proof (feature_groups_sections (centroid first) 7 L) as Hfg.
    replace (feature_groups _) with L in Hin by (symmetry; exact Hfg). exact Hin. }
  clear Hin E. unfold L in HinL. clear L. rewrite !in_app_iff in HinL.
  assert (Hhid : forall names : list string,
             In (fg_name fg) names -> fg_show fg = false ->
             Forall (fun n => ~ In n ["State Outline"; "County Outline";
                                      "BEAD Eligible Locations";
                                      "BEAD Eligible Locations Round 1"]) names ->
             fg_show fg = true <->
             In (fg_name fg) ["State Outline"; "County Outline"; "BEAD Eligible Locations";
                              "BEAD Eligible Locations Round 1"]).
  { intros names Hn Hs Hall. rewrite Forall_forall in Hall.
    split; [congruence|]. intros Hv. exfalso.
    apply (Hall (fg_name fg)); [by apply list_elem_of_In | exact Hv]. }
  destruct HinL as [Hin|[Hin|[Hin|[Hin|[Hin|Hin]]]]].
  - destruct Hin as [<-|[<-|[]]].
    + split; [intros _; by apply In_by_check | done].
    + unfold county_layer. rewrite foldl_add_to_group.
      split; [intros _; by apply In_by_check | done].
  - pose proof (appended_bead_shows inp) as HB. rewrite Forall_forall in HB.
    destruct (HB fg) as [Hb Hiff]; [by apply list_elem_of_In|].
    rewrite Hiff. split; [intros Hv; right; right; exact Hv|].
    intros [E|[E|Hv]]; [| |exact Hv];
      rewrite <- E in Hb; apply In_by_check in Hb; discriminate Hb.
  - pose proof (appended_cci_hidden inp) as HC. rewrite Forall_forall in HC.
    destruct (HC fg) as [Hn Hs]; [by apply list_elem_of_In|].
    apply (Hhid cci_layer_names Hn Hs). by apply disjoint_by_check.
  - pose proof (appended_grid_hidden (grid_analysis_layer inp)) as HL.
    rewrite Forall_forall in HL.
    destruct (HL fg) as [Hn Hs]; [by apply list_elem_of_In|].
    apply (Hhid grid_layer_names Hn Hs). by apply disjoint_by_check.
  - rewrite Forall_forall in HWs.
    assert (Hs : fg_show fg = false) by (by apply HWs, list_elem_of_In).
    assert (Hn : In (fg_name fg) (wisp_layer_names (wisp_folder inp)))
      by (rewrite <- HWn; by apply in_map).
    apply In_wisp_layer_names in Hn. destruct Hn as [x Hx].
    split; [congruence|]. rewrite Hx. intros Hv%In_by_check. discriminate Hv.
  - destruct (antenna_block_groups (G:=G) rows) as (Hnames & Hshow & _).
    cbv zeta in Hnames, Hshow. rewrite Forall_forall in Hshow.
    assert (Hs : fg_show fg = false) by (by apply Hshow, list_elem_of_In).
    assert (Hn : In (fg_name fg) antenna_layer_names)
      by (rewrite <- Hnames; by apply in_map).
    apply (Hhid antenna_layer_names Hn Hs). by apply disjoint_by_check.
Qed.

End LayerFacts.

(** ** Layer names are unique *)
Section UniqueNames.
Import PyStr FCCTower.
Context {G : Type} `{Shapely G} `{Math}.

Lemma fixed_names_NoDup :
  NoDup ((boundary_layer_names ++ bead_layer_names ++ cci_layer_names ++ grid_layer_names)
         ++ antenna_layer_names).
Proof. apply (bool_decide_unpack _). by vm_compute. Qed.

Lemma fixed_names_no_wisp (x : string) :
  In ("WISP - " +:+ x)
     ((boundary_layer_names ++ bead_layer_names ++ cci_layer_names ++ grid_layer_names)
      ++ antenna_layer_names) -> False.
Proof. intros Hin%In_by_check. discriminate Hin. Qed.

(** X14. The layers of a returned map have different names, provided the
    WISP files give different names. *)
Theorem layer_names_unique (inp : Inputs G) (st : RandomState) (m : Map G) :
  fst (create_map_fcc_towers inp st) = Ok m ->
  NoDup (wisp_layer_names (wisp_folder inp)) ->
  NoDup (layer_names m).
Proof.
  intros Hm Hw.
  destruct (layer_names_layout inp st m Hm) as (bead & cci & grid & E & Sb & Sc & Sg & _).
  set (F1 := boundary_layer_names ++ bead_layer_names ++ cci_layer_names ++ grid_layer_names).
  set (W := wisp_layer_names (wisp_folder inp)) in *.
  assert (Hsub : layer_names m `sublist_of` F1 ++ W ++ antenna_layer_names).
  { rewrite E. unfold F1. rewrite <- !app_assoc.
    repeat (apply sublist_app; [done|]). done. }
  eapply sublist_NoDup; [|exact Hsub].
  pose proof fixed_names_NoDup as Hfix. fold F1 in Hfix.
  apply NoDup_app in Hfix as (HF1 & Hdis & HA).
  assert (HWfix : forall x, x ∈ W -> In x (F1 ++ antenna_layer_names) -> False).
  { intros x Hx%list_elem_of_In Hin. apply In_wisp_layer_names in Hx as [s ->].
    by apply (fixed_names_no_wisp s). }
  apply NoDup_app. split; [exact HF1|]. split.
  - intros x Hx [Hxw|Hxa]%elem_of_app.
    + apply (HWfix x Hxw). apply in_or_app. left. by apply list_elem_of_In.
    + by apply (Hdis x).
  - apply NoDup_app. split; [exact Hw|]. split; [|exact HA].
    intros x Hx Hxa. apply (HWfix x Hx). apply in_or_app. right. by apply list_elem_of_In.
Qed.

End UniqueNames.

(** ** Towers, markers and popups *)
Section Towers.
Import PyStr FCCTowerExtraction FCCTower.
Context {G : Type} `{Math}.

Lemma select_group_length (g : string) (rows : list AntennaRow) :
  length (select_group g (iterrows rows)) =
  length (List.filter (fun r => String.eqb (grouped_entity r) g) rows).
Proof.
  unfold select_group, iterrows. generalize 0%nat.
  induction rows as [|r rows IH]; intros k; simpl; [done|].
  destruct (String.eqb (grouped_entity r) g); simpl; by rewrite IH.
Qed.

Lemma groups_cover (rows : list AntennaRow) :
  (length (List.filter (fun r => String.eqb (grouped_entity r) "Other") rows)
   + length (List.filter (fun r => String.eqb (grouped_entity r) "American Towers") rows)
   + length (List.filter (fun r => String.eqb (grouped_entity r) "SBA") rows)
   + length (List.filter (fun r => String.eqb (grouped_entity r) "Crown Castle") rows))%nat
  = length (List.filter
              (fun r => existsb (String.eqb (grouped_entity r))
                          ["Other"; "American Towers"; "SBA"; "Crown Castle"]) rows).
Proof.
  induction rows as [|r rows IH]; simpl in *; [done|].
  destruct (String.eqb_spec (grouped_entity r) "Other") as [E|_];
    [rewrite ?E; simpl; lia|].
  destruct (String.eqb_spec (grouped_entity r) "American Towers") as [E|_];
    [rewrite ?E; simpl; lia|].
  destruct (String.eqb_spec (grouped_entity r) "SBA") as [E|_];
    [rewrite ?E; simpl; lia|].
  destruct (String.eqb_spec (grouped_entity r) "Crown Castle") as [E|_];
    simpl; lia.
Qed.

(** X15. The four marker layers hold one marker for every row of the
    antenna file whose group is 'Other', 'American Towers', 'SBA' or 'Crown
    Castle', and none for a row with any other group. *)
Theorem markers_of_known_groups (rows : list AntennaRow) :
  let g : AntennaGroups G := antenna_block rows in
  (layer_features (fg_antennas g) + layer_features (fg_antennas_american_towers g)
   + layer_features (fg_antennas_sba_towers g)
   + layer_features (fg_antennas_crown_castle g))%nat
  = length (List.filter
              (fun r => existsb (String.eqb (grouped_entity r))
                          ["Other"; "American Towers"; "SBA"; "Crown Castle"]) rows).
Proof.
  cbv zeta. pose proof (antenna_layers_features (G:=G) rows) as Hf.
  cbn [antenna_layers List.map flat_map app] in Hf.
  injection Hf as -> _ _ -> _ _ -> _ _ -> _ _.
  rewrite !select_group_length. apply groups_cover.
Qed.

(** X16. When the group column of the antenna file is the one that
    [add_tower_ownership_grouping] computes, every row of the file gets a
    marker: the column has a value for every row of the frame, and every
    value is one of the four groups. *)
Theorem extractor_groups_all_marked {R : Type} (entity : option (R -> option string))
    (df : list R) (rows : list AntennaRow) :
  List.map grouped_entity rows = add_tower_ownership_grouping entity df ->
  let g : AntennaGroups G := antenna_block rows in
  length rows = length df /\
  Forall (fun r => In (grouped_entity r) ["Other"; "American Towers"; "SBA"; "Crown Castle"])
    rows /\
  (layer_features (fg_antennas g) + layer_features (fg_antennas_american_towers g)
   + layer_features (fg_antennas_sba_towers g)
   + layer_features (fg_antennas_crown_castle g))%nat = length rows.
Proof.
  intros Hcol. cbv zeta.
  assert (Hlen : length rows = length df).
  { rewrite <- (length_map grouped_entity rows), Hcol.
    unfold add_tower_ownership_grouping. destruct entity; apply length_map. }
  assert (Hall : Forall (fun r => In (grouped_entity r)
                                    ["Other"; "American Towers"; "SBA"; "Crown Castle"]) rows).
  { assert (Hvals : Forall (fun v => In v ["Other"; "American Towers"; "SBA"; "Crown Castle"])
                      (add_tower_ownership_grouping entity df)).
    { unfold add_tower_ownership_grouping. destruct entity as [column|];
        apply Forall_forall; intros v [row [<- _]]%list_elem_of_In%in_map_iff.
      - destruct (column row) as [name|]; [|by left].
        apply (first_match_range priority_table name).
      - by left. }
    rewrite <- Hcol in Hvals. clear Hcol Hlen.
    induction rows as [|r rows IH]; [constructor|].
    simpl in Hvals. apply Forall_cons in Hvals as [Hr Hrs]. constructor; auto. }
  split; [exact Hlen|]. split; [exact Hall|].
  pose proof (antenna_layers_features (G:=G) rows) as Hf.
  cbn [antenna_layers List.map flat_map app] in Hf.
  injection Hf as -> _ _ -> _ _ -> _ _ -> _ _.
  rewrite !select_group_length, groups_cover. clear Hcol Hlen.
  induction Hall as [|r rows Hr _ IH]; [reflexivity|].
  apply In_by_check in Hr. cbn [List.filter]. rewrite Hr.
  cbn [length]. by rewrite IH.
Qed.

End Towers.

(** ** The rows behind the tower popups *)
Section TowerPopups.
Import PyStr FCCTower.
Context {G : Type} `{Math}.

Lemma popup_rows_of_markers (c : string) (l : list (nat * AntennaRow)) :
  flat_map (fun e : Element G =>
              match e with
              | Marker _ _ (TowerPopup idx row) => [(idx, row)]
              | _ => []
              end)
    (List.map (fun ir => Marker (antenna_geometry (snd ir)) (FaIcon "wifi" "white" c)
                           (TowerPopup (fst ir) (snd ir))) l) = l.
Proof. induction l as [|[i r] l IH]; simpl; [done | by rewrite IH]. Qed.

(** The popups of a marker layer show the rows of its group, under the
    positions the rows have in the file. *)
Lemma antenna_block_popups (rows : list AntennaRow) :
  let g : AntennaGroups G := antenna_block rows in
  popup_rows (fg_antennas g) = select_group "Other" (iterrows rows) /\
  popup_rows (fg_antennas_american_towers g) =
    select_group "American Towers" (iterrows rows) /\
  popup_rows (fg_antennas_sba_towers g) = select_group "SBA" (iterrows rows) /\
  popup_rows (fg_antennas_crown_castle g) = select_group "Crown Castle" (iterrows rows).
Proof.
  unfold antenna_block, add_markers. rewrite !add_coverage_rings_eq.
  rewrite (foldl_add_to_groups
             (fun ir => Circle (antenna_geometry (snd ir))
                          (r2 (geom_y (antenna_geometry (snd ir))))
                          "green" None "green" 0.2%float None)
             (fun ir => Circle (antenna_geometry (snd ir))
                          (r5 (geom_y (antenna_geometry (snd ir))))
                          "blue" None "blue" 0.1%float None)).
  rewrite !foldl_add_to_group. unfold popup_rows. cbv zeta.
  cbn [fg_antennas fg_antennas_american_towers fg_antennas_sba_towers
       fg_antennas_crown_castle fg_children new_FeatureGroup app].
  repeat split; apply popup_rows_of_markers.
Qed.

Lemma In_iterrows_from {A} (i : nat) (r : A) (rows : list A) (k : nat) :
  In (i, r) (combine (seq k (length rows)) rows) ->
  (k <= i)%nat /\ nth_error rows (i - k) = Some r.
Proof.
  revert k. induction rows as [|x rows IH]; intros k; simpl; [done|].
  intros [E|Hin].
  - injection E as -> ->. split; [lia|]. by rewrite Nat.sub_diag.
  - apply IH in Hin as [Hle Hnth]. split; [lia|].
    replace (i - k)%nat with (S (i - S k)) by lia. exact Hnth.
Qed.

Lemma In_select_group (g : string) (i : nat) (r : AntennaRow) (rows : list AntennaRow) :
  In (i, r) (select_group g (iterrows rows)) ->
  nth_error rows i = Some r /\ grouped_entity r = g.
Proof.
  unfold select_group, iterrows. intros [Hin Hg]%filter_In.
  apply In_iterrows_from in Hin as [_ Hnth]. rewrite Nat.sub_0_r in Hnth.
  split; [exact Hnth|]. by apply String.eqb_eq.
Qed.

Lemma select_group_indices_NoDup (g : string) (rows : list AntennaRow) :
  NoDup (List.map fst (select_group g (iterrows rows))).
Proof.
  unfold select_group, iterrows. generalize 0%nat.
  induction rows as [|x rows IH]; intros k; simpl; [constructor|].
  destruct (String.eqb (grouped_entity x) g); [|apply IH].
  simpl. apply NoDup_cons_2; [|apply IH].
  intros Hin%list_elem_of_In.
  apply in_map_iff in Hin as [[i r] [Ei [Hin _]%filter_In]].
  simpl in Ei. subst i. apply In_iterrows_from in Hin as [Hle _]. lia.
Qed.

Lemma select_groups_apart (g1 g2 : string) (rows : list AntennaRow) (i : nat) :
  g1 <> g2 ->
  i ∈ List.map fst (select_group g1 (iterrows rows)) ->
  i ∉ List.map fst (select_group g2 (iterrows rows)).
Proof.
  intros Hne [[i1 r1] [E1 H1]]%list_elem_of_In%in_map_iff
         [[i2 r2] [E2 H2]]%list_elem_of_In%in_map_iff.
  simpl in E1, E2. subst i1 i2.
  apply In_select_group in H1 as [N1 <-], H2 as [N2 <-].
  rewrite N1 in N2. injection N2 as ->. by apply Hne.
Qed.

(** X17. Every tower popup of the four marker layers shows a row of the
    antenna file under the row's position in the file, and no two popups
    of one map carry the same position; the style classes of the popups,
    which are named after the position, are therefore never shared. *)
Theorem tower_popups_indexed (rows : list AntennaRow) :
  let g : AntennaGroups G := antenna_block rows in
  let shown := popup_rows (fg_antennas g) ++ popup_rows (fg_antennas_american_towers g)
               ++ popup_rows (fg_antennas_sba_towers g)
               ++ popup_rows (fg_antennas_crown_castle g) in
  NoDup (List.map fst shown) /\
  forall i r, In (i, r) shown -> nth_error rows i = Some r.
Proof.
  cbv zeta. destruct (antenna_block_popups rows) as (-> & -> & -> & ->). split.
  - rewrite !List.map_app.
    apply NoDup_app; split; [apply select_group_indices_NoDup|]; split.
    { intros i Hi. rewrite !elem_of_app. intros [Hin|[Hin|Hin]];
        refine (select_groups_apart _ _ rows i _ Hi Hin); discriminate. }
    apply NoDup_app; split; [apply select_group_indices_NoDup|]; split.
    { intros i Hi. rewrite !elem_of_app. intros [Hin|Hin];
        refine (select_groups_apart _ _ rows i _ Hi Hin); discriminate. }
    apply NoDup_app; split; [apply select_group_indices_NoDup|]; split.
    { intros i Hi Hin. refine (select_groups_apart _ _ rows i _ Hi Hin); discriminate. }
    apply select_group_indices_NoDup.
  - intros i r Hin. rewrite !in_app_iff in Hin.
    destruct Hin as [Hin|[Hin|[Hin|Hin]]]; by apply In_select_group in Hin as [? _].
Qed.

End TowerPopups.

(** ** The county layer and the licence groups *)
Section Counties.
Import PyStr FCCTower.
Context {G : Type} `{Shapely G}.

(** X18. For a county frame whose rows all have a name, or which has no
    name column: the county layer is shown by default and holds the county
    outlines followed by one label per county, in the order of the county
    file; a county's popup lists the licences of the state whose county
    name is the county's, in the order of the licence file; without a name
    column every county is labelled and joined as 'Unknown County'. *)
Theorem county_layer_spec (counties : list (CountyRow G)) (recs : list CbrsRecord)
    (abbr : string) :
  Forall (fun row => is_Some (county_row_name row)) counties \/
  Forall (fun row => county_row_name row = None) counties ->
  county_layer counties (load_cbrs_data_filtered (Some recs) abbr) =
  {| fg_name := "County Outline"; fg_show := true;
     fg_children :=
       GeoJson (List.map county_geometry counties) (outline_style "blue" 1)
       :: List.map (fun row =>
            Marker (centroid (county_geometry row))
              (DivIcon (default "Unknown County" (county_row_name row)))
              (CbrsPopup (List.filter
                            (fun r => String.eqb (cbrs_state_abbr r) abbr &&
                                      bool_decide (cbrs_county_name r =
                                                   Some (default "Unknown County"
                                                           (county_row_name row))))
                            recs)))
            counties |}.
Proof.
  intros _. unfold county_layer. rewrite foldl_add_to_group.
  cbn [add_to_group new_FeatureGroup fg_name fg_show fg_children app].
  f_equal. f_equal. apply map_ext. intros row.
  rewrite cbrs_info_of_load, filter_filter_andb. reflexivity.
Qed.

Lemma groupby_county_name_exact (rows : list CbrsRecord) (k : string) :
  groupby_county_name rows !! k =
  match List.filter (fun r => bool_decide (cbrs_county_name r = Some k)) rows with
  | [] => None
  | group => Some group
  end.
Proof.
  unfold groupby_county_name.
  match goal with
  | |- context [foldl ?f ∅ rows] =>
      enough (Hgen : forall acc : gmap string (list CbrsRecord),
                 foldl f acc rows !! k =
                 match List.filter (fun r => bool_decide (cbrs_county_name r = Some k))
                         rows with
                 | [] => acc !! k
                 | group => Some (default [] (acc !! k) ++ group)
                 end)
  end.
  { rewrite Hgen, lookup_empty. by destruct (List.filter _ rows). }
  induction rows as [|r rows IH]; intros acc; [reflexivity|].
  cbn [foldl List.filter]. rewrite IH.
  destruct (cbrs_county_name r) as [k'|] eqn:Ek.
  - destruct (decide (k' = k)) as [->|Hne].
    + rewrite lookup_insert_eq, bool_decide_true by done. cbn [default from_option id].
      destruct (List.filter _ rows); [reflexivity|]. by rewrite <- app_assoc.
    + rewrite lookup_insert_ne, bool_decide_false by congruence. reflexivity.
  - rewrite bool_decide_false by done. reflexivity.
Qed.

(** X19. The licence groups, for a licence file in which some row of
    the state has a county name: a county name is a key exactly when some
    row of the state carries it, its group is the rows of that name in
    file order, and no group is empty; the state loader gives the groups
    that the other loader gives for the rows of the state, and the other
    loader groups the rows of the whole file in the same way. *)
Theorem load_cbrs_data_groups (rows : list CbrsRecord) (abbr k : string) :
  (exists r, In r rows /\ cbrs_state_abbr r = abbr /\ is_Some (cbrs_county_name r)) ->
  load_cbrs_data_filtered (Some rows) abbr !! k =
    match List.filter (fun r => String.eqb (cbrs_state_abbr r) abbr &&
                                bool_decide (cbrs_county_name r = Some k)) rows with
    | [] => None
    | group => Some group
    end /\
  load_cbrs_data_filtered (Some rows) abbr !! k <> Some [] /\
  load_cbrs_data_filtered (Some rows) abbr =
    load_cbrs_data (List.filter (fun r => String.eqb (cbrs_state_abbr r) abbr) rows) /\
  load_cbrs_data rows !! k =
    match List.filter (fun r => bool_decide (cbrs_county_name r = Some k)) rows with
    | [] => None
    | group => Some group
    end.
Proof.
  intros _.
  assert (Hf : load_cbrs_data_filtered (Some rows) abbr =
               load_cbrs_data
                 (List.filter (fun r => String.eqb (cbrs_state_abbr r) abbr) rows)).
  { unfold load_cbrs_data_filtered, load_cbrs_data.
    by destruct (List.filter _ rows). }
  rewrite Hf. unfold load_cbrs_data. rewrite !groupby_county_name_exact.
  rewrite filter_filter_andb. clear Hf.
  split; [reflexivity|]. split; [|split; reflexivity].
  match goal with |- context [List.filter ?f rows] => destruct (List.filter f rows) end;
    discriminate.
Qed.

End Counties.

(** ** The cluster icon script *)
Section ClusterIcon.
Import PyStr FCCTower.

Local Ltac settle_leb :=
  repeat match goal with
         | |- context [(?a <=? ?b)%Z] =>
             first [ rewrite (proj2 (Z.leb_le a b)) by lia
                   | rewrite (proj2 (Z.leb_gt a b)) by lia ]
         end.

(** X20. The colour of a cluster icon by the number of markers in the
    cluster: the upper end of a range belongs to the range, so that 50,
    100, 200, 400, 700, 1000 and 2000 take the colour of the range they
    close; a count below 1 takes the fallback grey.  The number is written
    in black for 1 to 700 markers and in white otherwise. *)
Theorem cluster_icon_colours (childCount : Z) :
  clusterColor childCount =
    (if (childCount <=? 0)%Z then "#333333"
     else if (childCount <=? 50)%Z then "#00ff00"
     else if (childCount <=? 100)%Z then "#80ff00"
     else if (childCount <=? 200)%Z then "#ffff00"
     else if (childCount <=? 400)%Z then "#ffbf00"
     else if (childCount <=? 700)%Z then "#ff8000"
     else if (childCount <=? 1000)%Z then "#ff4000"
     else if (childCount <=? 2000)%Z then "#ff0000"
     else "#800000") /\
  getTextColor (clusterColor childCount) =
    Some (if (1 <=? childCount)%Z && (childCount <=? 700)%Z then "black" else "white").
Proof.
  unfold clusterColor, cluster_ranges, in_cluster_range. cbn [List.find fst snd].
  assert (Hcases : (childCount <= 0 \/ 1 <= childCount <= 50 \/ 51 <= childCount <= 100 \/
                    101 <= childCount <= 200 \/ 201 <= childCount <= 400 \/
                    401 <= childCount <= 700 \/ 701 <= childCount <= 1000 \/
                    1001 <= childCount <= 2000 \/ 2001 <= childCount)%Z) by lia.
  destruct Hcases as [?|[?|[?|[?|[?|[?|[?|[?|?]]]]]]]];
    settle_leb; cbn [andb]; split; reflexivity.
Qed.

End ClusterIcon.

(** ** The batch run *)
Section Batch.
Import PyStr FCCTower BatchGenerator.
Context {G : Type} `{Shapely G} `{Math}.

(** A state whose map the generator returns. *)
Local Abbreviation generates :=
  (fun inp : Inputs G =>
     negb (Nat.eqb (length (state_outline inp)) 0) &&
     bool_decide (is_Some (antenna_file inp))).

Lemma generate_map_for_state_generates (inp : Inputs G) (st : RandomState) :
  fst (generate_map_for_state inp st) = generates inp.
Proof.
  unfold generate_map_for_state.
  pose proof (create_map_sections inp st) as Hs.
  destruct (state_outline inp) as [|g gs].
  - rewrite Hs. reflexivity.
  - destruct (antenna_file inp) as [rows|].
    + destruct Hs as (W & Hs & _).
      destruct (create_map_fcc_towers inp st) as [r st']. cbn [fst] in Hs.
      rewrite Hs. reflexivity.
    + destruct (create_map_fcc_towers inp st) as [r st']. cbn [fst] in Hs.
      rewrite Hs. reflexivity.
Qed.

(** The counts of the loop: the states before the interrupted one are
    counted, each once. *)
Lemma run_states_counts (states : list (Inputs G)) (interrupt_at : option nat)
    (i successful failed : nat) (st : RandomState) :
  match interrupt_at with Some k => (i <= k)%nat | None => True end ->
  let done_states :=
    match interrupt_at with Some k => firstn (k - i) states | None => states end in
  fst (run_states states interrupt_at i successful failed st) =
    ((successful + length (List.filter generates done_states))%nat,
     (failed + length (List.filter (fun inp => negb (generates inp)) done_states))%nat).
Proof.
  cbv zeta. revert i successful failed st.
  induction states as [|inp rest IH]; intros i successful failed st Hi.
  - cbn [run_states fst].
    destruct interrupt_at; rewrite ?firstn_nil; cbn [List.filter length];
      by rewrite !Nat.add_0_r.
  - cbn [run_states].
    assert (Hstep : forall s f, 
               match interrupt_at with Some k => k <> i | None => True end ->
               fst (let '(ok, st') := generate_map_for_state inp st in
                    if ok then run_states rest interrupt_at (S i) (S s) f st'
                    else run_states rest interrupt_at (S i) s (S f) st') =
               ((s + length (List.filter generates
                               (inp :: match interrupt_at with
                                       | Some k => firstn (k - S i) rest
                                       | None => rest
                                       end)))%nat,
                (f + length (List.filter (fun inp => negb (generates inp))
                               (inp :: match interrupt_at with
                                       | Some k => firstn (k - S i) rest
                                       | None => rest
                                       end)))%nat)).
    { intros s f Hne.
      pose proof (generate_map_for_state_generates inp st) as Hok.
      destruct (generate_map_for_state inp st) as [ok st']. cbn [fst] in Hok.
      cbn [List.filter]. rewrite <- Hok.
      assert (Hi' : match interrupt_at with Some k => (S i <= k)%nat | None => True end).
      { destruct interrupt_at; [lia | exact I]. }
      destruct ok; rewrite IH by exact Hi'; cbn [negb length]; f_equal; lia. }
    destruct interrupt_at as [k|].
    + destruct (decide (k = i)) as [->|Hne].
      * rewrite bool_decide_true by done. rewrite Nat.sub_diag.
        cbn [firstn List.filter length fst]. by rewrite !Nat.add_0_r.
      * rewrite bool_decide_false by congruence.
        replace (k - i)%nat with (S (k - S i)) by lia. cbn [firstn].
        by apply Hstep.
    + rewrite bool_decide_false by done. by apply Hstep.
Qed.

(** X21. A batch run that is not interrupted ends with its summary: the
    two counts add up to the number of states, and every state whose state
    outline has no row or whose antenna file is missing is among the
    failed, so that no more states count as successful than have both. *)
Theorem generate_all_maps_counts (states : list (Inputs G)) (st : RandomState) :
  states <> [] ->
  exists successful failed,
    generate_all_maps states None st = Summary successful failed /\
    (successful + failed)%nat = length states /\
    (length (List.filter (fun inp => negb (generates inp)) states) <= failed)%nat /\
    (successful <= length (List.filter generates states))%nat.
Proof.
  intros Hne.
  assert (Hsum : (length (List.filter generates states)
                  + length (List.filter (fun inp => negb (generates inp)) states))%nat
                 = length states).
  { rewrite Nat.add_comm. apply (filter_partition_length generates). }
  exists (length (List.filter generates states)),
         (length (List.filter (fun inp => negb (generates inp)) states)).
  split; [|split; [exact Hsum | split; apply le_n]].
  unfold generate_all_maps. destruct states as [|inp rest]; [done|].
  pose proof (run_states_counts (inp :: rest) None 0 0 0 st I) as Hc. cbv zeta in Hc.
  destruct (run_states (inp :: rest) None 0 0 0 st) as [[s f] st'].
  cbn [fst] in Hc.
  assert (Hs : s = length (List.filter generates (inp :: rest))) by (by injection Hc).
  assert (Hf : f = length (List.filter (fun inp => negb (generates inp)) (inp :: rest)))
    by (by injection Hc).
  rewrite Hs, Hf, Hsum. reflexivity.
Qed.

(** X22. A batch run interrupted during the state at position [k] has
    counted the [k] states before it and no other.  Interrupted during the
    first state, it has counted none, and its summary fails on the average
    time per map, a division by zero. *)
Theorem generate_all_maps_interrupted (states : list (Inputs G)) (k : nat)
    (st : RandomState) :
  states <> [] ->
  generate_all_maps states (Some k) st =
    match k with
    | O => ZeroDivisionError
    | S _ => Summary (length (List.filter generates (firstn k states)))
               (length (List.filter (fun inp => negb (generates inp)) (firstn k states)))
    end.
Proof.
  intros Hne. unfold generate_all_maps. destruct states as [|inp rest]; [done|].
  pose proof (run_states_counts (inp :: rest) (Some k) 0 0 0 st (Nat.le_0_l k)) as Hc.
  cbv iota zeta in Hc. rewrite Nat.sub_0_r in Hc.
  destruct (run_states (inp :: rest) (Some k) 0 0 0 st) as [[s f] st'].
  cbn [fst] in Hc.
  assert (Hs : s = length (List.filter generates (firstn k (inp :: rest))))
    by (by injection Hc).
  assert (Hf : f = length (List.filter (fun inp => negb (generates inp))
                             (firstn k (inp :: rest)))) by (by injection Hc).
  rewrite Hs, Hf. clear Hc Hs Hf.
  destruct k as [|k]; [reflexivity|].
  pose proof (filter_partition_length generates (firstn (S k) (inp :: rest))) as Hsum.
  cbn [firstn length] in Hsum.
  destruct (Nat.eqb_spec
              (length (List.filter generates (firstn (S k) (inp :: rest)))
               + length (List.filter (fun inp => negb (generates inp))
                           (firstn (S k) (inp :: rest)))) 0) as [E|_]; [|reflexivity].
  cbn [firstn] in E. lia.
Qed.

End Batch.

(** ** The further properties at concrete regions *)
Section MoreSamples.
Import FCCTowerExtraction FCCTower BatchGenerator Sample.


Lemma default_visibility_witness :
  exists m,
    fst (create_map_fcc_towers with_towers (rng 255)) = Ok m /\
    forall fg, In fg (feature_groups m) ->
      (fg_show fg = true <->
       In (fg_name fg) ["State Outline"; "County Outline"; "BEAD Eligible Locations";
                        "BEAD Eligible Locations Round 1"]).
Proof.
  eexists. split; [reflexivity|].
  exact (default_visibility with_towers (rng 255) _ eq_refl).
Defined.

Lemma layer_names_unique_witness :
  exists m,
    fst (create_map_fcc_towers with_known_wisp (rng 255)) = Ok m /\
    NoDup (wisp_layer_names (wisp_folder with_known_wisp)) /\
    NoDup (layer_names m).
Proof.
  assert (Hw : NoDup (wisp_layer_names (wisp_folder with_known_wisp))).
  { apply NoDup_singleton. }
  eexists. split; [reflexivity|]. split; [exact Hw|].
  exact (layer_names_unique with_known_wisp (rng 255) _ eq_refl Hw).
Defined.

Lemma extractor_groups_all_marked_witness :
  let rows := [tower 0 0 "Crown Castle"; tower 1 1 "Other"; tower 2 2 "SBA"] in
  let g : AntennaGroups Shape := antenna_block rows in
  length rows = 3%nat /\
  Forall (fun r => In (grouped_entity r) ["Other"; "American Towers"; "SBA"; "Crown Castle"])
    rows /\
  (layer_features (fg_antennas g) + layer_features (fg_antennas_american_towers g)
   + layer_features (fg_antennas_sba_towers g)
   + layer_features (fg_antennas_crown_castle g))%nat = 3%nat.
Proof.
  exact (extractor_groups_all_marked (G:=Shape) (Some (fun name : string => Some name))
           ["Crown Castle USA"; "City of Foo"; "SBA Towers III"]
           [tower 0 0 "Crown Castle"; tower 1 1 "Other"; tower 2 2 "SBA"] eq_refl).
Defined.

Lemma generate_all_maps_counts_witness :
  exists successful failed,
    generate_all_maps [with_towers; required_only; with_known_wisp] None (rng 255) =
      Summary successful failed /\
    (successful + failed)%nat = 3%nat /\
    (1 <= failed)%nat.
Proof.
  destruct (generate_all_maps_counts [with_towers; required_only; with_known_wisp]
              (rng 255) ltac:(discriminate)) as (successful & failed & E & Hsum & Hf & _).
  exists successful, failed. split; [exact E|]. split; [exact Hsum | exact Hf].
Defined.

Lemma add_wisp_layers_spec_witness :
  Forall (fun f : string * list Shape => PyStr.isascii (fst f) = true)
    [("Acme Wireless.sqlite", [square]); ("Verizon Fixed.sqlite", [square]);
     ("notes.txt", [])] /\
  pos (snd (add_wisp_layers blank_map
              (Some [("Acme Wireless.sqlite", [square]); ("Verizon Fixed.sqlite", [square]);
                     ("notes.txt", [])]) (rng 255))) = 1%nat.
Proof.
  assert (Hascii : Forall (fun f : string * list Shape => PyStr.isascii (fst f) = true)
                     [("Acme Wireless.sqlite", [square]);
                      ("Verizon Fixed.sqlite", [square]); ("notes.txt", [])]).
  { repeat (apply List.Forall_cons; [reflexivity|]). apply List.Forall_nil. }
  split; [exact Hascii|].
  destruct (add_wisp_layers_spec Shape blank_map
              (Some [("Acme Wireless.sqlite", [square]); ("Verizon Fixed.sqlite", [square]);
                     ("notes.txt", [])]) (rng 255) Hascii)
    as (_ & W & _ & _ & _ & Hpos).
  exact Hpos.
Defined.

Lemma county_layer_spec_witness :
  region_record_lists
    (county_layer [county "Addison"; county "Essex"]
       (load_cbrs_data_filtered
          (Some [licence "Essex" "VT"; licence "Addison" "NH"; licence "Addison" "VT";
                 licence "Essex" "VT"]) "VT")) =
  [[licence "Addison" "VT"]; [licence "Essex" "VT"; licence "Essex" "VT"]].
Proof.
  assert (Hnamed : Forall (fun row : CountyRow Shape => is_Some (county_row_name row))
                     [county "Addison"; county "Essex"]).
  { repeat (apply List.Forall_cons; [by eexists|]). apply List.Forall_nil. }
  rewrite (county_layer_spec [county "Addison"; county "Essex"]
             [licence "Essex" "VT"; licence "Addison" "NH"; licence "Addison" "VT";
              licence "Essex" "VT"] "VT" (or_introl Hnamed)).
  reflexivity.
Defined.

Lemma load_cbrs_data_groups_witness :
  load_cbrs_data_filtered
    (Some [licence "Essex" "VT"; licence "Addison" "NH"; licence "Essex" "VT"]) "VT"
    !! "Essex" = Some [licence "Essex" "VT"; licence "Essex" "VT"] /\
  load_cbrs_data_filtered
    (Some [licence "Essex" "VT"; licence "Addison" "NH"; licence "Essex" "VT"]) "VT"
    !! "Addison" = None.
Proof.
  assert (Hrow : exists r,
             In r [licence "Essex" "VT"; licence "Addison" "NH"; licence "Essex" "VT"] /\
             cbrs_state_abbr r = "VT" /\ is_Some (cbrs_county_name r)).
  { exists (licence "Essex" "VT"). split; [by left|]. split; [reflexivity | by eexists]. }
  split.
  - exact (proj1 (load_cbrs_data_groups
                    [licence "Essex" "VT"; licence "Addison" "NH"; licence "Essex" "VT"]
                    "VT" "Essex" Hrow)).
  - exact (proj1 (load_cbrs_data_groups
                    [licence "Essex" "VT"; licence "Addison" "NH"; licence "Essex" "VT"]
                    "VT" "Addison" Hrow)).
Defined.

Lemma generate_all_maps_interrupted_witness :
  generate_all_maps [with_towers; required_only; with_known_wisp] (Some 0%nat) (rng 255) =
    ZeroDivisionError /\
  generate_all_maps [with_towers; required_only; with_known_wisp] (Some 2%nat) (rng 255) =
    Summary 1 1.
Proof.
  split.
  - exact (generate_all_maps_interrupted [with_towers; required_only; with_known_wisp]
             0 (rng 255) ltac:(discriminate)).
  - exact (generate_all_maps_interrupted [with_towers; required_only; with_known_wisp]
             2 (rng 255) ltac:(discriminate)).
Defined.

End MoreSamples.
